(** * InvestIQ backend: data handling, signal translation, metrics and cache

    A shallow embedding of the Python backend
    ([backend/app/finrl_integration.py], [backend/app/routers/predict.py],
    [backend/app/yfinance_client.py], [backend/app/config.py],
    [backend/app/main.py], [backend/train_model.py]).

    Conventions of the embedding.
    - Python [float]s are idealised as real numbers ([R]); exceptional float
      values (inf, NaN as a number) and binary rounding error are not
      modelled.  A missing cell of a pandas frame (NaN / None) is [None].
    - A [datetime] is a number of microseconds ([Z]); [timedelta(days=d)] and
      [timedelta(minutes=m)] are the corresponding multiples.
    - A raised exception is the [Raise] result; code that reads the clock or
      calls an external service threads an explicit world state.
    - The external libraries (yfinance, FinRL, stable-baselines3) are
      parameters of the sections that use them.
    - The body of a provider reply is an arbitrary JSON value, read with
      the semantics of Python's [dict.get], truth test, [or] and [[0]];
      what Python and pandas make of timestamps and series that are not
      arrays of numbers is a parameter too.
    - Strings are sequences of ASCII characters: [str.upper] and
      [str.strip] are the ASCII parts of the Python functions. *)

From Stdlib Require Import Reals Lra Ascii.
From stdpp Require Import base option list gmap strings sorting.

(** ** Results and exceptions *)

(** [FinRLException] is the [RuntimeError] subclass of
    [finrl_integration.py]; the built-in exceptions carry their message. *)
Inductive exn :=
| FinRLException (msg : string)
| ValueError (msg : string)
| RuntimeError (msg : string)
| FileNotFoundError
| IndexError
| ZeroDivisionError
| AttributeError
| TypeError
| KeyError
| LibraryError (code : Z).  (* anything raised inside an external library *)

Inductive result (A : Type) :=
| Ok (a : A)
| Raise (e : exn).
Arguments Ok {A} a.
Arguments Raise {A} e.

Definition rbind {A B} (r : result A) (k : A -> result B) : result B :=
  match r with
  | Ok a => k a
  | Raise e => Raise e
  end.

Notation "'let?' x := r 'in' k" := (rbind r (fun x => k))
  (at level 10, x pattern, r at level 100, k at level 200).

(** ** Numbers *)

(** Round half to even, the rule of Python's [round]. *)
Definition round_half_even (y : R) : Z :=
  let n := Int_part y in
  let f := frac_part y in
  if Rlt_dec f (1 / 2) then n
  else if Rlt_dec (1 / 2) f then (n + 1)%Z
  else if Z.even n then n else (n + 1)%Z.

(** [round(x, ndigits)] on a float. *)
Definition py_round (x : R) (ndigits : nat) : R :=
  (IZR (round_half_even (x * 10 ^ ndigits)) / 10 ^ ndigits)%R.

(** ** Raw policy actions *)

(** What the [actions] column of the action frame can hold: a scalar, a
    list, a tuple or a one-dimensional numpy array. *)
Inductive action_value :=
| Scalar (x : R)
| PyList (xs : list R)
| PyTuple (xs : list R)
| NdArray (xs : list R).

(** [bool(v)] for the sequence kinds.  A list or tuple is true when it is
    not empty.  A numpy array of one element has the truth value of that
    element and an array of several elements raises [ValueError].  The
    truth value of the empty array depends on the numpy version, which the
    repository does not pin: it is false, with a deprecation warning,
    before numpy 2.2 and a [ValueError] from 2.2 on.  The definition takes
    the older behaviour; what is proved about the outcome of a conversion
    of arrays leaves the empty array out. *)
Definition seq_truth (v : action_value) : result bool :=
  match v with
  | Scalar x => Ok (if Req_dec_T x 0 then false else true)
  | PyList xs | PyTuple xs =>
      Ok (match xs with [] => false | _ => true end)
  | NdArray [] => Ok false
  | NdArray [x] => Ok (if Req_dec_T x 0 then false else true)
  | NdArray (_ :: _ :: _) =>
      Raise (ValueError "The truth value of an array with more than one element is ambiguous. Use a.any() or a.all()")
  end.

(** [action_value[0]]. *)
Definition seq_first (v : action_value) : result R :=
  match v with
  | Scalar _ => Raise IndexError
  | PyList xs | PyTuple xs | NdArray xs =>
      match xs with
      | x :: _ => Ok x
      | [] => Raise IndexError
      end
  end.

(** [_action_to_scalar], the same function in [finrl_integration.py]
    (a static method of [FinRLService]) and in [routers/predict.py]:
<<
    if isinstance(action_value, (list, tuple, np.ndarray)):
        return float(action_value[0]) if action_value else 0.0
    return float(action_value)
>> *)
Definition _action_to_scalar (action_value : action_value) : result R :=
  match action_value with
  | Scalar x => Ok x
  | _ =>
      let? b := seq_truth action_value in
      if (b : bool) then seq_first action_value else Ok 0%R
  end.

(** ** Signal translation *)

(** [_estimate_price_from_action] of [FinRLService]:
<<
    if action is None:
        return reference_close
    signal = np.tanh(action / hmax)
    return round(reference_close * (1 + signal * 0.01), 4)
>>
    [action] is a Python float here, so a zero [hmax] raises. *)
Definition _estimate_price_from_action
    (reference_close : R) (action : option R) (hmax : Z) : result R :=
  match action with
  | None => Ok reference_close
  | Some action =>
      if decide (hmax = 0%Z) then Raise ZeroDivisionError
      else
        let signal := tanh (action / IZR hmax) in
        Ok (py_round (reference_close * (1 + signal * 0.01)) 4)
  end.

(** [_estimate_price] of the prediction router, the same transform. *)
Definition _estimate_price
    (latest_close : R) (action : option R) (hmax : Z) : result R :=
  match action with
  | None => Ok latest_close
  | Some action =>
      if decide (hmax = 0%Z) then Raise ZeroDivisionError
      else
        let signal := tanh (action / IZR hmax) in
        Ok (py_round (latest_close * (1 + signal * 0.01)) 4)
  end.

(** ** Time *)

Definition microseconds_per_second : Z := 1000000.
Definition timedelta_days (d : Z) : Z := d * 86400 * microseconds_per_second.
Definition timedelta_minutes (m : Z) : Z := m * 60 * microseconds_per_second.

(** ** Frames *)

(** A row as the chart provider gives it: every value may be missing. *)
Record candle := {
  Date : Z;
  Open : option R;
  High : option R;
  Low : option R;
  Close : option R;
  Adj_Close : option R;
  Volume : option R;
}.

(** A row of the cleaned price frame ([date], [tic] and the renamed
    columns), after [dropna]. *)
Record bar := {
  date : Z;
  tic : string;
  open : R;
  high : R;
  low : R;
  close : R;
  adj_close : R;
  volume : R;
}.

(** A row of the frame that the indicator computation returns: the price
    columns and one cell per indicator, each possibly missing. *)
Record indicator_row := {
  i_date : Z;
  i_tic : string;
  i_open : option R;
  i_high : option R;
  i_low : option R;
  i_close : option R;
  i_adj_close : option R;
  i_volume : option R;
  i_indicators : list (option R);
}.

(** A row of the processed frame, after [ffill().dropna()]. *)
Record feature_row := {
  f_date : Z;
  f_tic : string;
  f_open : R;
  f_high : R;
  f_low : R;
  f_close : R;
  f_adj_close : R;
  f_volume : R;
  f_indicators : list R;
}.

(** The rename of [_download_market_data] / [_fetch_market_data] followed
    by [dropna] on one row: a row with a missing value is dropped. *)
Definition clean_candle (symbol : string) (c : candle) : option bar :=
  o ← Open c; h ← High c; l ← Low c; cl ← Close c;
  a ← Adj_Close c; v ← Volume c;
  Some {| date := Date c; tic := symbol; open := o; high := h; low := l;
          close := cl; adj_close := a; volume := v |}.

(** [sort_values("date")]; the order pandas gives to rows of equal date is
    not specified, here the sort is a merge sort on [date]. *)
Definition date_le (x y : bar) : Prop := (date x <= date y)%Z.
#[global] Instance date_le_dec x y : Decision (date_le x y).
Proof. unfold date_le. apply _. Defined.

Definition sort_values_date (frame : list bar) : list bar :=
  merge_sort date_le frame.

(** [dropna] on an indicator frame, one row. *)
Fixpoint all_present (cells : list (option R)) : option (list R) :=
  match cells with
  | [] => Some []
  | c :: cs => x ← c; xs ← all_present cs; Some (x :: xs)
  end.

Definition clean_indicator_row (r : indicator_row) : option feature_row :=
  o ← i_open r; h ← i_high r; l ← i_low r; cl ← i_close r;
  a ← i_adj_close r; v ← i_volume r; ind ← all_present (i_indicators r);
  Some {| f_date := i_date r; f_tic := i_tic r; f_open := o; f_high := h;
          f_low := l; f_close := cl; f_adj_close := a; f_volume := v;
          f_indicators := ind |}.

Definition dropna (frame : list indicator_row) : list feature_row :=
  omap clean_indicator_row frame.

(** A processed row seen as a row with nullable cells. *)
Definition nullable (r : feature_row) : indicator_row :=
  {| i_date := f_date r; i_tic := f_tic r; i_open := Some (f_open r);
     i_high := Some (f_high r); i_low := Some (f_low r);
     i_close := Some (f_close r); i_adj_close := Some (f_adj_close r);
     i_volume := Some (f_volume r);
     i_indicators := Some <$> f_indicators r |}.

(** No cell of the row is missing. *)
Definition has_no_null (r : indicator_row) : Prop :=
  is_Some (i_open r) ∧ is_Some (i_high r) ∧ is_Some (i_low r) ∧
  is_Some (i_close r) ∧ is_Some (i_adj_close r) ∧ is_Some (i_volume r) ∧
  Forall is_Some (i_indicators r).

#[global] Instance has_no_null_dec (r : indicator_row) : Decision (has_no_null r).
Proof. unfold has_no_null. apply _. Defined.

(** [ffill]: a missing cell takes the last value seen above it in its
    column. *)
Definition fill (above cell : option R) : option R :=
  match cell with
  | Some _ => cell
  | None => above
  end.

Fixpoint fill_cells (above cells : list (option R)) : list (option R) :=
  match cells with
  | [] => []
  | c :: cs =>
      match above with
      | [] => c :: cs
      | a :: as' => fill a c :: fill_cells as' cs
      end
  end.

Definition fill_row (above r : indicator_row) : indicator_row :=
  {| i_date := i_date r; i_tic := i_tic r;
     i_open := fill (i_open above) (i_open r);
     i_high := fill (i_high above) (i_high r);
     i_low := fill (i_low above) (i_low r);
     i_close := fill (i_close above) (i_close r);
     i_adj_close := fill (i_adj_close above) (i_adj_close r);
     i_volume := fill (i_volume above) (i_volume r);
     i_indicators := fill_cells (i_indicators above) (i_indicators r) |}.

Fixpoint ffill_from (above : indicator_row) (frame : list indicator_row)
    : list indicator_row :=
  match frame with
  | [] => []
  | r :: rest => let r' := fill_row above r in r' :: ffill_from r' rest
  end.

Definition ffill (frame : list indicator_row) : list indicator_row :=
  match frame with
  | [] => []
  | r :: rest => r :: ffill_from r rest
  end.

(** [frame.tail(n)]: the last [n] rows, in their order. *)
Definition tail {A} (n : nat) (frame : list A) : list A :=
  drop (length frame - n) frame.

(** [frame.iloc[-1]]. *)
Definition iloc_last {A} (frame : list A) : result A :=
  match last frame with
  | Some r => Ok r
  | None => Raise IndexError
  end.

(** ** Effects

    A computation that reads the clock or talks to an external service takes
    the state of the world and returns its result with the new state. *)

Definition io (World A : Type) : Type := World -> result A * World.

Definition ret {World A} (a : A) : io World A := fun w => (Ok a, w).
Definition raise {World A} (e : exn) : io World A := fun w => (Raise e, w).
Definition lift {World A} (r : result A) : io World A := fun w => (r, w).
Definition bind {World A B} (m : io World A) (k : A -> io World B)
    : io World B :=
  fun w =>
    match m w with
    | (Ok a, w') => k a w'
    | (Raise e, w') => (Raise e, w')
    end.

Notation "'let!' x := m 'in' k" := (bind m (fun x => k))
  (at level 10, x pattern, m at level 100, k at level 200).

(** ** JSON values

    What [response.json()] returns: [None], a [bool], an [int], a [float], a
    [str], a [list] or a [dict] with string keys.  A [dict] is the list of
    its members, one per key. *)
#[local] Unset Elimination Schemes.
Inductive json :=
| JNull
| JBool (b : bool)
| JInt (n : Z)
| JFloat (x : R)
| JString (s : string)
| JArray (items : list json)
| JObject (members : list (string * json)).
#[local] Set Elimination Schemes.

(** [bool(v)]: what [if v], [not v] and [v or d] test. *)
Definition truthy (v : json) : bool :=
  match v with
  | JNull => false
  | JBool b => b
  | JInt n => negb (n =? 0)%Z
  | JFloat x => if Req_dec_T x 0 then false else true
  | JString s => match s with EmptyString => false | _ => true end
  | JArray items => match items with [] => false | _ => true end
  | JObject members => match members with [] => false | _ => true end
  end.

(** [v or d]. *)
Definition py_or (v d : json) : json := if truthy v then v else d.

(** The member of a [dict] under a key. *)
Fixpoint member (key : string) (members : list (string * json))
    : option json :=
  match members with
  | [] => None
  | (k, v) :: rest => if String.eqb k key then Some v else member key rest
  end.

(** [v.get(key, d)]; [v.get(key)] is [dict_get v key JNull].  Only a [dict]
    has the method. *)
Definition dict_get (v : json) (key : string) (d : json) : result json :=
  match v with
  | JObject members => Ok (default d (member key members))
  | _ => Raise AttributeError
  end.

(** [v[0]].  A [dict] read from JSON has no key [0]. *)
Definition subscript0 (v : json) : result json :=
  match v with
  | JArray (x :: _) => Ok x
  | JString (String c _) => Ok (JString (String c EmptyString))
  | JArray [] | JString EmptyString => Raise IndexError
  | JObject _ => Raise KeyError
  | JNull | JBool _ | JInt _ | JFloat _ => Raise TypeError
  end.

(** ** The chart provider client ([yfinance_client.py]) *)

Module YFinanceClient.

(** [_align_length]:
<<
    if values is None:
        return [None] * length
    if len(values) == length:
        return values
    if len(values) > length:
        return values[:length]
    return values + [None] * (length - len(values))
>> *)
Definition _align_length {A} (values : option (list (option A)))
    (length : nat) : list (option A) :=
  match values with
  | None => replicate length None
  | Some values =>
      if decide (List.length values = length) then values
      else if decide (length < List.length values) then take length values
      else values ++ replicate (length - List.length values) None
  end.

(** [_to_unix_timestamp]: whole seconds, [int] truncates. *)
Definition _to_unix_timestamp (value : Z) : Z :=
  Z.quot value microseconds_per_second.

(** A result of the chart endpoint whose timestamps are integers and whose
    series are arrays of numbers and nulls, as far as the client reads it.
    A key that is absent or null is [None]; [indicators.quote] and
    [indicators.adjclose] that are absent, null or empty are [[]]. *)
Record quote := {
  q_open : option (list (option R));
  q_high : option (list (option R));
  q_low : option (list (option R));
  q_close : option (list (option R));
  q_volume : option (list (option R));
}.

Record adjclose_entry := {
  adjclose : option (list (option R));
}.

Record chart_result := {
  timestamp : list Z;
  indicators_quote : list quote;
  indicators_adjclose : list adjclose_entry;
}.

(** What [session.get] can do: fail in transport, or answer with a status
    code and a body that is JSON or not. *)
Inductive http_reply :=
| TransportFailure
| Reply (status_code : Z) (body : option json).

(** The frame the client builds, column by column. *)
Record price_frame := {
  col_Date : list Z;
  col_Open : list (option R);
  col_High : list (option R);
  col_Low : list (option R);
  col_Close : list (option R);
  col_Adj_Close : list (option R);
  col_Volume : list (option R);
}.

(** [pd.DataFrame()]. *)
Definition empty_frame : price_frame :=
  {| col_Date := []; col_Open := []; col_High := []; col_Low := [];
     col_Close := []; col_Adj_Close := []; col_Volume := [] |}.

(** The rows of a frame whose columns have the length of [col_Date]. *)
Definition rows (frame : price_frame) : list candle :=
  imap (fun i t =>
          {| Date := t;
             Open := mjoin (col_Open frame !! i);
             High := mjoin (col_High frame !! i);
             Low := mjoin (col_Low frame !! i);
             Close := mjoin (col_Close frame !! i);
             Adj_Close := mjoin (col_Adj_Close frame !! i);
             Volume := mjoin (col_Volume frame !! i) |})
       (col_Date frame).

(** The [{}] that stands for a missing quote or adjclose entry. *)
Definition no_quote : quote :=
  {| q_open := None; q_high := None; q_low := None; q_close := None;
     q_volume := None |}.
Definition no_adjclose : adjclose_entry := {| adjclose := None |}.

(** The part of [download_price_history] after the chart's result list is
    read: pick the first result and build the frame. *)
Definition frame_of_results (results : list chart_result) : price_frame :=
  match results with
  | [] => empty_frame
  | result :: _ =>
      let timestamps := timestamp result in
      let quote := default no_quote (head (indicators_quote result)) in
      let adj_close_values :=
        adjclose (default no_adjclose (head (indicators_adjclose result))) in
      match timestamps with
      | [] => empty_frame
      | _ =>
          let n := List.length timestamps in
          let opens := _align_length (q_open quote) n in
          let highs := _align_length (q_high quote) n in
          let lows := _align_length (q_low quote) n in
          let closes := _align_length (q_close quote) n in
          let volumes := _align_length (q_volume quote) n in
          let adj_closes :=
            _align_length
              (match adj_close_values with
               | Some v => Some v
               | None => Some closes
               end) n in
          {| col_Date := (fun t => t * microseconds_per_second)%Z <$> timestamps;
             col_Open := opens; col_High := highs; col_Low := lows;
             col_Close := closes; col_Adj_Close := adj_closes;
             col_Volume := volumes |}
      end
  end.

(** The timestamps and a series of a result, when they are what the frame
    is made for: an array of integers; null or an array of numbers and
    nulls. *)
Definition timestamp_of (v : json) : option Z :=
  match v with
  | JInt n => Some n
  | _ => None
  end.

Definition timestamps_of (v : json) : option (list Z) :=
  match v with
  | JArray items => mapM timestamp_of items
  | _ => None
  end.

Definition cell_of (v : json) : option (option R) :=
  match v with
  | JNull => Some None
  | JInt n => Some (Some (IZR n))
  | JFloat x => Some (Some x)
  | _ => None
  end.

Definition series_of (v : json) : option (option (list (option R))) :=
  match v with
  | JNull => Some None
  | JArray items => Some <$> mapM cell_of items
  | _ => None
  end.

(** What the embedding leaves to Python and pandas: [str(v)] of an error
    description that is not a string, and lines 99-120 on timestamps and
    series that are not of the kinds above (a [TypeError] of [len] or [+],
    or the frame of objects [pd.DataFrame] makes of them). *)
Record objects := {
  py_str : json -> string;
  frame_of_objects : json -> list json -> json -> result price_frame;
}.

Section Client.
Context {World : Type}.
(** [session.get(url, params, timeout=30)] for a symbol and the two period
    bounds; a failure of the call is the reply [TransportFailure]. *)
Variable session_get : string -> Z -> Z -> World -> http_reply * World.
Variable python : objects.

(** Lines 99-120 of [download_price_history], the frame of the timestamps
    and the series of a quote:
<<
    opens = _align_length(quote.get("open"), len(timestamps))
    highs = _align_length(quote.get("high"), len(timestamps))
    lows = _align_length(quote.get("low"), len(timestamps))
    closes = _align_length(quote.get("close"), len(timestamps))
    volumes = _align_length(quote.get("volume"), len(timestamps))
    adj_closes = _align_length(
        adj_close_values if adj_close_values is not None else closes,
        len(timestamps),
    )
    frame = pd.DataFrame({...})
    return frame
>> *)
Definition frame_of_series (timestamps quote adj_close_values : json)
    : result price_frame :=
  let? opens := dict_get quote "open" JNull in
  let? highs := dict_get quote "high" JNull in
  let? lows := dict_get quote "low" JNull in
  let? closes := dict_get quote "close" JNull in
  let? volumes := dict_get quote "volume" JNull in
  match
    timestamps_of timestamps, series_of opens, series_of highs,
    series_of lows, series_of closes, series_of volumes,
    series_of adj_close_values
  with
  | Some t, Some o, Some h, Some l, Some c, Some v, Some a =>
      Ok (frame_of_results
            [{| timestamp := t;
                indicators_quote :=
                  [{| q_open := o; q_high := h; q_low := l;
                      q_close := c; q_volume := v |}];
                indicators_adjclose := [{| adjclose := a |}] |}])
  | _, _, _, _, _, _, _ =>
      frame_of_objects python timestamps
        [opens; highs; lows; closes; volumes] adj_close_values
  end.

(** Lines 91-97, which pick the timestamps, the first quote and the first
    adjclose entry of a result:
<<
    timestamps = result.get("timestamp") or []
    indicators = result.get("indicators") or {}
    quote = (indicators.get("quote") or [{}])[0]
    adj_close_values = (indicators.get("adjclose") or [{}])[0].get("adjclose")
    if not timestamps:
        return pd.DataFrame()
>> *)
Definition frame_of_result (first : json) : result price_frame :=
  let? timestamps := dict_get first "timestamp" JNull in
  let? indicators := dict_get first "indicators" JNull in
  let indicators := py_or indicators (JObject []) in
  let? quotes := dict_get indicators "quote" JNull in
  let? quote := subscript0 (py_or quotes (JArray [JObject []])) in
  let? adjcloses := dict_get indicators "adjclose" JNull in
  let? adj_entry := subscript0 (py_or adjcloses (JArray [JObject []])) in
  let? adj_close_values := dict_get adj_entry "adjclose" JNull in
  if truthy timestamps then frame_of_series timestamps quote adj_close_values
  else Ok empty_frame.

(** Lines 83-91, which read the document outside the [try]:
<<
    chart = payload.get("chart", {})
    if error := chart.get("error"):
        description = error.get("description") or "Unknown Yahoo Finance error."
        raise RuntimeError(description)
    results = chart.get("result") or []
    if not results:
        return pd.DataFrame()

    result = results[0]
>> *)
Definition frame_of_payload (payload : json) : result price_frame :=
  let? chart := dict_get payload "chart" (JObject []) in
  let? error := dict_get chart "error" JNull in
  if truthy error then
    let? description := dict_get error "description" JNull in
    Raise (RuntimeError
             (match py_or description (JString "Unknown Yahoo Finance error.") with
              | JString d => d
              | other => py_str python other
              end))
  else
    let? results := dict_get chart "result" JNull in
    if truthy results then
      let? result := subscript0 results in
      frame_of_result result
    else Ok empty_frame.

(** [download_price_history]. *)
Definition download_price_history (symbol : string) (start end_ : Z)
    : io World price_frame :=
  if decide (end_ <= start)%Z then
    raise (ValueError "`end` must be greater than `start` when fetching history.")
  else
    let! reply :=
      (fun w =>
         let (reply, w1) :=
           session_get symbol (_to_unix_timestamp start)
             (_to_unix_timestamp end_) w in
         (Ok reply, w1)) in
    match reply with
    | TransportFailure => raise (RuntimeError "Unable to reach Yahoo Finance.")
    | Reply status_code body =>
        if decide (status_code = 429)%Z then
          raise (RuntimeError
                   "Yahoo Finance rate limit hit. Please wait a moment and try again.")
        else if decide (400 <= status_code < 600)%Z then
          raise (RuntimeError "Unable to reach Yahoo Finance.")
        else
          match body with
          | None => raise (RuntimeError "Unable to reach Yahoo Finance.")
          | Some payload => lift (frame_of_payload payload)
          end
    end.
End Client.

End YFinanceClient.

(** ** Documents of the chart shape

    The JSON document the chart endpoint sends for results whose timestamps
    are integers and whose series are arrays of numbers and nulls, with a
    value under [error]. *)

Module ChartDocument.
Import YFinanceClient.

Definition of_cell (c : option R) : json :=
  match c with
  | Some x => JFloat x
  | None => JNull
  end.

Definition of_series (series : option (list (option R))) : json :=
  match series with
  | Some values => JArray (of_cell <$> values)
  | None => JNull
  end.

Definition of_quote (q : quote) : json :=
  JObject [("open", of_series (q_open q)); ("high", of_series (q_high q));
           ("low", of_series (q_low q)); ("close", of_series (q_close q));
           ("volume", of_series (q_volume q))].

Definition of_adjclose (a : adjclose_entry) : json :=
  JObject [("adjclose", of_series (adjclose a))].

Definition of_result (r : chart_result) : json :=
  JObject
    [("timestamp", JArray (JInt <$> timestamp r));
     ("indicators",
      JObject [("quote", JArray (of_quote <$> indicators_quote r));
               ("adjclose", JArray (of_adjclose <$> indicators_adjclose r))])].

Definition of_results (error : json) (results : list chart_result) : json :=
  JObject [("chart",
            JObject [("result", JArray (of_result <$> results));
                     ("error", error)])].

End ChartDocument.

(** ** Configuration ([config.py]) *)

Record Settings := {
  lookback_years : Z;
  test_window_days : Z;
  training_timesteps : Z;
  cache_ttl_minutes : Z;
  cors_origins : list string;
}.

(** The values when no environment variable is set. *)
Definition default_settings : Settings :=
  {| lookback_years := 2; test_window_days := 60;
     training_timesteps := 10000; cache_ttl_minutes := 60;
     cors_origins := ["http://localhost:5173"; "http://127.0.0.1:5173"] |}.

(** ** Trainer records and payloads *)

(** A row of the account-value frame of the simulation. *)
Record account_record := {
  acc_date : Z;
  account_value : R;
}.

(** A row of the action frame of the simulation. *)
Record action_record := {
  act_date : Z;
  actions : action_value;
}.

Record env_kwargs := {
  hmax : Z;
  initial_amount : Z;
  buy_cost_pct : list R;
  sell_cost_pct : list R;
  state_space : nat;
  stock_dim : nat;
  tech_indicator_list : list string;
  action_space : nat;
  reward_scaling : R;
  num_stock_shares : list Z;
}.

Record price_point := {
  pp_date : Z;
  value : R;
}.

Record prediction_point_t := {
  pt_date : Z;
  predicted_close : R;
}.

Record prediction_payload := {
  symbol : string;
  latest_close : R;
  predicted_next_close : R;
  generated_at : Z;
  price_history : list price_point;
  prediction_point : prediction_point_t;
  disclaimer : string;
}.

Record equity_point := {
  eq_date : Z;
  equity : R;
}.

Record comparison_row := {
  cmp_date : Z;
  actual_close : R;
  cmp_predicted_close : R;
}.

Record metrics_t := {
  final_equity : R;
  total_return_pct : R;
  sharpe_ratio : R;
  max_drawdown_pct : R;
}.

Record backtest_payload := {
  b_symbol : string;
  b_generated_at : Z;
  equity_curve : list equity_point;
  price_comparison : list comparison_row;
  metrics : metrics_t;
  b_disclaimer : string;
}.

Definition DISCLAIMER_TEXT : string :=
  "Educational use only. These FinRL-driven simulations are NOT financial advice.".

(** [_to_datetime]: the dates of the frames carry no time zone, so the
    conversion keeps the instant. *)
Definition _to_datetime (value : Z) : Z := value.

(** [str.upper], on the ASCII letters. *)
Definition upper_ascii (c : ascii) : ascii :=
  let n := nat_of_ascii c in
  if (97 <=? n)%nat && (n <=? 122)%nat then ascii_of_nat (n - 32) else c.

Fixpoint upper (s : string) : string :=
  match s with
  | EmptyString => EmptyString
  | String c rest => String (upper_ascii c) (upper rest)
  end.

(** [raw_df.tail(240)] turned into the points of [price_history]; the same
    comprehension in [_build_prediction_payload] and [_run_prediction]. *)
Definition history_points (raw_df : list bar) : list price_point :=
  (fun row => {| pp_date := _to_datetime (date row); value := close row |})
    <$> tail 240 raw_df.

(** ** Series arithmetic used by the metrics *)

Definition Rsum (l : list R) : R := foldr Rplus 0%R l.

Definition mean (l : list R) : R := (Rsum l / INR (length l))%R.

(** [Series.std()]: the sample standard deviation, NaN below two samples. *)
Definition std (l : list R) : option R :=
  if decide (length l < 2) then None
  else
    let m := mean l in
    Some (sqrt (Rsum ((fun x => (x - m) * (x - m))%R <$> l)
                / INR (length l - 1))).

(** [series.pct_change().dropna()]: the first, undefined step is dropped.
    (A zero in the series gives inf or NaN in pandas, which the reals do
    not have.) *)
Fixpoint pct_change_from (prev : R) (series : list R) : list R :=
  match series with
  | [] => []
  | x :: rest => (x / prev - 1)%R :: pct_change_from x rest
  end.

Definition pct_change (series : list R) : list R :=
  match series with
  | [] => []
  | x :: rest => pct_change_from x rest
  end.

(** [series.cummax()]. *)
Fixpoint cummax_from (m : R) (series : list R) : list R :=
  match series with
  | [] => []
  | x :: rest => let m' := Rmax m x in m' :: cummax_from m' rest
  end.

Definition cummax (series : list R) : list R :=
  match series with
  | [] => []
  | x :: rest => x :: cummax_from x rest
  end.

(** [series.min()] of a series that is not empty. *)
Definition series_min (x : R) (rest : list R) : R := foldl Rmin x rest.

(** ** The training service ([finrl_integration.py]) *)

Module FinRLService.

Record CacheEntry := {
  prediction : prediction_payload;
  backtest : backtest_payload;
  expires_at : Z;
}.

(** [_calculate_metrics].  The quotients are exact here; in the code they
    carry the binary error of a float division, which can move a value
    that lies on a rounding tie (a return of 0.005 percent, say) to either
    side before [round] sees it.  What is proved about the rounded returns
    holds for both outcomes of such a tie. *)
Definition _calculate_metrics (account_memory : list account_record)
    : result metrics_t :=
  let series := account_value <$> account_memory in
  let? final_equity := iloc_last series in
  let? first := match head series with Some x => Ok x | None => Raise IndexError end in
  if Req_dec_T first 0 then Raise ZeroDivisionError
  else
    let total_return := ((final_equity / first - 1) * 100)%R in
    let returns := pct_change series in
    let sharpe :=
      match returns, std returns with
      | _ :: _, Some s =>
          if Rlt_dec 0 s then (mean returns / s * sqrt 252)%R else 0%R
      | _, _ => 0%R
      end in
    let rolling_max := cummax series in
    let drawdowns := zip_with (fun v m => ((v - m) / m)%R) series rolling_max in
    let max_drawdown :=
      match drawdowns with
      | d :: ds => (series_min d ds * 100)%R
      | [] => 0%R
      end in
    Ok {| final_equity := py_round final_equity 2;
          total_return_pct := py_round total_return 2;
          sharpe_ratio := py_round sharpe 3;
          max_drawdown_pct := py_round max_drawdown 2 |}.

(** [_extract_action], called with position [-1]. *)
Definition _extract_action (actions_frame : list action_record)
    : result (option R) :=
  match last actions_frame with
  | None => Ok None
  | Some row => let? a := _action_to_scalar (actions row) in Ok (Some a)
  end.

(** The [signal] column of [_build_price_comparison]:
    [np.tanh(actions.apply(_action_to_scalar) / hmax)].  The division is a
    pandas one: by zero it gives an infinity, whose [tanh] is 1 or -1, or
    NaN. *)
Definition signal_of (x : R) (hmax : Z) : option R :=
  if decide (hmax = 0%Z) then
    if Rlt_dec 0 x then Some 1%R
    else if Rlt_dec x 0 then Some (-1)%R
    else None
  else Some (tanh (x / IZR hmax)).

Fixpoint action_signals (actions_frame : list action_record) (hmax : Z)
    : result (list (Z * option R)) :=
  match actions_frame with
  | [] => Ok []
  | a :: rest =>
      let? x := _action_to_scalar (actions a) in
      let? signals := action_signals rest hmax in
      Ok ((act_date a, signal_of x hmax) :: signals)
  end.

(** [test_df[["date", "close"]].groupby("date").mean()], sorted by date:
    one row per date with the mean close of that date. *)
Definition closes_by_date (test_df : list feature_row) : list (Z * R) :=
  (fun d =>
     (d, mean (f_close <$> filter (fun r => f_date r = d) test_df)))
    <$> merge_sort Z.le (remove_dups (f_date <$> test_df)).

(** [closes.merge(action_frame[["date", "signal"]], on="date", how="left")]:
    every close row, once per action row of its date, or once with a missing
    signal when there is none. *)
Definition merge_left (closes : list (Z * R)) (signals : list (Z * option R))
    : list (Z * R * option R) :=
  closes ≫= (fun '(d, c) =>
    match filter (fun s => s.1 = d) signals with
    | [] => [(d, c, None)]
    | found => (fun s => (d, c, s.2)) <$> found
    end).

(** The last three column assignments and the row loop: the signal is
    filled forward and then with 0, the reference is the close of the row
    above (the row's own close in the first row). *)
Fixpoint comparison_rows (above_close : option R) (above_signal : option R)
    (merged : list (Z * R * option R)) : list comparison_row :=
  match merged with
  | [] => []
  | (d, c, s) :: rest =>
      let filled := fill above_signal s in
      let signal := default 0%R filled in
      let reference := default c above_close in
      {| cmp_date := _to_datetime d;
         actual_close := c;
         cmp_predicted_close := (reference * (1 + signal * 0.01))%R |}
        :: comparison_rows (Some c) filled rest
  end.

(** [_build_price_comparison]. *)
Definition _build_price_comparison (actions_frame : list action_record)
    (test_df : list feature_row) (hmax : Z) : result (list comparison_row) :=
  let closes := closes_by_date test_df in
  match closes with
  | [] => Ok []
  | _ =>
      let? signals := action_signals actions_frame hmax in
      let merged := merge_left closes signals in
      Ok (comparison_rows None None merged)
  end.

(** The constant part of [_build_env_kwargs], for a number of tickers and
    the indicator list of the FinRL configuration. *)
Definition env_kwargs_for (stock_dim : nat) (INDICATORS : list string)
    : env_kwargs :=
  {| hmax := 100;
     initial_amount := 100000;
     buy_cost_pct := replicate stock_dim (1 / 1000)%R;
     sell_cost_pct := replicate stock_dim (1 / 1000)%R;
     state_space := 1 + 2 * stock_dim + length INDICATORS * stock_dim;
     stock_dim := stock_dim;
     tech_indicator_list := INDICATORS;
     action_space := stock_dim;
     reward_scaling := (1 / 10000)%R;
     num_stock_shares := replicate stock_dim 0%Z |}.

Section Service.
Context {World Model : Type}.

(** [settings], read from the environment when the module is loaded. *)
Variable settings : Settings.
(** [datetime.utcnow()]. *)
Variable utcnow : World -> Z.
(** [yf.download(symbol, start, end, auto_adjust=False)]. *)
Variable yf_download : string -> Z -> Z -> io World (list candle).
(** [finrl.config.INDICATORS]. *)
Variable INDICATORS : list string.
(** [FeatureEngineer(...).preprocess_data]. *)
Variable preprocess_data : list bar -> result (list indicator_row).
(** [finrl]'s [data_split(df, start, end)]. *)
Variable data_split : list feature_row -> Z -> Z -> list feature_row.
(** [DRLAgent.get_model("ppo")] and [train_model] on an environment built
    from a frame and its configuration, for a number of timesteps. *)
Variable train_model : list feature_row -> env_kwargs -> Z -> io World Model.
(** [DRLAgent.DRL_prediction] on a trading environment. *)
Variable DRL_prediction :
  Model -> list feature_row -> env_kwargs ->
  io World (list account_record * list action_record).

(** [_download_market_data]. *)
Definition _download_market_data (symbol : string) : io World (list bar) :=
  fun w =>
    let end_ := utcnow w in
    let start := (end_ - timedelta_days (365 * lookback_years settings))%Z in
    (let! data := yf_download symbol start end_ in
     match data with
     | [] =>
         raise (FinRLException
                  ("No Yahoo Finance data returned for " +:+ symbol
                   +:+ ". Check the ticker symbol."))
     | _ =>
         let frame := sort_values_date (omap (clean_candle symbol) data) in
         if decide (length frame < 100) then
           raise (FinRLException
                    ("Insufficient historical data for " +:+ symbol
                     +:+ ". Try expanding the window."))
         else ret frame
     end) w.

(** [_engineer_features]. *)
Definition _engineer_features (raw_df : list bar)
    : result (list feature_row) :=
  let? processed := preprocess_data raw_df in
  Ok (dropna (ffill processed)).

(** [_split_dataframes].  On an empty frame both dates are NaT, the
    comparison is false and both partitions are empty. *)
Definition _split_dataframes (df : list feature_row)
    : result (list feature_row * list feature_row) :=
  match f_date <$> df with
  | [] => Raise (FinRLException "Empty training or testing dataset produced.")
  | d :: ds =>
      let last_date := foldl Z.max d ds in
      let first_date := foldl Z.min d ds in
      let split_date :=
        (last_date - timedelta_days (test_window_days settings))%Z in
      if decide (split_date <= first_date)%Z then
        Raise (FinRLException
                 ("Not enough rows to create training and testing windows. "
                  +:+ "Reduce FINRL_TEST_WINDOW_DAYS or extend lookback."))
      else
        let train := data_split df first_date split_date in
        let test := data_split df split_date last_date in
        match train, test with
        | _ :: _, _ :: _ => Ok (train, test)
        | _, _ =>
            Raise (FinRLException "Empty training or testing dataset produced.")
        end
  end.

(** [_build_env_kwargs]. *)
Definition _build_env_kwargs (train_df : list feature_row) : env_kwargs :=
  env_kwargs_for (length (remove_dups (f_tic <$> train_df))) INDICATORS.

(** [_train_agent]. *)
Definition _train_agent (train_df : list feature_row) (kwargs : env_kwargs)
    : io World Model :=
  train_model train_df kwargs (training_timesteps settings).

(** [_run_trading_loop]. *)
Definition _run_trading_loop (model : Model) (test_df : list feature_row)
    (kwargs : env_kwargs)
    : io World (list account_record * list action_record) :=
  DRL_prediction model test_df kwargs.

(** [_build_prediction_payload]. *)
Definition _build_prediction_payload (symbol : string) (raw_df : list bar)
    (actions_frame : list action_record) (kwargs : env_kwargs)
    : io World prediction_payload :=
  let! latest_row := lift (iloc_last raw_df) in
  let latest_close := close latest_row in
  let history := history_points raw_df in
  let! last_action := lift (_extract_action actions_frame) in
  let! predicted_next_close :=
    lift (_estimate_price_from_action latest_close last_action (hmax kwargs)) in
  let next_date := (_to_datetime (date latest_row) + timedelta_days 1)%Z in
  fun w =>
    (Ok {| symbol := symbol;
           latest_close := latest_close;
           predicted_next_close := predicted_next_close;
           generated_at := utcnow w;
           price_history := history;
           prediction_point :=
             {| pt_date := next_date; predicted_close := predicted_next_close |};
           disclaimer := DISCLAIMER_TEXT |}, w).

(** [_build_backtest_payload]. *)
Definition _build_backtest_payload (symbol : string)
    (account_memory : list account_record)
    (actions_frame : list action_record) (test_df : list feature_row)
    (kwargs : env_kwargs) : io World backtest_payload :=
  let equity_curve :=
    (fun row => {| eq_date := _to_datetime (acc_date row);
                   equity := account_value row |}) <$> account_memory in
  let! metrics := lift (_calculate_metrics account_memory) in
  let! price_rows :=
    lift (_build_price_comparison actions_frame test_df (hmax kwargs)) in
  fun w =>
    (Ok {| b_symbol := symbol;
           b_generated_at := utcnow w;
           equity_curve := equity_curve;
           price_comparison := price_rows;
           metrics := metrics;
           b_disclaimer := DISCLAIMER_TEXT |}, w).

(** [_run_pipeline]. *)
Definition _run_pipeline (symbol : string)
    : io World (prediction_payload * backtest_payload) :=
  let! raw_df := _download_market_data symbol in
  let! processed_df := lift (_engineer_features raw_df) in
  let! (train_df, test_df) := lift (_split_dataframes processed_df) in
  let kwargs := _build_env_kwargs train_df in
  let! trained_model := _train_agent train_df kwargs in
  let! (account_memory, actions_memory) :=
    _run_trading_loop trained_model test_df kwargs in
  let! prediction_payload :=
    _build_prediction_payload symbol raw_df actions_memory kwargs in
  let! backtest_payload :=
    _build_backtest_payload symbol account_memory actions_memory test_df
      kwargs in
  ret (prediction_payload, backtest_payload).

(** [_get_or_train], with the cache dictionary passed in and out:
<<
  normalized_symbol = symbol.upper()
  now = datetime.utcnow()
  with self._lock:
      entry = self._cache.get(normalized_symbol)
      if entry and entry.expires_at > now:
          return entry
  prediction, backtest = self._run_pipeline(normalized_symbol)
  expires = now + timedelta(minutes=settings.cache_ttl_minutes)
  new_entry = CacheEntry(prediction, backtest, expires)
  with self._lock:
      self._cache[normalized_symbol] = new_entry
  return new_entry
>> *)
Definition _get_or_train (_cache : gmap string CacheEntry) (symbol : string)
    (w : World) : result CacheEntry * gmap string CacheEntry * World :=
  let normalized_symbol := upper symbol in
  let now := utcnow w in
  let miss :=
    match _run_pipeline normalized_symbol w with
    | (Raise e, w') => (Raise e, _cache, w')
    | (Ok (prediction, backtest), w') =>
        let expires :=
          (now + timedelta_minutes (cache_ttl_minutes settings))%Z in
        let new_entry :=
          {| prediction := prediction; backtest := backtest;
             expires_at := expires |} in
        (Ok new_entry, <[normalized_symbol := new_entry]> _cache, w')
    end in
  match _cache !! normalized_symbol with
  | Some entry =>
      if decide (now < expires_at entry)%Z then (Ok entry, _cache, w)
      else miss
  | None => miss
  end.

(** [get_prediction_payload]. *)
Definition get_prediction_payload (_cache : gmap string CacheEntry)
    (symbol : string) (w : World)
    : result prediction_payload * gmap string CacheEntry * World :=
  match _get_or_train _cache symbol w with
  | (Ok entry, c, w') => (Ok (prediction entry), c, w')
  | (Raise e, c, w') => (Raise e, c, w')
  end.

(** [get_backtest_payload]. *)
Definition get_backtest_payload (_cache : gmap string CacheEntry)
    (symbol : string) (w : World)
    : result backtest_payload * gmap string CacheEntry * World :=
  match _get_or_train _cache symbol w with
  | (Ok entry, c, w') => (Ok (backtest entry), c, w')
  | (Raise e, c, w') => (Raise e, c, w')
  end.
End Service.

End FinRLService.

(** ** The prediction router ([routers/predict.py]) *)

Module Predict.

Definition LOOKBACK_DAYS : Z := 365.

Record PredictionResponse := {
  r_symbol : string;
  r_latest_close : R;
  r_predicted_next_close : R;
  r_delta : R;
  r_delta_pct : R;
  r_generated_at : Z;
  r_price_history : list price_point;
  r_prediction_point : prediction_point_t;
  r_disclaimer : string;
}.

(** [_build_env_kwargs], given the indicator list of the FinRL
    configuration. *)
Definition _build_env_kwargs (INDICATORS : list string) (stock_dim : nat)
    : env_kwargs :=
  {| hmax := 100;
     initial_amount := 100000;
     buy_cost_pct := replicate stock_dim (1 / 1000)%R;
     sell_cost_pct := replicate stock_dim (1 / 1000)%R;
     state_space := 1 + 2 * stock_dim + length INDICATORS * stock_dim;
     stock_dim := stock_dim;
     tech_indicator_list := INDICATORS;
     action_space := stock_dim;
     reward_scaling := (1 / 10000)%R;
     num_stock_shares := replicate stock_dim 0%Z |}.

Section Router.
Context {World Model : Type}.

(** [datetime.utcnow()]. *)
Variable utcnow : World -> Z.
(** [session.get] of the chart client. *)
Variable session_get :
  string -> Z -> Z -> World -> YFinanceClient.http_reply * World.
Variable python : YFinanceClient.objects.
(** [MODEL_PATH.exists()] and [PPO.load(MODEL_PATH, device="cpu")]. *)
Variable model_path_exists : World -> bool.
Variable PPO_load : io World Model.
(** [finrl.config.INDICATORS]. *)
Variable INDICATORS : list string.
(** [FeatureEngineer(...).preprocess_data]. *)
Variable preprocess_data : list bar -> result (list indicator_row).
(** [DRLAgent.DRL_prediction] on a trading environment. *)
Variable DRL_prediction :
  Model -> list feature_row -> env_kwargs ->
  io World (list account_record * list action_record).

(** [_load_model], with the module's model cache passed in and out. *)
Definition _load_model (_model_cache : option Model) (w : World)
    : result Model * option Model * World :=
  if model_path_exists w then
    match _model_cache with
    | Some cached => (Ok cached, _model_cache, w)
    | None =>
        match PPO_load w with
        | (Ok model, w') => (Ok model, Some model, w')
        | (Raise e, w') => (Raise e, _model_cache, w')
        end
    end
  else (Raise FileNotFoundError, _model_cache, w).

(** [_fetch_market_data]. *)
Definition _fetch_market_data (symbol : string) : io World (list bar) :=
  fun w =>
    let end_ := utcnow w in
    let start := (end_ - timedelta_days LOOKBACK_DAYS)%Z in
    match YFinanceClient.download_price_history session_get python symbol start end_ w with
    | (Raise (RuntimeError msg), w') | (Raise (FinRLException msg), w') =>
        (Raise (ValueError msg), w')
    | (Raise e, w') => (Raise e, w')
    | (Ok data, w') =>
        match YFinanceClient.rows data with
        | [] =>
            (Raise (ValueError
                      ("No Yahoo Finance data returned for " +:+ symbol +:+ ".")),
             w')
        | candles =>
            let frame :=
              sort_values_date (omap (clean_candle symbol) candles) in
            if decide (length frame < 30) then
              (Raise (ValueError
                        ("Insufficient historical data for " +:+ symbol +:+ ".")),
               w')
            else (Ok frame, w')
        end
    end.

(** [_engineer_features]. *)
Definition _engineer_features (raw_df : list bar)
    : result (list feature_row) :=
  let? processed := preprocess_data raw_df in
  Ok (dropna (ffill processed)).

(** [_run_prediction], with the model cache passed in and out. *)
Definition _run_prediction (_model_cache : option Model) (symbol : string)
    (w : World) : result PredictionResponse * option Model * World :=
  match _load_model _model_cache w with
  | (Raise e, mc, w1) => (Raise e, mc, w1)
  | (Ok model, mc, w1) =>
      let rest : io World PredictionResponse :=
        let! raw_df := _fetch_market_data symbol in
        let! processed_df := lift (_engineer_features raw_df) in
        let stock_dim := length (remove_dups (f_tic <$> processed_df)) in
        let kwargs := _build_env_kwargs INDICATORS stock_dim in
        let! (_, actions_frame) := DRL_prediction model processed_df kwargs in
        let! latest_row := lift (iloc_last raw_df) in
        let latest_close := close latest_row in
        let! last_action :=
          lift (match last actions_frame with
                | Some row => _action_to_scalar (actions row)
                | None => Ok 0%R
                end) in
        let! predicted_close :=
          lift (_estimate_price latest_close (Some last_action) (hmax kwargs)) in
        let delta := (predicted_close - latest_close)%R in
        let delta_pct :=
          if Req_dec_T latest_close 0 then 0%R
          else (delta / latest_close * 100)%R in
        let history := history_points raw_df in
        let point :=
          {| pt_date := (_to_datetime (date latest_row) + timedelta_days 1)%Z;
             predicted_close := predicted_close |} in
        fun w' =>
          (Ok {| r_symbol := upper symbol;
                 r_latest_close := latest_close;
                 r_predicted_next_close := predicted_close;
                 r_delta := delta;
                 r_delta_pct := delta_pct;
                 r_generated_at := utcnow w';
                 r_price_history := history;
                 r_prediction_point := point;
                 r_disclaimer := DISCLAIMER_TEXT |}, w') in
      match rest w1 with
      | (r, w2) => (r, mc, w2)
      end
  end.
End Router.

End Predict.

(** ** The training script ([train_model.py]) *)

Module TrainModel.

Definition LOOKBACK_DAYS : Z := 365.

Section Script.
Context {World : Type}.
(** [datetime.utcnow()]. *)
Variable utcnow : World -> Z.
(** [session.get] of the chart client. *)
Variable session_get :
  string -> Z -> Z -> World -> YFinanceClient.http_reply * World.
Variable python : YFinanceClient.objects.

(** [_fetch_data]:
<<
  data = download_price_history(symbol, start, end)
  if data.empty:
      raise RuntimeError(f"No Yahoo Finance data returned for {symbol}.")
  ...
  frame = frame.dropna().sort_values("date")
  if frame.empty:
      raise RuntimeError(f"Unable to prepare training frame for {symbol}.")
  return frame
>> *)
Definition _fetch_data (symbol : string) : io World (list bar) :=
  fun w =>
    let end_ := utcnow w in
    let start := (end_ - timedelta_days LOOKBACK_DAYS)%Z in
    (let! data :=
       YFinanceClient.download_price_history session_get python symbol start end_ in
     match YFinanceClient.rows data with
     | [] =>
         raise (RuntimeError
                  ("No Yahoo Finance data returned for " +:+ symbol +:+ "."))
     | candles =>
         let frame := sort_values_date (omap (clean_candle symbol) candles) in
         match frame with
         | [] =>
             raise (RuntimeError
                      ("Unable to prepare training frame for " +:+ symbol
                       +:+ "."))
         | _ => ret frame
         end
     end) w.
End Script.

End TrainModel.

(** ** CORS origins ([config.py], [main.py]) *)

Module Config.

(** The characters [str.strip] removes, among the ASCII ones. *)
Definition is_space (c : ascii) : bool :=
  let n := nat_of_ascii c in
  ((9 <=? n)%nat && (n <=? 13)%nat)
  || ((28 <=? n)%nat && (n <=? 32)%nat).

Definition comma : ascii := ","%char.

(** [raw.split(",")]: the pieces between the commas, one more than there
    are commas. *)
Fixpoint split_commas (raw : string) : list string :=
  match raw with
  | EmptyString => [EmptyString]
  | String c rest =>
      if decide (c = comma) then EmptyString :: split_commas rest
      else
        match split_commas rest with
        | piece :: pieces => String c piece :: pieces
        | [] => [String c EmptyString]
        end
  end.

Fixpoint lstrip (s : string) : string :=
  match s with
  | EmptyString => EmptyString
  | String c rest => if is_space c then lstrip rest else s
  end.

Fixpoint rstrip (s : string) : string :=
  match s with
  | EmptyString => EmptyString
  | String c rest =>
      match rstrip rest with
      | EmptyString => if is_space c then EmptyString else String c EmptyString
      | kept => String c kept
      end
  end.

(** [str.strip()]. *)
Definition strip (s : string) : string := rstrip (lstrip s).

Definition default_origins : list string :=
  ["http://localhost:5173"; "http://127.0.0.1:5173"].

(** [_parse_origins]:
<<
  if not raw:
      return ["http://localhost:5173", "http://127.0.0.1:5173"]
  return [origin.strip() for origin in raw.split(",") if origin.strip()]
>> *)
Definition _parse_origins (raw : option string) : list string :=
  match raw with
  | None | Some EmptyString => default_origins
  | Some raw =>
      strip <$> filter (λ origin, strip origin ≠ EmptyString) (split_commas raw)
  end.

(** [allow_origins=settings.cors_origins or ["*"]] of [main.py]. *)
Definition allow_origins (cors_origins : list string) : list string :=
  match cors_origins with
  | [] => ["*"]
  | _ => cors_origins
  end.

End Config.

(** ** The endpoints ([main.py], [routers/predict.py]) *)

Module Endpoints.

Record HTTPException := {
  status_code : Z;
  detail : string;
}.

(** [healthcheck]. *)
Definition healthcheck : list (string * string) := [("status", "ok")].

Section Backtest.
Context {World Model : Type}.
Variable settings : Settings.
Variable utcnow : World -> Z.
Variable yf_download : string -> Z -> Z -> io World (list candle).
Variable INDICATORS : list string.
Variable preprocess_data : list bar -> result (list indicator_row).
Variable data_split : list feature_row -> Z -> Z -> list feature_row.
Variable train_model : list feature_row -> env_kwargs -> Z -> io World Model.
Variable DRL_prediction :
  Model -> list feature_row -> env_kwargs ->
  io World (list account_record * list action_record).

(** [backtest_strategy], with the cache of the module's [service] passed in
    and out:
<<
  try:
      result = await run_in_threadpool(service.get_backtest_payload, payload.symbol)
  except FinRLException as exc:
      raise HTTPException(status_code=400, detail=str(exc)) from exc
  except Exception as exc:
      raise HTTPException(status_code=500, detail="Unexpected FinRL error") from exc
  return result
>> *)
Definition backtest_strategy (_cache : gmap string FinRLService.CacheEntry)
    (symbol : string) (w : World)
    : (backtest_payload + HTTPException)
      * gmap string FinRLService.CacheEntry * World :=
  match
    FinRLService.get_backtest_payload settings utcnow yf_download INDICATORS
      preprocess_data data_split train_model DRL_prediction _cache symbol w
  with
  | (Ok result, c, w') => (inl result, c, w')
  | (Raise (FinRLException msg), c, w') =>
      (inr {| status_code := 400; detail := msg |}, c, w')
  | (Raise _, c, w') =>
      (inr {| status_code := 500; detail := "Unexpected FinRL error" |}, c, w')
  end.
End Backtest.

Section Predict.
Context {World Model : Type}.
Variable utcnow : World -> Z.
Variable session_get :
  string -> Z -> Z -> World -> YFinanceClient.http_reply * World.
Variable python : YFinanceClient.objects.
Variable model_path_exists : World -> bool.
Variable PPO_load : io World Model.
Variable INDICATORS : list string.
Variable preprocess_data : list bar -> result (list indicator_row).
Variable DRL_prediction :
  Model -> list feature_row -> env_kwargs ->
  io World (list account_record * list action_record).
(** [str(MODEL_PATH)]. *)
Variable MODEL_PATH : string.

(** The message of the [FileNotFoundError] of [_load_model]. *)
Definition missing_model_message : string :=
  "Missing PPO model at " +:+ MODEL_PATH
  +:+ ". Train one via `python3 train_model.py`.".

(** [predict], with the model cache passed in and out:
<<
  try:
      return await run_in_threadpool(_run_prediction, payload.symbol)
  except FileNotFoundError as exc:
      raise HTTPException(status_code=500, detail=str(exc)) from exc
  except ValueError as exc:
      raise HTTPException(status_code=400, detail=str(exc)) from exc
  except Exception as exc:
      raise HTTPException(status_code=500, detail="Unexpected prediction failure") from exc
>>
    The only [FileNotFoundError] carried by the model is the one
    [_load_model] raises, with the message above. *)
Definition predict (_model_cache : option Model) (symbol : string) (w : World)
    : (Predict.PredictionResponse + HTTPException) * option Model * World :=
  match
    Predict._run_prediction utcnow session_get python model_path_exists PPO_load
      INDICATORS preprocess_data DRL_prediction _model_cache symbol w
  with
  | (Ok response, mc, w') => (inl response, mc, w')
  | (Raise FileNotFoundError, mc, w') =>
      (inr {| status_code := 500; detail := missing_model_message |}, mc, w')
  | (Raise (ValueError msg), mc, w') =>
      (inr {| status_code := 400; detail := msg |}, mc, w')
  | (Raise _, mc, w') =>
      (inr {| status_code := 500; detail := "Unexpected prediction failure" |},
       mc, w')
  end.
End Predict.

End Endpoints.

(** ** A scenario

    A world in which the provider has 100 daily bars, the indicator
    computation leaves the indicator of the first row missing, training and
    simulation take their time, and the clock is the state of the world. *)

Module Scenario.

Definition utcnow (w : Z) : Z := w.

Definition seconds (n : Z) : Z := n * microseconds_per_second.

Definition candle_of_day (day : Z) : candle :=
  {| Date := timedelta_days day; Open := Some 1%R; High := Some 1%R;
     Low := Some 1%R; Close := Some 1%R; Adj_Close := Some 1%R;
     Volume := Some 1%R |}.

Definition candles : list candle := candle_of_day <$> seqZ 0 100.

(** The download takes seven seconds. *)
Definition yf_download (symbol : string) (start end_ : Z)
    : io Z (list candle) :=
  fun w => (Ok candles, w + seconds 7)%Z.

(** A provider that knows no bar of the symbol. *)
Definition yf_download_nothing (symbol : string) (start end_ : Z)
    : io Z (list candle) :=
  fun w => (Ok [], w + seconds 7)%Z.

Definition INDICATORS : list string := ["macd"].

Definition indicator_row_of (i : nat) (b : bar) : indicator_row :=
  {| i_date := date b; i_tic := tic b; i_open := Some (open b);
     i_high := Some (high b); i_low := Some (low b);
     i_close := Some (close b); i_adj_close := Some (adj_close b);
     i_volume := Some (volume b);
     i_indicators := [if decide (i = 0) then None else Some 0%R] |}.

Definition preprocess_data (raw_df : list bar) : result (list indicator_row) :=
  Ok (imap indicator_row_of raw_df).

(** The rows dated from [start] up to, not including, [end_]. *)
Definition data_split (df : list feature_row) (start end_ : Z)
    : list feature_row :=
  filter (λ r, start ≤ f_date r < end_)%Z df.

(** Training takes a minute, the simulation a second. *)
Definition train_model (train_df : list feature_row) (kwargs : env_kwargs)
    (timesteps : Z) : io Z unit :=
  fun w => (Ok tt, w + seconds 60)%Z.

Definition account_memory : list account_record :=
  [{| acc_date := timedelta_days 39; account_value := 1004 / 1000 |}].

Definition DRL_prediction (model : unit) (test_df : list feature_row)
    (kwargs : env_kwargs)
    : io Z (list account_record * list action_record) :=
  fun w => (Ok (account_memory, []), w + seconds 1)%Z.

Definition settings : Settings := default_settings.

Definition download_market_data : string -> io Z (list bar) :=
  FinRLService._download_market_data settings utcnow yf_download.

Definition engineer_features : list bar -> result (list feature_row) :=
  FinRLService._engineer_features preprocess_data.

Definition run_pipeline
    : string -> io Z (prediction_payload * backtest_payload) :=
  FinRLService._run_pipeline settings utcnow yf_download INDICATORS
    preprocess_data data_split train_model DRL_prediction.

Definition get_or_train :=
  FinRLService._get_or_train settings utcnow yf_download INDICATORS
    preprocess_data data_split train_model DRL_prediction.

(** The same service in front of the provider that has nothing. *)
Definition run_pipeline_nothing
    : string -> io Z (prediction_payload * backtest_payload) :=
  FinRLService._run_pipeline settings utcnow yf_download_nothing INDICATORS
    preprocess_data data_split train_model DRL_prediction.

Definition get_or_train_nothing :=
  FinRLService._get_or_train settings utcnow yf_download_nothing INDICATORS
    preprocess_data data_split train_model DRL_prediction.

(** The cleaned price frame and the processed frame of the scenario. *)
Definition raw_df : list bar :=
  sort_values_date (omap (clean_candle "AAPL") candles).

Definition processed_df : list feature_row :=
  dropna (ffill (imap indicator_row_of raw_df)).

(** An entry as a controller could have stored it, expiring one hour
    after the start of the world. *)
Definition sample_prediction : prediction_payload :=
  {| symbol := "AAPL"; latest_close := 1; predicted_next_close := 1;
     generated_at := 0;
     price_history := [{| pp_date := 0; value := 1 |}];
     prediction_point :=
       {| pt_date := timedelta_days 1; predicted_close := 1 |};
     disclaimer := DISCLAIMER_TEXT |}.

Definition sample_backtest : backtest_payload :=
  {| b_symbol := "AAPL"; b_generated_at := 0;
     equity_curve := [{| eq_date := 0; equity := 1 |}];
     price_comparison := [];
     metrics := {| final_equity := 1; total_return_pct := 0;
                   sharpe_ratio := 0; max_drawdown_pct := 0 |};
     b_disclaimer := DISCLAIMER_TEXT |}.

Definition sample_entry : FinRLService.CacheEntry :=
  {| FinRLService.prediction := sample_prediction;
     FinRLService.backtest := sample_backtest;
     FinRLService.expires_at := timedelta_minutes 60 |}.

(** A processed frame of two rows, 365 days apart, and a configuration
    with a test window of 400 days. *)
Definition feature_row_of_day (day : Z) : feature_row :=
  {| f_date := timedelta_days day; f_tic := "AAPL"; f_open := 1; f_high := 1;
     f_low := 1; f_close := 1; f_adj_close := 1; f_volume := 1;
     f_indicators := [0%R] |}.

Definition one_year_frame : list feature_row :=
  [feature_row_of_day 0; feature_row_of_day 365].

Definition long_window_settings : Settings :=
  {| lookback_years := 2; test_window_days := 400;
     training_timesteps := 10000; cache_ttl_minutes := 60;
     cors_origins := [] |}.

(** The same service with a cache TTL of one minute, less than the 68
    seconds its pipeline takes. *)
Definition short_ttl_settings : Settings :=
  {| lookback_years := 2; test_window_days := 60;
     training_timesteps := 10000; cache_ttl_minutes := 1;
     cors_origins := [] |}.

Definition get_or_train_short_ttl :=
  FinRLService._get_or_train short_ttl_settings utcnow yf_download INDICATORS
    preprocess_data data_split train_model DRL_prediction.

(** A Python for the parts the embedding leaves open, which the scenarios
    never reach. *)
Definition python : YFinanceClient.objects :=
  {| YFinanceClient.py_str := λ _, "?";
     YFinanceClient.frame_of_objects := λ _ _ _, Raise TypeError |}.

End Scenario.

(** ** A scenario for the prediction router

    The provider answers with 40 daily bars, the model file is there and
    loads in three seconds, and the simulation yields one action. *)

Module RouterScenario.

Definition reply_values : list (option R) := replicate 40 (Some 1%R).

Definition chart_results : list YFinanceClient.chart_result :=
  [{| YFinanceClient.timestamp := (λ day, day * 86400)%Z <$> seqZ 0 40;
      YFinanceClient.indicators_quote :=
        [{| YFinanceClient.q_open := Some reply_values;
            YFinanceClient.q_high := Some reply_values;
            YFinanceClient.q_low := Some reply_values;
            YFinanceClient.q_close := Some reply_values;
            YFinanceClient.q_volume := Some reply_values |}];
      YFinanceClient.indicators_adjclose := [] |}].

Definition chart_body : json := ChartDocument.of_results JNull chart_results.


Definition session_get (symbol : string) (period1 period2 : Z) (w : Z)
    : YFinanceClient.http_reply * Z :=
  (YFinanceClient.Reply 200 (Some chart_body), (w + Scenario.seconds 2)%Z).

(** A provider that throttles. *)
Definition session_get_throttled (symbol : string) (period1 period2 : Z)
    (w : Z) : YFinanceClient.http_reply * Z :=
  (YFinanceClient.Reply 429 None, (w + Scenario.seconds 1)%Z).

(** A provider that answers with the document [{"chart": null}], and one
    that answers with an empty error object and the scenario's results. *)
Definition null_chart_body : json := JObject [("chart", JNull)].

Definition session_get_null_chart (symbol : string) (period1 period2 : Z)
    (w : Z) : YFinanceClient.http_reply * Z :=
  (YFinanceClient.Reply 200 (Some null_chart_body),
   (w + Scenario.seconds 1)%Z).


Definition model_path_exists (w : Z) : bool := true.
Definition model_path_missing (w : Z) : bool := false.

Definition PPO_load : io Z unit :=
  fun w => (Ok tt, w + Scenario.seconds 3)%Z.

Definition actions_memory : list action_record :=
  [{| act_date := timedelta_days 39; actions := PyList [50%R] |}].

Definition DRL_prediction (model : unit) (df : list feature_row)
    (kwargs : env_kwargs)
    : io Z (list account_record * list action_record) :=
  fun w => (Ok ([], actions_memory), w + Scenario.seconds 1)%Z.

Definition run_prediction :=
  Predict._run_prediction Scenario.utcnow session_get Scenario.python
    model_path_exists
    PPO_load Scenario.INDICATORS Scenario.preprocess_data DRL_prediction.

(** The cleaned price frame of the scenario. *)
Definition raw_df : list bar :=
  sort_values_date
    (omap (clean_candle "aapl")
       (YFinanceClient.rows
          (YFinanceClient.frame_of_results chart_results))).

End RouterScenario.

(** ** A scenario with a long history

    The providers of both paths have 300 daily bars, more than the 240 a
    price history shows. *)

Module LongScenario.

Definition candles : list candle := Scenario.candle_of_day <$> seqZ 0 300.

Definition yf_download (symbol : string) (start end_ : Z)
    : io Z (list candle) :=
  fun w => (Ok candles, w + Scenario.seconds 7)%Z.

Definition raw_df : list bar :=
  sort_values_date (omap (clean_candle "AAPL") candles).

Definition run_pipeline
    : string -> io Z (prediction_payload * backtest_payload) :=
  FinRLService._run_pipeline Scenario.settings Scenario.utcnow yf_download
    Scenario.INDICATORS Scenario.preprocess_data Scenario.data_split
    Scenario.train_model Scenario.DRL_prediction.

Definition reply_values : list (option R) := replicate 300 (Some 1%R).

Definition chart_results : list YFinanceClient.chart_result :=
  [{| YFinanceClient.timestamp := (λ day, day * 86400)%Z <$> seqZ 0 300;
      YFinanceClient.indicators_quote :=
        [{| YFinanceClient.q_open := Some reply_values;
            YFinanceClient.q_high := Some reply_values;
            YFinanceClient.q_low := Some reply_values;
            YFinanceClient.q_close := Some reply_values;
            YFinanceClient.q_volume := Some reply_values |}];
      YFinanceClient.indicators_adjclose := [] |}].

Definition session_get (symbol : string) (period1 period2 : Z) (w : Z)
    : YFinanceClient.http_reply * Z :=
  (YFinanceClient.Reply 200
     (Some (ChartDocument.of_results JNull chart_results)),
   (w + Scenario.seconds 2)%Z).

Definition router_raw_df : list bar :=
  sort_values_date
    (omap (clean_candle "aapl")
       (YFinanceClient.rows (YFinanceClient.frame_of_results chart_results))).

Definition run_prediction :=
  Predict._run_prediction Scenario.utcnow session_get Scenario.python
    RouterScenario.model_path_exists RouterScenario.PPO_load
    Scenario.INDICATORS Scenario.preprocess_data
    RouterScenario.DRL_prediction.

End LongScenario.

(** ** Sample inputs *)

Module Samples.

(** An equity curve that rises from 100 to 150. *)
Definition rising_curve : list account_record :=
  [{| acc_date := 0; account_value := 100 |};
   {| acc_date := timedelta_days 1; account_value := 150 |}].

(** Values of the CORS origins variable. *)
Definition origins_value : string := "http://a.example, http://b.example".
Definition blank_value : string := " , ,".
Definition origins : list string := ["http://a.example"; "http://b.example"].


(** The path of the model file. *)
Definition MODEL_PATH : string := "/srv/backend/ppo_model.zip".

(** An action frame of one record, dated as the first row of the two-row
    frame of the scenario. *)
Definition actions_frame : list action_record :=
  [{| act_date := 0; actions := PyList [50%R] |}].

End Samples.

(** ** Vocabulary of the properties *)

(** [history] shows the most recent bars of [raw_df]: it is made from a
    suffix [recent] of the frame, of 240 bars or of all of them when there
    are fewer, every bar left out is dated no later than the bars kept, and
    the dates of [history] ascend. *)
Definition recent_history (raw_df : list bar) (history : list price_point)
    : Prop :=
  ∃ older recent : list bar,
    raw_df = older ++ recent ∧
    length recent = 240 `min` length raw_df ∧
    history
    = (λ row, {| pp_date := date row; value := close row |}) <$> recent ∧
    (length raw_df ≤ 240 → recent = raw_df) ∧
    (∀ o r, o ∈ older → r ∈ recent → (date o ≤ date r)%Z) ∧
    StronglySorted Z.le (pp_date <$> history).

(** The call finds no usable entry: none is stored under the key, or the
    stored one has expired. *)
Definition is_miss {World : Type} (utcnow : World -> Z)
    (cache : gmap string FinRLService.CacheEntry) (symbol : string)
    (w : World) : Prop :=
  ∀ entry, cache !! upper symbol = Some entry →
           ¬ (utcnow w < FinRLService.expires_at entry)%Z.

(** A signal, when there is one, lies between -1 and 1. *)
Definition signal_in_range (s : option R) : Prop :=
  ∀ v, s = Some v → (-1 <= v <= 1)%R.

(** A numpy array of more than one element. *)
Definition long_array (v : action_value) : Prop :=
  ∃ x y rest, v = NdArray (x :: y :: rest).

(** The [ValueError] numpy raises for the truth value of such an array. *)
Definition ambiguous_truth_value : exn :=
  ValueError
    "The truth value of an array with more than one element is ambiguous. Use a.any() or a.all()".



(** A string of ASCII characters (the string functions are modelled on
    those). *)
Definition is_ascii (s : string) : Prop :=
  Forall (λ c, nat_of_ascii c < 128) (String.list_ascii_of_string s).

(** * Properties *)

(** ** Rounding and the range of [tanh] *)

Section Numbers.
Local Open Scope R_scope.

Lemma round_half_even_close (y : R) :
  Rabs (IZR (round_half_even y) - y) <= 1 / 2.
Proof.
  unfold round_half_even.
  pose proof (base_fp y) as [Hge Hlt].
  unfold frac_part in *.
  set (n := Int_part y) in *.
  destruct (Rlt_dec (y - IZR n) (1 / 2)) as [H1 | H1].
  - apply Rabs_le. lra.
  - destruct (Rlt_dec (1 / 2) (y - IZR n)) as [H2 | H2].
    + rewrite plus_IZR. apply Rabs_le. lra.
    + destruct (Z.even n).
      * apply Rabs_le. lra.
      * rewrite plus_IZR. apply Rabs_le. lra.
Qed.

Lemma pow10_pos (n : nat) : 0 < 10 ^ n.
Proof. apply pow_lt. lra. Qed.

Lemma py_round_close (x : R) (n : nat) :
  Rabs (py_round x n - x) <= 1 / 2 / 10 ^ n.
Proof.
  unfold py_round.
  pose proof (pow10_pos n) as Hp.
  pose proof (round_half_even_close (x * 10 ^ n)) as Hr.
  set (z := IZR (round_half_even (x * 10 ^ n))) in *.
  replace (z / 10 ^ n - x) with ((z - x * 10 ^ n) / 10 ^ n)
    by (field; lra).
  unfold Rdiv at 1. rewrite Rabs_mult.
  rewrite (Rabs_pos_eq (/ 10 ^ n)).
  - apply Rmult_le_compat_r; [|exact Hr].
    left. now apply Rinv_0_lt_compat.
  - left. now apply Rinv_0_lt_compat.
Qed.

(** The value of [round_half_even] at a point whose fractional part is
    below one half. *)
Lemma round_half_even_below (y : R) (z : Z) :
  IZR z <= y < IZR z + 1 / 2 -> round_half_even y = z.
Proof.
  intros [Hlo Hhi].
  assert (Hz : z = Int_part y) by (apply Int_part_spec; lra).
  unfold round_half_even, frac_part. rewrite <- Hz.
  destruct (Rlt_dec (y - IZR z) (1 / 2)); [reflexivity | lra].
Qed.

Lemma tanh_range (x : R) : -1 < tanh x < 1.
Proof.
  unfold tanh, sinh, cosh.
  pose proof (exp_pos x) as Ha.
  pose proof (exp_pos (- x)) as Hb.
  set (a := exp x) in *. set (b := exp (- x)) in *.
  replace ((a - b) / 2 / ((a + b) / 2)) with ((a - b) / (a + b))
    by (field; lra).
  split.
  - apply Rmult_lt_reg_r with (a + b); [lra|].
    unfold Rdiv. rewrite Rmult_assoc, Rinv_l by lra. lra.
  - apply Rmult_lt_reg_r with (a + b); [lra|].
    unfold Rdiv. rewrite Rmult_assoc, Rinv_l by lra. lra.
Qed.

Lemma tanh_0 : tanh 0 = 0.
Proof.
  unfold tanh, sinh. rewrite Ropp_0, Rminus_diag.
  unfold Rdiv. now rewrite !Rmult_0_l.
Qed.
End Numbers.

(** ** C1: the single-step price estimate *)

Section EstimateBound.
Local Open Scope R_scope.

(** Before rounding, the adjustment stays strictly inside one percent. *)
Lemma adjusted_within_one_percent (ref x : R) :
  0 < ref -> Rabs (ref * (1 + tanh x * 0.01) / ref - 1) < 0.01.
Proof.
  intros Href. pose proof (tanh_range x) as [Hlo Hhi].
  replace (ref * (1 + tanh x * 0.01) / ref - 1) with (tanh x * 0.01)
    by (field; lra).
  apply Rabs_def1; lra.
Qed.

Lemma rounded_estimate_bound (ref x : R) :
  0 < ref ->
  Rabs (py_round (ref * (1 + tanh x * 0.01)) 4 / ref - 1)
    <= 0.01 + 0.00005 / ref.
Proof.
  intros Href.
  pose proof (adjusted_within_one_percent ref x Href) as Hu.
  set (u := ref * (1 + tanh x * 0.01)) in *.
  pose proof (py_round_close u 4) as Hr.
  replace (py_round u 4 / ref - 1)
    with ((py_round u 4 - u) / ref + (u / ref - 1)) by (field; lra).
  eapply Rle_trans; [apply Rabs_triang|].
  rewrite (Rplus_comm 0.01).
  apply Rplus_le_compat; [|lra].
  unfold Rdiv at 1. rewrite Rabs_mult.
  rewrite (Rabs_pos_eq (/ ref)) by (left; now apply Rinv_0_lt_compat).
  unfold Rdiv. apply Rmult_le_compat_r.
  - left. now apply Rinv_0_lt_compat.
  - eapply Rle_trans; [exact Hr|]. simpl. lra.
Qed.
End EstimateBound.

(** C1 (as amended).  For every reference close above zero, every [hmax]
    above zero and every action that is not [None], both estimators return
    the same price [p], the reference close adjusted by
    [tanh(action / hmax)] percent and rounded to four decimals; the
    adjustment before rounding is strictly within one percent, and
    [|p / reference - 1| <= 0.01 + 0.00005 / reference]: one percent plus
    the half unit of the fourth decimal that the rounding can add. *)
Theorem estimate_price_within_one_percent_and_rounding
    (reference_close action : R) (hmax : Z) :
  (0 < reference_close)%R -> (0 < hmax)%Z ->
  ∃ p : R,
    _estimate_price_from_action reference_close (Some action) hmax = Ok p ∧
    _estimate_price reference_close (Some action) hmax = Ok p ∧
    p = py_round (reference_close * (1 + tanh (action / IZR hmax) * 0.01)) 4 ∧
    (Rabs (reference_close * (1 + tanh (action / IZR hmax) * 0.01)
           / reference_close - 1) < 0.01)%R ∧
    (Rabs (p / reference_close - 1) <= 0.01 + 0.00005 / reference_close)%R.
Proof.
  intros Href Hh.
  unfold _estimate_price_from_action, _estimate_price.
  destruct (decide (hmax = 0%Z)) as [-> | _]; [lia|].
  eexists. repeat split.
  - now apply adjusted_within_one_percent.
  - now apply rounded_estimate_bound.
Qed.

(** The bound for a close of 150, an action of 25 and [hmax = 100]. *)
Lemma estimate_price_within_one_percent_and_rounding_witness :
  ∃ p : R,
    _estimate_price_from_action 150 (Some 25%R) 100 = Ok p ∧
    _estimate_price 150 (Some 25%R) 100 = Ok p ∧
    p = py_round (150 * (1 + tanh (25 / IZR 100) * 0.01)) 4 ∧
    (Rabs (150 * (1 + tanh (25 / IZR 100) * 0.01) / 150 - 1) < 0.01)%R ∧
    (Rabs (p / 150 - 1) <= 0.01 + 0.00005 / 150)%R.
Proof.
  apply (estimate_price_within_one_percent_and_rounding 150 25 100);
    [lra | lia].
Defined.

(** C1 as stated fails: a reference close of 0.00004 with a zero action and
    [hmax = 100] is rounded to 0, a move of one hundred percent. *)
Lemma estimate_price_exceeds_one_percent :
  (0 < 4 / 100000)%R ∧ (0 < 100)%Z ∧
  _estimate_price_from_action (4 / 100000) (Some 0%R) 100 = Ok 0%R ∧
  _estimate_price (4 / 100000) (Some 0%R) 100 = Ok 0%R ∧
  ¬ (Rabs (0 / (4 / 100000) - 1) <= 0.01)%R.
Proof.
  assert (Hround :
    py_round (4 / 100000 * (1 + tanh (0 / IZR 100) * 0.01)) 4 = 0%R).
  { unfold py_round.
    replace (0 / IZR 100)%R with 0%R by (unfold Rdiv; now rewrite Rmult_0_l).
    rewrite tanh_0.
    rewrite (round_half_even_below _ 0); [unfold Rdiv; now rewrite Rmult_0_l|].
    simpl. lra. }
  split; [lra|]. split; [lia|].
  unfold _estimate_price_from_action, _estimate_price.
  destruct (decide (100 = 0)%Z) as [H | _]; [lia|].
  rewrite Hround. repeat split.
  intros H.
  replace (0 / (4 / 100000) - 1)%R with (Ropp 1) in H by (field; lra).
  rewrite Rabs_Ropp, Rabs_R1 in H. lra.
Qed.

(** ** C4: scalar extraction *)

(** Where the extraction does what is expected of it: scalars, lists and
    tuples of any length, and arrays of at most one element. *)
Lemma action_to_scalar_first_or_zero :
  (∀ x, _action_to_scalar (Scalar x) = Ok x) ∧
  (∀ x xs, _action_to_scalar (PyList (x :: xs)) = Ok x) ∧
  (∀ x xs, _action_to_scalar (PyTuple (x :: xs)) = Ok x) ∧
  _action_to_scalar (PyList []) = Ok 0%R ∧
  _action_to_scalar (PyTuple []) = Ok 0%R ∧
  _action_to_scalar (NdArray []) = Ok 0%R ∧
  (∀ x, _action_to_scalar (NdArray [x]) = Ok x).
Proof.
  repeat split; try reflexivity.
  intros x. unfold _action_to_scalar. simpl.
  destruct (Req_dec_T x 0) as [-> | _]; reflexivity.
Qed.

Lemma action_to_scalar_long_array (x y : R) (rest : list R) :
  ∃ msg, _action_to_scalar (NdArray (x :: y :: rest)) = Raise (ValueError msg).
Proof. eexists. reflexivity. Qed.

(** C4.  On the two-element array [[1.0, 2.0]] the extraction raises
    [ValueError] (the truth value of the array is ambiguous) instead of
    returning the first element 1.0. *)
Theorem action_to_scalar_two_element_array_raises :
  _action_to_scalar (NdArray [1%R; 2%R])
  = Raise (ValueError
             "The truth value of an array with more than one element is ambiguous. Use a.any() or a.all()").
Proof. reflexivity. Qed.

(** ** C5: alignment of the provider's series *)

Section Alignment.
Import YFinanceClient.
Context {A : Type}.
Implicit Types (values : list (option A)) (n : nat).

Lemma align_length_length (v : option (list (option A))) n :
  length (_align_length v n) = n.
Proof.
  unfold _align_length. destruct v as [values|].
  - repeat case_decide; [done| |].
    + rewrite length_take. lia.
    + rewrite length_app, length_replicate. lia.
  - apply length_replicate.
Qed.

(** Entry [i] of the aligned series is entry [i] of the given one, or
    null past its end. *)
Lemma align_length_lookup values n i :
  i < n →
  _align_length (Some values) n !! i = Some (default None (values !! i)).
Proof.
  intros Hi. unfold _align_length. repeat case_decide.
  - destruct (lookup_lt_is_Some_2 values i) as [x Hx]; [lia|].
    by rewrite Hx.
  - rewrite lookup_take_lt by done.
    destruct (lookup_lt_is_Some_2 values i) as [x Hx]; [lia|].
    by rewrite Hx.
  - destruct (decide (i < length values)) as [Hlt | Hge].
    + rewrite lookup_app_l by done.
      destruct (lookup_lt_is_Some_2 values i) as [x Hx]; [lia|].
      by rewrite Hx.
    + rewrite lookup_app_r by lia.
      rewrite lookup_replicate_2 by lia.
      by rewrite lookup_ge_None_2 by lia.
Qed.

Lemma align_length_as_seq values n :
  _align_length (Some values) n
  = (λ i, default None (values !! i)) <$> seq 0 n.
Proof.
  apply list_eq. intros i.
  destruct (decide (i < n)) as [Hi | Hi].
  - rewrite align_length_lookup by done.
    rewrite list_lookup_fmap, lookup_seq_lt by done. done.
  - rewrite lookup_ge_None_2 by (rewrite align_length_length; lia).
    rewrite lookup_ge_None_2; [done|].
    rewrite length_fmap, length_seq. lia.
Qed.

End Alignment.




(** ** Running and inverting computations *)

Lemma rbind_ok {A B} (r : result A) (k : A -> result B) (b : B) :
  rbind r k = Ok b → ∃ a, r = Ok a ∧ k a = Ok b.
Proof. destruct r as [a|e]; simpl; [eauto | discriminate]. Qed.

Lemma bind_ok {W A B} (m : io W A) (k : A -> io W B) (w w' : W) (b : B) :
  bind m k w = (Ok b, w') → ∃ a w1, m w = (Ok a, w1) ∧ k a w1 = (Ok b, w').
Proof.
  unfold bind. destruct (m w) as [[a|e] w1]; [eauto | discriminate].
Qed.

Lemma lift_ok {W A} (r : result A) (w w' : W) (a : A) :
  lift r w = (Ok a, w') → r = Ok a ∧ w' = w.
Proof. unfold lift. by intros [= -> ->]. Qed.

Lemma bind_raise {W A B} (m : io W A) (k : A -> io W B) (w w' : W) (e : exn) :
  m w = (Raise e, w') → bind m k w = (Raise e, w').
Proof. unfold bind. by intros ->. Qed.

Lemma bind_eval {W A B} (m : io W A) (k : A -> io W B) (w w1 : W) (a : A) :
  m w = (Ok a, w1) → bind m k w = k a w1.
Proof. unfold bind. by intros ->. Qed.

Lemma bind_lift_eval {W A B} (r : result A) (k : A -> io W B) (w : W) (a : A) :
  r = Ok a → bind (lift r) k w = k a w.
Proof. by intros ->. Qed.

(** ** C2, C3, C10: the prediction cache *)

Section Cache.
Context {World Model : Type}.
Variable settings : Settings.
Variable utcnow : World -> Z.
Variable yf_download : string -> Z -> Z -> io World (list candle).
Variable INDICATORS : list string.
Variable preprocess_data : list bar -> result (list indicator_row).
Variable data_split : list feature_row -> Z -> Z -> list feature_row.
Variable train_model : list feature_row -> env_kwargs -> Z -> io World Model.
Variable DRL_prediction :
  Model -> list feature_row -> env_kwargs ->
  io World (list account_record * list action_record).

Local Abbreviation run_pipeline :=
  (FinRLService._run_pipeline settings utcnow yf_download INDICATORS
     preprocess_data data_split train_model DRL_prediction).
Local Abbreviation get_or_train :=
  (FinRLService._get_or_train settings utcnow yf_download INDICATORS
     preprocess_data data_split train_model DRL_prediction).
Local Abbreviation get_prediction_payload :=
  (FinRLService.get_prediction_payload settings utcnow yf_download INDICATORS
     preprocess_data data_split train_model DRL_prediction).
Local Abbreviation get_backtest_payload :=
  (FinRLService.get_backtest_payload settings utcnow yf_download INDICATORS
     preprocess_data data_split train_model DRL_prediction).

Implicit Types (cache : gmap string FinRLService.CacheEntry).

Lemma get_or_train_miss cache symbol w :
  is_miss utcnow cache symbol w →
  get_or_train cache symbol w
  = match run_pipeline (upper symbol) w with
    | (Raise e, w') => (Raise e, cache, w')
    | (Ok (prediction, backtest), w') =>
        let new_entry :=
          {| FinRLService.prediction := prediction;
             FinRLService.backtest := backtest;
             FinRLService.expires_at :=
               (utcnow w + timedelta_minutes (cache_ttl_minutes settings))%Z |} in
        (Ok new_entry, <[upper symbol := new_entry]> cache, w')
    end.
Proof.
  intros Hmiss. unfold FinRLService._get_or_train.
  destruct (cache !! upper symbol) as [entry|] eqn:Hc; [|done].
  rewrite decide_False; [done|]. by apply Hmiss.
Qed.

Lemma get_or_train_hit cache symbol entry w :
  cache !! upper symbol = Some entry →
  (utcnow w < FinRLService.expires_at entry)%Z →
  get_or_train cache symbol w = (Ok entry, cache, w).
Proof.
  intros Hc Hlt. unfold FinRLService._get_or_train.
  rewrite Hc. by rewrite decide_True.
Qed.

(** After a call that returns an entry, that entry is the one stored
    under the symbol's key. *)
Lemma get_or_train_ok_stored cache symbol w entry cache' w' :
  get_or_train cache symbol w = (Ok entry, cache', w') →
  cache' !! upper symbol = Some entry.
Proof.
  unfold FinRLService._get_or_train.
  destruct (cache !! upper symbol) as [old|] eqn:Hc.
  - case_decide.
    + intros [= <- <- <-]. done.
    + destruct (run_pipeline (upper symbol) w) as [[[p b]|e] w1];
        intros [= <- <- <-]. apply lookup_insert_eq.
  - destruct (run_pipeline (upper symbol) w) as [[[p b]|e] w1];
      intros [= <- <- <-]. apply lookup_insert_eq.
Qed.

(** A call that raises leaves the cache as it was. *)
Lemma get_or_train_raise_keeps_cache cache symbol w e cache' w' :
  get_or_train cache symbol w = (Raise e, cache', w') → cache' = cache.
Proof.
  unfold FinRLService._get_or_train.
  destruct (cache !! upper symbol) as [old|] eqn:Hc.
  - case_decide; [done|].
    destruct (run_pipeline (upper symbol) w) as [[[p b]|e1] w1];
      intros [= <- <- <-]; done.
  - destruct (run_pipeline (upper symbol) w) as [[[p b]|e1] w1];
      intros [= <- <- <-]; done.
Qed.

(** Two calls in a row: when the first returns an entry and the second,
    for a symbol with the same upper-case key, comes before that entry
    expires, the second returns the same entry and changes nothing. *)
Lemma get_or_train_second_call cache symbol symbol' w entry cache' w' :
  get_or_train cache symbol w = (Ok entry, cache', w') →
  upper symbol' = upper symbol →
  (utcnow w' < FinRLService.expires_at entry)%Z →
  get_or_train cache' symbol' w' = (Ok entry, cache', w').
Proof.
  intros Hfirst Hkey Hlt.
  apply get_or_train_hit; [|done].
  rewrite Hkey. by eapply get_or_train_ok_stored.
Qed.

(** C2.  When the cache holds an entry under a key and the clock is
    before the entry's expiry, a call for any symbol whose upper-case form
    is that key returns that very entry, and the cache and the world are
    as before (the world is where the pipeline would have left its trace:
    it did not run); the two payload getters return the stored prediction
    and backtest payloads. *)
Theorem get_or_train_hit_returns_stored_entry
    cache (symbol key : string) (entry : FinRLService.CacheEntry) (w : World) :
  upper symbol = key →
  cache !! key = Some entry →
  (utcnow w < FinRLService.expires_at entry)%Z →
  get_or_train cache symbol w = (Ok entry, cache, w) ∧
  get_prediction_payload cache symbol w
    = (Ok (FinRLService.prediction entry), cache, w) ∧
  get_backtest_payload cache symbol w
    = (Ok (FinRLService.backtest entry), cache, w).
Proof.
  intros <- Hc Hlt.
  unfold FinRLService.get_prediction_payload,
    FinRLService.get_backtest_payload.
  rewrite (get_or_train_hit _ _ _ _ Hc Hlt). done.
Qed.

(** What a miss stores.  On a miss on which the pipeline succeeds, the
    returned entry holds the pipeline's two payloads and expires at the
    clock reading taken at the start of the call, before the pipeline ran,
    plus the configured TTL; it is stored under the upper-case symbol and
    nothing else in the cache changes. *)
Lemma get_or_train_miss_stores
    cache (symbol : string) (w w' : World)
    (prediction : prediction_payload) (backtest : backtest_payload) :
  is_miss utcnow cache symbol w →
  run_pipeline (upper symbol) w = (Ok (prediction, backtest), w') →
  ∃ entry,
    get_or_train cache symbol w
      = (Ok entry, <[upper symbol := entry]> cache, w') ∧
    FinRLService.prediction entry = prediction ∧
    FinRLService.backtest entry = backtest ∧
    FinRLService.expires_at entry
      = (utcnow w + timedelta_minutes (cache_ttl_minutes settings))%Z.
Proof.
  intros Hmiss Hrun. rewrite get_or_train_miss by done. rewrite Hrun.
  eexists. split; [reflexivity|]. done.
Qed.

(** An error raised by any stage is the outcome of the whole pipeline: by
    the download, the feature engineering, the split, the training, the
    simulation, or the building of either payload. *)
Lemma run_pipeline_stage_failure (symbol : string) (w w' : World) (e : exn) :
  FinRLService._download_market_data settings utcnow yf_download symbol w
    = (Raise e, w')
  ∨ (∃ raw_df w1,
       FinRLService._download_market_data settings utcnow yf_download symbol w
         = (Ok raw_df, w1) ∧
       ((FinRLService._engineer_features preprocess_data raw_df = Raise e
         ∧ w' = w1)
        ∨ ∃ processed_df,
            FinRLService._engineer_features preprocess_data raw_df
              = Ok processed_df ∧
            ((FinRLService._split_dataframes settings data_split processed_df
                = Raise e ∧ w' = w1)
             ∨ ∃ train_df test_df,
                 FinRLService._split_dataframes settings data_split processed_df
                   = Ok (train_df, test_df) ∧
                 let kwargs :=
                   FinRLService._build_env_kwargs INDICATORS train_df in
                 (FinRLService._train_agent settings train_model train_df
                    kwargs w1 = (Raise e, w')
                  ∨ ∃ model w2,
                      FinRLService._train_agent settings train_model train_df
                        kwargs w1 = (Ok model, w2) ∧
                      (FinRLService._run_trading_loop DRL_prediction model
                         test_df kwargs w2 = (Raise e, w')
                       ∨ ∃ account_memory actions_memory w3,
                           FinRLService._run_trading_loop DRL_prediction model
                             test_df kwargs w2
                             = (Ok (account_memory, actions_memory), w3) ∧
                           (FinRLService._build_prediction_payload utcnow
                              symbol raw_df actions_memory kwargs w3
                              = (Raise e, w')
                            ∨ ∃ payload w4,
                                FinRLService._build_prediction_payload utcnow
                                  symbol raw_df actions_memory kwargs w3
                                  = (Ok payload, w4) ∧
                                FinRLService._build_backtest_payload utcnow
                                  symbol account_memory actions_memory test_df
                                  kwargs w4 = (Raise e, w'))))))) →
  run_pipeline symbol w = (Raise e, w').
Proof.
  unfold FinRLService._run_pipeline.
  intros [Hdl | (raw_df & w1 & Hdl & Hrest)]; [by apply bind_raise|].
  rewrite (bind_eval _ _ _ _ _ Hdl).
  destruct Hrest as [[Heng ->] | (processed_df & Heng & Hrest)].
  { apply bind_raise. unfold lift. by rewrite Heng. }
  rewrite (bind_lift_eval _ _ _ _ Heng).
  destruct Hrest as [[Hsplit ->] | (train_df & test_df & Hsplit & Hrest)].
  { apply bind_raise. unfold lift. by rewrite Hsplit. }
  rewrite (bind_lift_eval _ _ _ _ Hsplit). cbv zeta in Hrest.
  destruct Hrest as [Htrain | (model & w2 & Htrain & Hrest)];
    [by apply bind_raise|].
  rewrite (bind_eval _ _ _ _ _ Htrain).
  destruct Hrest as [Hloop | (acc & acts & w3 & Hloop & Hrest)];
    [by apply bind_raise|].
  rewrite (bind_eval _ _ _ _ _ Hloop).
  destruct Hrest as [Hpred | (payload & w4 & Hpred & Hback)];
    [by apply bind_raise|].
  rewrite (bind_eval _ _ _ _ _ Hpred).
  by apply bind_raise.
Qed.

(** C10.  On a miss on which the pipeline raises, the call raises the
    same error and the cache map is the one it was given: nothing is
    inserted, replaced or removed. *)
Theorem get_or_train_failure_keeps_cache
    cache (symbol : string) (w w' : World) (e : exn) :
  is_miss utcnow cache symbol w →
  run_pipeline (upper symbol) w = (Raise e, w') →
  get_or_train cache symbol w = (Raise e, cache, w').
Proof.
  intros Hmiss Hrun. rewrite get_or_train_miss by done. by rewrite Hrun.
Qed.
End Cache.

(** ** C6: the final equity of the metrics *)

Lemma calculate_metrics_final_equity
    (account_memory : list account_record) (m : metrics_t) :
  FinRLService._calculate_metrics account_memory = Ok m →
  ∃ row, last account_memory = Some row ∧
         final_equity m = py_round (account_value row) 2.
Proof.
  unfold FinRLService._calculate_metrics. intros H.
  apply rbind_ok in H as (x & Hlast & H).
  apply rbind_ok in H as (first & _ & H).
  destruct (Req_dec_T first 0); [discriminate|].
  injection H as <-. simpl.
  unfold iloc_last in Hlast. rewrite fmap_last in Hlast.
  destruct (last account_memory) as [row|]; [|discriminate].
  simpl in Hlast. injection Hlast as <-. eauto.
Qed.

(** C6 (as amended).  When the backtest payload is built, its equity curve
    is not empty and carries the account values as they are, while
    [metrics.final_equity] is the equity of the last point of the curve
    rounded to two decimals. *)
Theorem final_equity_is_rounded_last_equity
    {World : Type} (utcnow : World -> Z) (symbol : string)
    (account_memory : list account_record)
    (actions_frame : list action_record) (test_df : list feature_row)
    (kwargs : env_kwargs) (w w' : World) (payload : backtest_payload) :
  FinRLService._build_backtest_payload utcnow symbol account_memory
    actions_frame test_df kwargs w = (Ok payload, w') →
  equity <$> equity_curve payload = account_value <$> account_memory ∧
  ∃ point, last (equity_curve payload) = Some point ∧
           final_equity (metrics payload) = py_round (equity point) 2.
Proof.
  unfold FinRLService._build_backtest_payload. intros H.
  apply bind_ok in H as (m & w1 & Hm & H). apply lift_ok in Hm as [Hm ->].
  apply bind_ok in H as (rows & w2 & Hrows & H).
  apply lift_ok in Hrows as [_ ->].
  injection H as <- <-. simpl.
  apply calculate_metrics_final_equity in Hm as (row & Hlast & Hfinal).
  split.
  - rewrite <- list_fmap_compose. done.
  - rewrite fmap_last, Hlast. simpl. eexists. split; [done|]. done.
Qed.

(** ** C8: the dataset splitter *)

Lemma foldl_max_spec (ds : list Z) (d : Z) :
  foldl Z.max d ds ∈ d :: ds ∧ Forall (λ x, x ≤ foldl Z.max d ds)%Z (d :: ds).
Proof.
  revert d. induction ds as [|x ds IH]; intros d; simpl.
  - split; [apply elem_of_cons; by left|]. constructor; [lia | constructor].
  - destruct (IH (Z.max d x)) as [Hin Hall]. split.
    + apply elem_of_cons in Hin as [Heq | Hin];
        [|rewrite !elem_of_cons; by auto].
      rewrite Heq.
      destruct (Z.max_spec d x) as [[_ ->] | [_ ->]];
        rewrite !elem_of_cons; by auto.
    + inversion Hall as [|? ? Hhd Htl]; subst.
      constructor; [lia|]. constructor; [lia | done].
Qed.

Lemma foldl_min_spec (ds : list Z) (d : Z) :
  foldl Z.min d ds ∈ d :: ds ∧ Forall (λ x, foldl Z.min d ds ≤ x)%Z (d :: ds).
Proof.
  revert d. induction ds as [|x ds IH]; intros d; simpl.
  - split; [apply elem_of_cons; by left|]. constructor; [lia | constructor].
  - destruct (IH (Z.min d x)) as [Hin Hall]. split.
    + apply elem_of_cons in Hin as [Heq | Hin];
        [|rewrite !elem_of_cons; by auto].
      rewrite Heq.
      destruct (Z.min_spec d x) as [[_ ->] | [_ ->]];
        rewrite !elem_of_cons; by auto.
    + inversion Hall as [|? ? Hhd Htl]; subst.
      constructor; [lia|]. constructor; [lia | done].
Qed.

(** C8.  For a dataset whose earliest date is [min_date] and whose latest
    date is [max_date]: when [max_date] minus the configured test window is
    not after [min_date], the splitter raises its not-enough-rows
    [FinRLException], whatever the partition function would return (it is
    not consulted); so it does for a dataset spanning 365 days under a
    400-day window. *)
Theorem split_fails_when_window_reaches_first_date
    (settings : Settings)
    (data_split : list feature_row -> Z -> Z -> list feature_row)
    (df : list feature_row) (min_date max_date : Z) :
  min_date ∈ f_date <$> df →
  max_date ∈ f_date <$> df →
  Forall (λ d, min_date ≤ d ≤ max_date)%Z (f_date <$> df) →
  let not_enough_rows :=
    FinRLException
      "Not enough rows to create training and testing windows. Reduce FINRL_TEST_WINDOW_DAYS or extend lookback." in
  ((max_date - timedelta_days (test_window_days settings) ≤ min_date)%Z →
   FinRLService._split_dataframes settings data_split df
   = Raise not_enough_rows) ∧
  ((max_date - min_date = timedelta_days 365)%Z →
   test_window_days settings = 400%Z →
   FinRLService._split_dataframes settings data_split df
   = Raise not_enough_rows).
Proof.
  intros Hmin Hmax Hall not_enough_rows.
  assert (Hgen :
    (max_date - timedelta_days (test_window_days settings) ≤ min_date)%Z →
    FinRLService._split_dataframes settings data_split df
    = Raise not_enough_rows).
  { intros Hle. unfold FinRLService._split_dataframes.
    destruct (f_date <$> df) as [|d ds] eqn:Hdates; [set_solver|].
    destruct (foldl_max_spec ds d) as [Hmx_in Hmx_all].
    destruct (foldl_min_spec ds d) as [Hmn_in Hmn_all].
    rewrite Forall_forall in Hall, Hmx_all, Hmn_all.
    assert (foldl Z.max d ds = max_date) as ->.
    { pose proof (Hall _ Hmx_in). pose proof (Hmx_all _ Hmax). lia. }
    assert (foldl Z.min d ds = min_date) as ->.
    { pose proof (Hall _ Hmn_in). pose proof (Hmn_all _ Hmin). simpl in *. lia. }
    rewrite decide_True by done. reflexivity. }
  split; [exact Hgen|].
  intros Hspan Hwin. apply Hgen. rewrite Hwin.
  unfold timedelta_days, microseconds_per_second in *. lia.
Qed.

(** ** C9: the price history of the prediction payload *)

#[global] Instance date_le_total : Total date_le.
Proof. intros x y. unfold date_le. lia. Qed.

#[global] Instance date_le_trans : Transitive date_le.
Proof. intros x y z. unfold date_le. lia. Qed.

Lemma sort_values_date_sorted (frame : list bar) :
  StronglySorted date_le (sort_values_date frame).
Proof. apply StronglySorted_merge_sort; apply _. Qed.

Lemma sort_values_date_length (frame : list bar) :
  length (sort_values_date frame) = length frame.
Proof. apply Permutation_length, merge_sort_Permutation. Qed.

Lemma tail_length {A} (n : nat) (frame : list A) :
  length (tail n frame) = n `min` length frame.
Proof. unfold tail. rewrite length_drop. lia. Qed.

Lemma tail_split {A} (n : nat) (frame : list A) :
  frame = take (length frame - n) frame ++ tail n frame.
Proof. unfold tail. by rewrite take_drop. Qed.

Lemma tail_all {A} (n : nat) (frame : list A) :
  length frame ≤ n → tail n frame = frame.
Proof.
  intros Hle. unfold tail. by replace (length frame - n) with 0 by lia.
Qed.

Lemma history_points_recent (raw_df : list bar) :
  StronglySorted date_le raw_df → recent_history raw_df (history_points raw_df).
Proof.
  intros Hsorted. exists (take (length raw_df - 240) raw_df), (tail 240 raw_df).
  pose proof (tail_split 240 raw_df) as Hsplit.
  rewrite Hsplit in Hsorted. apply StronglySorted_app in Hsorted as (Hcross & _ & Hrecent).
  split; [done|]. split; [apply tail_length|]. split; [done|].
  split; [|split].
  - intros Hle. by rewrite tail_all.
  - intros o r Ho Hr. by apply Hcross.
  - unfold history_points. rewrite <- list_fmap_compose.
    eapply StronglySorted_fmap; [|exact Hrecent]. done.
Qed.

Section PriceHistory.
Context {World Model : Type}.
Variable settings : Settings.
Variable utcnow : World -> Z.
Variable yf_download : string -> Z -> Z -> io World (list candle).
Variable session_get :
  string -> Z -> Z -> World -> YFinanceClient.http_reply * World.
Variable python : YFinanceClient.objects.
Variable model_path_exists : World -> bool.
Variable PPO_load : io World Model.
Variable INDICATORS : list string.
Variable preprocess_data : list bar -> result (list indicator_row).
Variable data_split : list feature_row -> Z -> Z -> list feature_row.
Variable train_model : list feature_row -> env_kwargs -> Z -> io World Model.
Variable DRL_prediction :
  Model -> list feature_row -> env_kwargs ->
  io World (list account_record * list action_record).

Local Abbreviation download_market_data :=
  (FinRLService._download_market_data settings utcnow yf_download).
Local Abbreviation run_pipeline :=
  (FinRLService._run_pipeline settings utcnow yf_download INDICATORS
     preprocess_data data_split train_model DRL_prediction).
Local Abbreviation fetch_market_data :=
  (Predict._fetch_market_data utcnow session_get python).
Local Abbreviation run_prediction :=
  (Predict._run_prediction utcnow session_get python model_path_exists PPO_load
     INDICATORS preprocess_data DRL_prediction).

(** What [_download_market_data] returns is sorted by date and has at least
    100 rows. *)
Lemma download_market_data_ok (symbol : string) (w w' : World)
    (raw_df : list bar) :
  download_market_data symbol w = (Ok raw_df, w') →
  StronglySorted date_le raw_df ∧ 100 ≤ length raw_df.
Proof.
  unfold FinRLService._download_market_data. intros H.
  apply bind_ok in H as (data & w1 & _ & H).
  destruct data as [|c data]; [discriminate|].
  set (frame := sort_values_date _) in *.
  case_decide as Hlen; [discriminate|].
  injection H as <- <-. split; [apply sort_values_date_sorted | lia].
Qed.

(** What [_fetch_market_data] returns is sorted by date and has at least 30
    rows. *)
Lemma fetch_market_data_ok (symbol : string) (w w' : World)
    (raw_df : list bar) :
  fetch_market_data symbol w = (Ok raw_df, w') →
  StronglySorted date_le raw_df ∧ 30 ≤ length raw_df.
Proof.
  unfold Predict._fetch_market_data. intros H.
  destruct (YFinanceClient.download_price_history _ _ _ _ _)
    as [[data|e] w1]; [|destruct e; discriminate].
  destruct (YFinanceClient.rows data) as [|c candles]; [discriminate|].
  set (frame := sort_values_date _) in *.
  case_decide as Hlen; [discriminate|].
  injection H as <- <-. split; [apply sort_values_date_sorted | lia].
Qed.

Lemma build_prediction_payload_history (symbol : string) (raw_df : list bar)
    (actions_frame : list action_record) (kwargs : env_kwargs)
    (w w' : World) (payload : prediction_payload) :
  FinRLService._build_prediction_payload utcnow symbol raw_df actions_frame
    kwargs w = (Ok payload, w') →
  price_history payload = history_points raw_df.
Proof.
  unfold FinRLService._build_prediction_payload. intros H.
  apply bind_ok in H as (latest_row & w1 & _ & H).
  apply bind_ok in H as (last_action & w2 & _ & H).
  apply bind_ok in H as (predicted & w3 & _ & H).
  by injection H as <- <-.
Qed.

Lemma run_pipeline_history (symbol : string) (w w' : World)
    (prediction : prediction_payload) (backtest : backtest_payload) :
  run_pipeline symbol w = (Ok (prediction, backtest), w') →
  ∃ raw_df w1,
    download_market_data symbol w = (Ok raw_df, w1) ∧
    price_history prediction = history_points raw_df.
Proof.
  unfold FinRLService._run_pipeline. intros H.
  apply bind_ok in H as (raw_df & w1 & Hraw & H).
  apply bind_ok in H as (processed & w2 & _ & H).
  apply bind_ok in H as ([train_df test_df] & w3 & _ & H).
  apply bind_ok in H as (model & w4 & _ & H).
  apply bind_ok in H as ([account_memory actions_memory] & w5 & _ & H).
  apply bind_ok in H as (p & w6 & Hp & H).
  apply bind_ok in H as (b & w7 & _ & H).
  injection H as <- <- <-.
  exists raw_df, w1. split; [done|].
  by eapply build_prediction_payload_history.
Qed.

Lemma run_prediction_history (model_cache model_cache' : option Model)
    (symbol : string) (w w' : World) (response : Predict.PredictionResponse) :
  run_prediction model_cache symbol w = (Ok response, model_cache', w') →
  ∃ raw_df w0 w1,
    fetch_market_data symbol w0 = (Ok raw_df, w1) ∧
    Predict.r_price_history response = history_points raw_df.
Proof.
  unfold Predict._run_prediction. intros H.
  destruct (Predict._load_model _ _ _ _) as [[[model|e] mc] w0];
    [|discriminate].
  match type of H with
  | (let (_, _) := ?m w0 in _) = _ => destruct (m w0) as [r w2] eqn:Hrest
  end.
  injection H as -> <- <-.
  apply bind_ok in Hrest as (raw_df & w1 & Hraw & H).
  apply bind_ok in H as (processed & w3 & _ & H).
  apply bind_ok in H as ([account_memory actions_frame] & w4 & _ & H).
  apply bind_ok in H as (latest_row & w5 & _ & H).
  apply bind_ok in H as (last_action & w6 & _ & H).
  apply bind_ok in H as (predicted & w7 & _ & H).
  injection H as <- <-.
  exists raw_df, w0, w1. split; done.
Qed.

Lemma history_points_length (raw_df : list bar) :
  length (history_points raw_df) = 240 `min` length raw_df.
Proof. unfold history_points. by rewrite length_fmap, tail_length. Qed.

Lemma build_prediction_payload_ok (symbol : string) (raw_df : list bar)
    (actions_frame : list action_record) (kwargs : env_kwargs) (w : World)
    (last_action : option R) :
  raw_df ≠ [] →
  FinRLService._extract_action actions_frame = Ok last_action →
  hmax kwargs ≠ 0%Z →
  ∃ payload,
    FinRLService._build_prediction_payload utcnow symbol raw_df actions_frame
      kwargs w = (Ok payload, w) ∧
    price_history payload = history_points raw_df.
Proof.
  intros Hrows Haction Hhmax. unfold FinRLService._build_prediction_payload.
  destruct (last raw_df) as [row|] eqn:Hlast;
    [|by apply last_None in Hlast].
  rewrite (bind_lift_eval _ _ _ row) by (unfold iloc_last; by rewrite Hlast).
  rewrite (bind_lift_eval _ _ _ _ Haction).
  assert (∃ predicted,
            _estimate_price_from_action (close row) last_action (hmax kwargs)
            = Ok predicted) as (predicted & Hprice).
  { unfold _estimate_price_from_action.
    destruct last_action; [rewrite decide_False by done|]; eauto. }
  rewrite (bind_lift_eval _ _ _ _ Hprice). eexists. by split.
Qed.

(** C9.  The [price_history] of a prediction payload shows the most recent
    bars of the cleaned price frame that the run itself downloaded: the
    last 240 rows when the frame has more, all rows otherwise, in ascending
    date order.  This holds on both paths.  In the training pipeline and in
    the prediction router every payload that is returned carries that
    history, and a payload is returned whenever the stages after the
    download succeed. *)
Theorem price_history_is_most_recent_240_bars
    (symbol : string) (w w1 : World) (raw_df : list bar) :
  download_market_data symbol w = (Ok raw_df, w1)
  ∨ fetch_market_data symbol w = (Ok raw_df, w1) →
  let history := history_points raw_df in
  length history = 240 `min` length raw_df ∧
  recent_history raw_df history ∧
  (download_market_data symbol w = (Ok raw_df, w1) →
   (∀ prediction backtest w',
      run_pipeline symbol w = (Ok (prediction, backtest), w') →
      price_history prediction = history) ∧
   (∀ processed train_df test_df model account_memory actions_frame
      last_action backtest w2 w3 w4,
      let kwargs := FinRLService._build_env_kwargs INDICATORS train_df in
      FinRLService._engineer_features preprocess_data raw_df = Ok processed →
      FinRLService._split_dataframes settings data_split processed
      = Ok (train_df, test_df) →
      FinRLService._train_agent settings train_model train_df kwargs w1
      = (Ok model, w2) →
      FinRLService._run_trading_loop DRL_prediction model test_df kwargs w2
      = (Ok (account_memory, actions_frame), w3) →
      FinRLService._extract_action actions_frame = Ok last_action →
      FinRLService._build_backtest_payload utcnow symbol account_memory
        actions_frame test_df kwargs w3 = (Ok backtest, w4) →
      ∃ prediction,
        run_pipeline symbol w = (Ok (prediction, backtest), w4) ∧
        price_history prediction = history)) ∧
  (fetch_market_data symbol w = (Ok raw_df, w1) →
   ∀ (model_cache model_cache' : option Model) (model : Model) (w0 : World),
     Predict._load_model model_path_exists PPO_load model_cache w0
     = (Ok model, model_cache', w) →
     (∀ response model_cache'' w',
        run_prediction model_cache symbol w0
        = (Ok response, model_cache'', w') →
        Predict.r_price_history response = history) ∧
     (∀ processed account_memory actions_frame last_action w2,
        Predict._engineer_features preprocess_data raw_df = Ok processed →
        DRL_prediction model processed
          (Predict._build_env_kwargs INDICATORS
             (length (remove_dups (f_tic <$> processed)))) w1
        = (Ok (account_memory, actions_frame), w2) →
        match last actions_frame with
        | Some row => _action_to_scalar (actions row)
        | None => Ok 0%R
        end = Ok last_action →
        ∃ response,
          run_prediction model_cache symbol w0
          = (Ok response, model_cache', w2) ∧
          Predict.r_price_history response = history)).
Proof.
  intros Hraw history. subst history.
  assert (Hfacts : StronglySorted date_le raw_df ∧ raw_df ≠ []).
  { destruct Hraw as [Hraw|Hraw].
    - apply download_market_data_ok in Hraw as [Hsorted Hlen].
      split; [done|]. intros ->. simpl in Hlen. lia.
    - apply fetch_market_data_ok in Hraw as [Hsorted Hlen].
      split; [done|]. intros ->. simpl in Hlen. lia. }
  destruct Hfacts as [Hsorted Hrows].
  split; [apply history_points_length|].
  split; [by apply history_points_recent|]. clear Hraw. split.
  - intros Hdl. split.
    + intros p b w' Hrun.
      apply run_pipeline_history in Hrun as (raw_df' & w1' & Hdl' & ->).
      congruence.
    + intros processed train_df test_df model account_memory actions_frame
        last_action backtest w2 w3 w4 kwargs Heng Hsplit Htrain Hloop Hact
        Hback.
      destruct (build_prediction_payload_ok symbol raw_df actions_frame kwargs
                  w3 last_action Hrows Hact) as (p & Hp & Hhist); [done|].
      exists p. split; [|done].
      unfold FinRLService._run_pipeline.
      rewrite (bind_eval _ _ _ _ _ Hdl), (bind_lift_eval _ _ _ _ Heng),
        (bind_lift_eval _ _ _ _ Hsplit).
      fold kwargs.
      rewrite (bind_eval _ _ _ _ _ Htrain), (bind_eval _ _ _ _ _ Hloop),
        (bind_eval _ _ _ _ _ Hp), (bind_eval _ _ _ _ _ Hback).
      done.
  - intros Hfetch mc mc' model w0 Hload. split.
    + intros response mc'' w' Hrun.
      unfold Predict._run_prediction in Hrun. rewrite Hload in Hrun.
      match type of Hrun with
      | (let (_, _) := ?m w in _) = _ => destruct (m w) as [r w2] eqn:Hrest
      end.
      injection Hrun as -> <- <-.
      rewrite (bind_eval _ _ _ _ _ Hfetch) in Hrest.
      apply bind_ok in Hrest as (processed & w3 & _ & H).
      apply bind_ok in H as ([account_memory actions_frame] & w4 & _ & H).
      apply bind_ok in H as (latest_row & w5 & _ & H).
      apply bind_ok in H as (last_action & w6 & _ & H).
      apply bind_ok in H as (predicted & w7 & _ & H).
      by injection H as <- <-.
    + intros processed account_memory actions_frame last_action w2 Heng Hdrl
        Hact.
      destruct (last raw_df) as [row|] eqn:Hlast;
        [|by apply last_None in Hlast].
      unfold Predict._run_prediction. rewrite Hload.
      rewrite (bind_eval _ _ _ _ _ Hfetch), (bind_lift_eval _ _ _ _ Heng),
        (bind_eval _ _ _ _ _ Hdrl).
      rewrite (bind_lift_eval _ _ _ row)
        by (unfold iloc_last; by rewrite Hlast).
      rewrite (bind_lift_eval _ _ _ _ Hact).
      cbn [hmax Predict._build_env_kwargs].
      rewrite (bind_lift_eval _ _ _
                 (py_round (close row * (1 + tanh (last_action / IZR 100) * 0.01)) 4))
        by (unfold _estimate_price; by rewrite decide_False).
      eexists. by split.
Qed.
End PriceHistory.

(** ** C7: where the minimum row count is checked *)

Lemma all_present_Some (cells : list (option R)) (xs : list R) :
  all_present cells = Some xs ↔ cells = Some <$> xs.
Proof.
  revert xs. induction cells as [|c cells IH]; intros xs; simpl.
  - split; [intros [= <-]; done | by destruct xs].
  - destruct c as [x|]; simpl.
    + destruct (all_present cells) as [ys|] eqn:Hys; simpl.
      * split.
        -- intros [= <-]. simpl. f_equal. by apply IH.
        -- destruct xs as [|x' xs]; [done|]. intros [= -> Hcells].
           apply IH in Hcells. by injection Hcells as ->.
      * split; [done|]. destruct xs as [|x' xs]; [done|].
        intros [= -> Hcells]. by apply IH in Hcells.
    + split; [done|]. by destruct xs.
Qed.

Lemma all_present_is_Some (cells : list (option R)) :
  Forall is_Some cells → is_Some (all_present cells).
Proof.
  induction 1 as [|c cells [x ->] _ [xs IH]]; simpl; [eauto|].
  rewrite IH. simpl. eauto.
Qed.

Lemma clean_indicator_row_Some (r : indicator_row) (f : feature_row) :
  clean_indicator_row r = Some f ↔ r = nullable f.
Proof.
  unfold clean_indicator_row, nullable. destruct r, f; simpl. split.
  - intros H.
    repeat match type of H with
           | context [mbind _ ?o] => destruct o eqn:?; simpl in H; [|done]
           end.
    match goal with Hp : all_present _ = Some _ |- _ =>
      apply all_present_Some in Hp end.
    injection H as -> -> -> -> -> -> -> -> ->. by subst.
  - intros [= -> -> -> -> -> -> -> -> ->]. simpl.
    by rewrite (proj2 (all_present_Some _ _) eq_refl).
Qed.

Lemma nullable_has_no_null (f : feature_row) : has_no_null (nullable f).
Proof.
  unfold has_no_null, nullable. simpl. repeat split; eauto.
  apply Forall_fmap, Forall_true. simpl. eauto.
Qed.

Lemma has_no_null_clean (r : indicator_row) :
  has_no_null r → is_Some (clean_indicator_row r).
Proof.
  unfold has_no_null, clean_indicator_row.
  intros ([? ->] & [? ->] & [? ->] & [? ->] & [? ->] & [? ->] & Hind).
  apply all_present_is_Some in Hind as [xs ->]. simpl. eauto.
Qed.

(** [dropna] keeps exactly the rows without a missing cell. *)
Lemma dropna_filter (frame : list indicator_row) :
  nullable <$> dropna frame = filter has_no_null frame.
Proof.
  unfold dropna. induction frame as [|r frame IH]; [done|]. simpl.
  destruct (clean_indicator_row r) as [f|] eqn:Hf.
  - apply clean_indicator_row_Some in Hf as ->.
    rewrite filter_cons_True by apply nullable_has_no_null.
    simpl. by rewrite <- IH.
  - rewrite filter_cons_False; [done|].
    intros [f Hf']%has_no_null_clean. congruence.
Qed.

Lemma dropna_no_null (frame : list indicator_row) :
  Forall has_no_null (nullable <$> dropna frame).
Proof. apply Forall_fmap, Forall_true. intros f. apply nullable_has_no_null. Qed.

Section MinimumRows.
Context {World : Type}.
Variable settings : Settings.
Variable utcnow : World -> Z.
Variable yf_download : string -> Z -> Z -> io World (list candle).
Variable session_get :
  string -> Z -> Z -> World -> YFinanceClient.http_reply * World.
Variable python : YFinanceClient.objects.
Variable preprocess_data : list bar -> result (list indicator_row).

Local Abbreviation download_market_data :=
  (FinRLService._download_market_data settings utcnow yf_download).
Local Abbreviation fetch_market_data :=
  (Predict._fetch_market_data utcnow session_get python).

Lemma download_market_data_insufficient (symbol : string) (w w1 : World)
    (data : list candle) :
  yf_download symbol
    (utcnow w - timedelta_days (365 * lookback_years settings))%Z (utcnow w) w
  = (Ok data, w1) →
  download_market_data symbol w
  = (Raise (FinRLException
              ("Insufficient historical data for " +:+ symbol
               +:+ ". Try expanding the window.")), w1)
  ↔ data ≠ [] ∧ length (omap (clean_candle symbol) data) < 100.
Proof.
  intros Hdl. unfold FinRLService._download_market_data, bind.
  rewrite Hdl. destruct data as [|c data].
  - split; [|intros [? _]; done]. unfold raise. simpl. discriminate.
  - set (clean := omap (clean_candle symbol) (c :: data)).
    rewrite <- (sort_values_date_length clean).
    case_decide as Hlen; unfold raise, ret.
    + split; [done|]. intros _. simpl. done.
    + split; [discriminate|]. intros [_ ?]. lia.
Qed.

Lemma fetch_market_data_insufficient (symbol : string) (w w1 : World)
    (frame : YFinanceClient.price_frame) :
  YFinanceClient.download_price_history session_get python symbol
    (utcnow w - timedelta_days Predict.LOOKBACK_DAYS)%Z (utcnow w) w
  = (Ok frame, w1) →
  fetch_market_data symbol w
  = (Raise (ValueError ("Insufficient historical data for " +:+ symbol +:+ ".")),
     w1)
  ↔ YFinanceClient.rows frame ≠ [] ∧
    length (omap (clean_candle symbol) (YFinanceClient.rows frame)) < 30.
Proof.
  intros Hdl. unfold Predict._fetch_market_data.
  rewrite Hdl. destruct (YFinanceClient.rows frame) as [|c data].
  - split; [|intros [? _]; done]. simpl. discriminate.
  - set (clean := omap (clean_candle symbol) (c :: data)).
    rewrite <- (sort_values_date_length clean).
    case_decide as Hlen.
    + split; [done|]. intros _. simpl. done.
    + split; [discriminate|]. intros [_ ?]. lia.
Qed.

(** C7 (as amended).  The insufficient-data error is decided on the
    downloaded bars once the rows with a missing value are dropped, before
    the indicator computation and the forward fill: the training path
    raises it exactly when the download is not empty and fewer than 100
    clean bars remain, the prediction path exactly when fewer than 30 do.
    Feature engineering has no minimum of its own: whenever the indicator
    computation returns a frame, it returns the rows of the forward-filled
    frame that have no missing cell, however few, and so a dataset without
    null values. *)
Theorem insufficient_data_is_decided_on_clean_bars :
  (∀ (symbol : string) (w w1 : World) (data : list candle),
     yf_download symbol
       (utcnow w - timedelta_days (365 * lookback_years settings))%Z
       (utcnow w) w = (Ok data, w1) →
     download_market_data symbol w
     = (Raise (FinRLException
                 ("Insufficient historical data for " +:+ symbol
                  +:+ ". Try expanding the window.")), w1)
     ↔ data ≠ [] ∧ length (omap (clean_candle symbol) data) < 100) ∧
  (∀ (symbol : string) (w w1 : World) (frame : YFinanceClient.price_frame),
     YFinanceClient.download_price_history session_get python symbol
       (utcnow w - timedelta_days Predict.LOOKBACK_DAYS)%Z (utcnow w) w
     = (Ok frame, w1) →
     fetch_market_data symbol w
     = (Raise (ValueError
                 ("Insufficient historical data for " +:+ symbol +:+ ".")), w1)
     ↔ YFinanceClient.rows frame ≠ [] ∧
       length (omap (clean_candle symbol) (YFinanceClient.rows frame)) < 30) ∧
  (∀ (raw_df : list bar) (processed : list indicator_row),
     preprocess_data raw_df = Ok processed →
     ∃ df : list feature_row,
       FinRLService._engineer_features preprocess_data raw_df = Ok df ∧
       Predict._engineer_features preprocess_data raw_df = Ok df ∧
       nullable <$> df = filter has_no_null (ffill processed) ∧
       Forall has_no_null (nullable <$> df)).
Proof.
  split; [|split].
  - intros. by apply download_market_data_insufficient.
  - intros. by apply fetch_market_data_insufficient.
  - intros raw_df processed Hpre. exists (dropna (ffill processed)).
    unfold FinRLService._engineer_features, Predict._engineer_features.
    rewrite Hpre. simpl.
    repeat split; [apply dropna_filter | apply dropna_no_null].
Qed.
End MinimumRows.

(** ** The scenario, evaluated *)

Lemma scenario_download (w : Z) :
  Scenario.download_market_data "AAPL" w
  = (Ok Scenario.raw_df, (w + Scenario.seconds 7)%Z).
Proof. reflexivity. Qed.

Lemma scenario_engineer :
  Scenario.engineer_features Scenario.raw_df = Ok Scenario.processed_df.
Proof. reflexivity. Qed.

Lemma scenario_processed_length : length Scenario.processed_df = 99.
Proof. vm_compute. reflexivity. Qed.

Lemma scenario_split :
  ∃ train_df test_df,
    FinRLService._split_dataframes Scenario.settings Scenario.data_split
      Scenario.processed_df = Ok (train_df, test_df).
Proof. eexists. eexists. vm_compute. reflexivity. Qed.

Lemma py_round_1004 : py_round (1004 / 1000) 2 = 1%R.
Proof.
  unfold py_round. rewrite (round_half_even_below _ 100).
  - simpl. field.
  - simpl. lra.
Qed.

Lemma scenario_metrics :
  ∃ m, FinRLService._calculate_metrics Scenario.account_memory = Ok m ∧
       final_equity m = py_round (1004 / 1000) 2.
Proof.
  unfold FinRLService._calculate_metrics. simpl.
  destruct (Req_dec_T (1004 / 1000) 0) as [H | _]; [lra|].
  eexists. split; reflexivity.
Qed.

Lemma price_comparison_without_actions (test_df : list feature_row) (hmax : Z) :
  ∃ rows, FinRLService._build_price_comparison [] test_df hmax = Ok rows.
Proof.
  unfold FinRLService._build_price_comparison.
  destruct (FinRLService.closes_by_date test_df); simpl; eauto.
Qed.

Lemma scenario_backtest (symbol : string) (test_df : list feature_row)
    (kwargs : env_kwargs) (w : Z) :
  ∃ payload,
    FinRLService._build_backtest_payload Scenario.utcnow symbol
      Scenario.account_memory [] test_df kwargs w = (Ok payload, w) ∧
    equity_curve payload
    = [{| eq_date := timedelta_days 39; equity := 1004 / 1000 |}] ∧
    final_equity (metrics payload) = 1%R.
Proof.
  destruct scenario_metrics as (m & Hm & Hfinal).
  destruct (price_comparison_without_actions test_df (hmax kwargs))
    as (rows & Hrows).
  unfold FinRLService._build_backtest_payload.
  rewrite (bind_lift_eval _ _ _ _ Hm), (bind_lift_eval _ _ _ _ Hrows).
  eexists. split; [reflexivity|]. simpl. split; [done|].
  by rewrite Hfinal, py_round_1004.
Qed.

Lemma scenario_prediction (symbol : string) (kwargs : env_kwargs) (w : Z) :
  ∃ payload,
    FinRLService._build_prediction_payload Scenario.utcnow symbol
      Scenario.raw_df [] kwargs w = (Ok payload, w).
Proof. eexists. vm_compute. reflexivity. Qed.

Lemma scenario_pipeline (w : Z) :
  ∃ prediction backtest,
    Scenario.run_pipeline "AAPL" w
    = (Ok (prediction, backtest), (w + Scenario.seconds 68)%Z).
Proof.
  destruct scenario_split as (train_df & test_df & Hsplit).
  unfold Scenario.run_pipeline, FinRLService._run_pipeline.
  rewrite (bind_eval _ _ _ _ _ (scenario_download w)).
  rewrite (bind_lift_eval _ _ _ _ scenario_engineer).
  rewrite (bind_lift_eval _ _ _ _ Hsplit).
  set (kwargs := FinRLService._build_env_kwargs Scenario.INDICATORS train_df).
  rewrite (bind_eval _ _ _ (w + Scenario.seconds 7 + Scenario.seconds 60)%Z tt)
    by reflexivity.
  rewrite (bind_eval _ _ _
             (w + Scenario.seconds 7 + Scenario.seconds 60 + Scenario.seconds 1)%Z
             (Scenario.account_memory, [])) by reflexivity.
  destruct (scenario_prediction "AAPL" kwargs
              (w + Scenario.seconds 7 + Scenario.seconds 60 + Scenario.seconds 1)%Z)
    as (p & Hp).
  destruct (scenario_backtest "AAPL" test_df kwargs
              (w + Scenario.seconds 7 + Scenario.seconds 60 + Scenario.seconds 1)%Z)
    as (b & Hb & _).
  rewrite (bind_eval _ _ _ _ _ Hp), (bind_eval _ _ _ _ _ Hb).
  exists p, b. unfold ret. f_equal.
  unfold Scenario.seconds, microseconds_per_second. lia.
Qed.

Lemma scenario_nothing (w : Z) :
  Scenario.run_pipeline_nothing "AAPL" w
  = (Raise (FinRLException
              "No Yahoo Finance data returned for AAPL. Check the ticker symbol."),
     (w + Scenario.seconds 7)%Z).
Proof. reflexivity. Qed.

(** ** The properties at the scenario *)

(** A hit: the cache holds an entry for AAPL that expires after an hour,
    and [aapl] is asked for five microseconds into the world. *)
Lemma get_or_train_hit_returns_stored_entry_witness :
  Scenario.get_or_train {["AAPL" := Scenario.sample_entry]} "aapl" 5%Z
    = (Ok Scenario.sample_entry, {["AAPL" := Scenario.sample_entry]}, 5%Z) ∧
  FinRLService.get_prediction_payload Scenario.settings Scenario.utcnow
    Scenario.yf_download Scenario.INDICATORS Scenario.preprocess_data
    Scenario.data_split Scenario.train_model Scenario.DRL_prediction
    {["AAPL" := Scenario.sample_entry]} "aapl" 5%Z
    = (Ok Scenario.sample_prediction, {["AAPL" := Scenario.sample_entry]}, 5%Z) ∧
  FinRLService.get_backtest_payload Scenario.settings Scenario.utcnow
    Scenario.yf_download Scenario.INDICATORS Scenario.preprocess_data
    Scenario.data_split Scenario.train_model Scenario.DRL_prediction
    {["AAPL" := Scenario.sample_entry]} "aapl" 5%Z
    = (Ok Scenario.sample_backtest, {["AAPL" := Scenario.sample_entry]}, 5%Z).
Proof.
  apply (get_or_train_hit_returns_stored_entry Scenario.settings
           Scenario.utcnow Scenario.yf_download Scenario.INDICATORS
           Scenario.preprocess_data Scenario.data_split Scenario.train_model
           Scenario.DRL_prediction
           {["AAPL" := Scenario.sample_entry]} "aapl" "AAPL"
           Scenario.sample_entry 5%Z).
  - reflexivity.
  - apply lookup_singleton_eq.
  - reflexivity.
Defined.

Lemma scenario_empty_cache_miss (symbol : string) (w : Z) :
  is_miss Scenario.utcnow (∅ : gmap string FinRLService.CacheEntry) symbol w.
Proof. intros entry H. by rewrite lookup_empty in H. Qed.

Lemma scenario_pipeline_short_ttl (w : Z) :
  FinRLService._run_pipeline Scenario.short_ttl_settings Scenario.utcnow
    Scenario.yf_download Scenario.INDICATORS Scenario.preprocess_data
    Scenario.data_split Scenario.train_model Scenario.DRL_prediction "AAPL" w
  = Scenario.run_pipeline "AAPL" w.
Proof. reflexivity. Qed.

(** C3.  The expiry of a fresh entry counts from the start of the call, not
    from its insertion.  In the scenario the call for [aapl] starts on an
    empty cache at time 0 and its pipeline takes 68 seconds.  With the TTL
    of 60 minutes the entry is inserted at 68 seconds and expires at 60
    minutes, 68 seconds before the insertion time plus the TTL.  With a TTL
    of one minute the entry has expired before it is inserted, and a call
    made at the moment of insertion finds no usable entry. *)
Theorem fresh_entry_expiry_is_stale :
  (∃ entry cache' w',
     Scenario.get_or_train ∅ "aapl" 0%Z = (Ok entry, cache', w') ∧
     cache' !! "AAPL" = Some entry ∧
     Scenario.utcnow w' = Scenario.seconds 68 ∧
     FinRLService.expires_at entry
     = (Scenario.utcnow 0
        + timedelta_minutes (cache_ttl_minutes Scenario.settings))%Z ∧
     FinRLService.expires_at entry
     ≠ (Scenario.utcnow w'
        + timedelta_minutes (cache_ttl_minutes Scenario.settings))%Z) ∧
  (∃ entry cache' w',
     Scenario.get_or_train_short_ttl ∅ "aapl" 0%Z = (Ok entry, cache', w') ∧
     cache' !! "AAPL" = Some entry ∧
     (FinRLService.expires_at entry < Scenario.utcnow w')%Z ∧
     is_miss Scenario.utcnow cache' "aapl" w').
Proof.
  destruct (scenario_pipeline 0) as (p & b & Hrun). split.
  - pose proof (get_or_train_miss Scenario.settings Scenario.utcnow
                  Scenario.yf_download Scenario.INDICATORS
                  Scenario.preprocess_data Scenario.data_split
                  Scenario.train_model Scenario.DRL_prediction ∅ "aapl" 0%Z
                  (scenario_empty_cache_miss "aapl" 0%Z)) as Hcall.
    change (upper "aapl") with "AAPL" in Hcall.
    fold Scenario.run_pipeline Scenario.get_or_train in Hcall.
    rewrite Hrun in Hcall.
    eexists. eexists. eexists. split; [exact Hcall|].
    split; [apply lookup_insert_eq|]. split; [reflexivity|].
    split; [reflexivity|]. simpl. vm_compute. discriminate.
  - pose proof (get_or_train_miss Scenario.short_ttl_settings Scenario.utcnow
                  Scenario.yf_download Scenario.INDICATORS
                  Scenario.preprocess_data Scenario.data_split
                  Scenario.train_model Scenario.DRL_prediction ∅ "aapl" 0%Z
                  (scenario_empty_cache_miss "aapl" 0%Z)) as Hcall.
    change (upper "aapl") with "AAPL" in Hcall.
    rewrite scenario_pipeline_short_ttl, Hrun in Hcall.
    fold Scenario.get_or_train_short_ttl in Hcall.
    eexists. eexists. eexists. split; [exact Hcall|].
    split; [apply lookup_insert_eq|]. split; [vm_compute; reflexivity|].
    intros entry. change (upper "aapl") with "AAPL".
    rewrite lookup_insert_eq. intros [= <-]. vm_compute. discriminate.
Qed.

(** A failing miss: the provider has no data for AAPL and the cache, which
    holds an entry for MSFT, is returned as it was. *)
Lemma get_or_train_failure_keeps_cache_witness :
  Scenario.get_or_train_nothing {["MSFT" := Scenario.sample_entry]} "aapl" 0%Z
  = (Raise (FinRLException
              "No Yahoo Finance data returned for AAPL. Check the ticker symbol."),
     {["MSFT" := Scenario.sample_entry]}, Scenario.seconds 7).
Proof.
  apply (get_or_train_failure_keeps_cache Scenario.settings Scenario.utcnow
           Scenario.yf_download_nothing Scenario.INDICATORS
           Scenario.preprocess_data Scenario.data_split Scenario.train_model
           Scenario.DRL_prediction
           {["MSFT" := Scenario.sample_entry]} "aapl" 0%Z).
  - intros entry H. change (upper "aapl") with "AAPL" in H.
    rewrite lookup_singleton_ne in H by done. done.
  - exact (scenario_nothing 0).
Defined.

(** The backtest payload of the scenario's account memory. *)
Lemma final_equity_is_rounded_last_equity_witness :
  ∃ payload,
    equity <$> equity_curve payload
    = account_value <$> Scenario.account_memory ∧
    ∃ point, last (equity_curve payload) = Some point ∧
             final_equity (metrics payload) = py_round (equity point) 2.
Proof.
  destruct (scenario_backtest "AAPL" [] (FinRLService.env_kwargs_for 1 []) 0%Z)
    as (payload & Hbuild & _).
  exists payload.
  exact (final_equity_is_rounded_last_equity Scenario.utcnow "AAPL"
           Scenario.account_memory [] [] (FinRLService.env_kwargs_for 1 [])
           0%Z 0%Z payload Hbuild).
Defined.

(** C6 as stated fails: for the single account value 1.004 the last point
    of the equity curve holds 1.004 and [metrics.final_equity] is 1.0. *)
Lemma final_equity_differs_from_last_equity :
  ∃ payload point,
    FinRLService._build_backtest_payload Scenario.utcnow "AAPL"
      Scenario.account_memory [] [] (FinRLService.env_kwargs_for 1 []) 0%Z
    = (Ok payload, 0%Z) ∧
    last (equity_curve payload) = Some point ∧
    final_equity (metrics payload) ≠ equity point.
Proof.
  destruct (scenario_backtest "AAPL" [] (FinRLService.env_kwargs_for 1 []) 0%Z)
    as (payload & Hbuild & Hcurve & Hfinal).
  exists payload. eexists. split; [exact Hbuild|].
  rewrite Hcurve, Hfinal. split; [reflexivity|]. simpl. lra.
Qed.

(** The criterion of the training path on the scenario's download. *)
Lemma insufficient_data_is_decided_on_clean_bars_witness :
  Scenario.download_market_data "AAPL" 0%Z
  = (Raise (FinRLException
              ("Insufficient historical data for " +:+ "AAPL"
               +:+ ". Try expanding the window.")), Scenario.seconds 7)
  ↔ Scenario.candles ≠ [] ∧
    length (omap (clean_candle "AAPL") Scenario.candles) < 100.
Proof.
  apply (proj1 (insufficient_data_is_decided_on_clean_bars Scenario.settings
                  Scenario.utcnow Scenario.yf_download
                  (λ _ _ _ w, (YFinanceClient.TransportFailure, w))
                  Scenario.python Scenario.preprocess_data)
           "AAPL" 0%Z (Scenario.seconds 7) Scenario.candles).
  reflexivity.
Defined.

(** C7 as stated fails: in the scenario 100 clean bars are downloaded, 99
    rows remain after the indicator computation, the forward fill and the
    null drop, fewer than the minimum of 100, and no stage raises: the
    pipeline returns its payloads. *)
Lemma fewer_rows_after_preprocessing_without_error :
  ∃ prediction backtest w',
    Scenario.download_market_data "AAPL" 0%Z
      = (Ok Scenario.raw_df, Scenario.seconds 7) ∧
    length Scenario.raw_df = 100 ∧
    Scenario.engineer_features Scenario.raw_df = Ok Scenario.processed_df ∧
    length Scenario.processed_df < 100 ∧
    Scenario.run_pipeline "AAPL" 0%Z = (Ok (prediction, backtest), w').
Proof.
  destruct (scenario_pipeline 0) as (p & b & Hrun).
  exists p, b. eexists. split; [exact (scenario_download 0)|].
  split; [vm_compute; reflexivity|].
  split; [exact scenario_engineer|].
  split; [rewrite scenario_processed_length; lia | exact Hrun].
Qed.

(** Two rows 365 days apart under a 400-day test window. *)
Lemma split_fails_when_window_reaches_first_date_witness :
  FinRLService._split_dataframes Scenario.long_window_settings
    Scenario.data_split Scenario.one_year_frame
  = Raise (FinRLException
             "Not enough rows to create training and testing windows. Reduce FINRL_TEST_WINDOW_DAYS or extend lookback.").
Proof.
  apply (split_fails_when_window_reaches_first_date
           Scenario.long_window_settings Scenario.data_split
           Scenario.one_year_frame (timedelta_days 0) (timedelta_days 365)).
  - apply elem_of_cons. by left.
  - apply elem_of_cons. right. apply elem_of_cons. by left.
  - unfold Scenario.one_year_frame, Scenario.feature_row_of_day.
    cbn [fmap list_fmap f_date].
    unfold timedelta_days, microseconds_per_second.
    constructor; [lia|]. constructor; [lia|]. constructor.
  - unfold timedelta_days, microseconds_per_second. simpl. lia.
  - reflexivity.
Defined.

(** * Further properties of the code *)

(** ** Rounding keeps integer bounds *)

Section RoundingBounds.
Local Open Scope R_scope.

Lemma round_half_even_le (y : R) (k : Z) :
  y <= IZR k -> (round_half_even y <= k)%Z.
Proof.
  intros Hy. unfold round_half_even.
  pose proof (base_fp y) as [Hge Hlt]. unfold frac_part in *.
  set (n := Int_part y) in *.
  assert (Hn : (n <= k)%Z) by (apply le_IZR; lra).
  destruct (Rlt_dec (y - IZR n) (1 / 2)) as [H1 | H1]; [exact Hn|].
  assert (Hn1 : (n + 1 <= k)%Z).
  { assert (n < k)%Z; [apply lt_IZR; lra | lia]. }
  destruct (Rlt_dec (1 / 2) (y - IZR n)); [exact Hn1|].
  destruct (Z.even n); [exact Hn | exact Hn1].
Qed.

Lemma round_half_even_ge (y : R) (k : Z) :
  IZR k <= y -> (k <= round_half_even y)%Z.
Proof.
  intros Hy. unfold round_half_even.
  pose proof (base_fp y) as [Hge Hlt]. unfold frac_part in *.
  set (n := Int_part y) in *.
  assert (Hn : (k <= n)%Z).
  { assert (k < n + 1)%Z; [apply lt_IZR; rewrite plus_IZR; lra | lia]. }
  destruct (Rlt_dec (y - IZR n) (1 / 2)); [exact Hn|].
  destruct (Rlt_dec (1 / 2) (y - IZR n)); [lia|].
  destruct (Z.even n); [exact Hn | lia].
Qed.

Lemma py_round_le (x : R) (n : nat) (k : Z) :
  x * 10 ^ n <= IZR k -> py_round x n <= IZR k / 10 ^ n.
Proof.
  intros H. unfold py_round. pose proof (pow10_pos n).
  apply Rmult_le_compat_r; [left; now apply Rinv_0_lt_compat|].
  apply IZR_le. now apply round_half_even_le.
Qed.

Lemma py_round_ge (x : R) (n : nat) (k : Z) :
  IZR k <= x * 10 ^ n -> IZR k / 10 ^ n <= py_round x n.
Proof.
  intros H. unfold py_round. pose proof (pow10_pos n).
  apply Rmult_le_compat_r; [left; now apply Rinv_0_lt_compat|].
  apply IZR_le. now apply round_half_even_ge.
Qed.

Lemma py_round_nonneg (x : R) (n : nat) : 0 <= x -> 0 <= py_round x n.
Proof.
  intros Hx. pose proof (pow10_pos n).
  replace 0 with (IZR 0 / 10 ^ n) at 1 by (unfold Rdiv; apply Rmult_0_l).
  apply py_round_ge. simpl. nra.
Qed.

Lemma py_round_nonpos (x : R) (n : nat) : x <= 0 -> py_round x n <= 0.
Proof.
  intros Hx. pose proof (pow10_pos n).
  replace 0 with (IZR 0 / 10 ^ n) by (unfold Rdiv; apply Rmult_0_l).
  apply py_round_le. simpl. nra.
Qed.

Lemma py_round_0 (n : nat) : py_round 0 n = 0.
Proof.
  apply Rle_antisym; [apply py_round_nonpos | apply py_round_nonneg]; lra.
Qed.
End RoundingBounds.

(** ** The metrics of an equity curve *)

Section Metrics.
Local Open Scope R_scope.

(** The drawdown of one step against the running maximum. *)
Local Abbreviation drawdown := (fun v m : R => (v - m) / m).

(** The metrics of a curve that starts with a value other than zero. *)
Lemma calculate_metrics_cons (r : account_record) (rest : list account_record) :
  account_value r <> 0 ->
  let x := account_value r in
  let xs := account_value <$> rest in
  let returns := pct_change_from x xs in
  FinRLService._calculate_metrics (r :: rest)
  = Ok {| final_equity := py_round (default x (last xs)) 2;
          total_return_pct := py_round ((default x (last xs) / x - 1) * 100) 2;
          sharpe_ratio :=
            py_round
              (match returns, std returns with
               | _ :: _, Some s =>
                   if Rlt_dec 0 s then mean returns / s * sqrt 252 else 0
               | _, _ => 0
               end) 3;
          max_drawdown_pct :=
            py_round
              (series_min (drawdown x x)
                 (zip_with drawdown xs (cummax_from x xs)) * 100) 2 |}.
Proof.
  intros Hx x xs returns. unfold FinRLService._calculate_metrics.
  rewrite fmap_cons. fold x xs. unfold iloc_last.
  rewrite last_cons. destruct (last xs) as [y|] eqn:Hlast; simpl;
    destruct (Req_dec_T x 0); try contradiction; reflexivity.
Qed.

Lemma foldl_Rmin_bounds (a b d : R) (ds : list R) :
  a <= d <= b -> Forall (fun y => a <= y <= b) ds ->
  a <= foldl Rmin d ds <= b.
Proof.
  intros Hd Hds. revert d Hd.
  induction Hds as [|y ds Hy _ IH]; intros d Hd; simpl; [exact Hd|].
  apply IH. unfold Rmin. destruct (Rle_dec d y); lra.
Qed.

Lemma drawdowns_bounds (m : R) (xs : list R) :
  0 < m -> Forall (fun v => 0 <= v) xs ->
  Forall (fun d => -1 <= d <= 0) (zip_with drawdown xs (cummax_from m xs)).
Proof.
  intros Hm Hxs. revert m Hm.
  induction Hxs as [|x xs Hx _ IH]; intros m Hm; simpl; [constructor|].
  assert (Hmax : m <= Rmax m x /\ x <= Rmax m x)
    by (split; [apply Rmax_l | apply Rmax_r]).
  set (m' := Rmax m x) in *.
  constructor; [|apply IH; lra].
  assert (Hinv : 0 < / m') by (apply Rinv_0_lt_compat; lra).
  unfold Rdiv. split.
  - replace (-1) with (- m' * / m') by (field; lra).
    apply Rmult_le_compat_r; lra.
  - replace 0 with (0 * / m') by ring.
    apply Rmult_le_compat_r; lra.
Qed.

Lemma drawdowns_of_rising_curve (m : R) (xs : list R) :
  0 < m -> Sorted Rle (m :: xs) ->
  Forall (fun d => 0 <= d <= 0) (zip_with drawdown xs (cummax_from m xs)).
Proof.
  revert m. induction xs as [|x xs IH]; intros m Hm Hs; simpl; [constructor|].
  inversion Hs as [|? ? Hs' Hhd]; subst.
  inversion Hhd as [|? ? Hmx]; subst.
  rewrite Rmax_right by exact Hmx.
  constructor.
  - unfold Rdiv. rewrite Rminus_diag, Rmult_0_l. lra.
  - apply IH; [lra | exact Hs'].
Qed.

Lemma positive_values (account_memory : list account_record) :
  Forall (fun row => 0 < account_value row) account_memory ->
  Forall (fun v => 0 <= v) (account_value <$> account_memory).
Proof.
  intros H. apply Forall_fmap. eapply Forall_impl; [exact H|].
  simpl. intros row Hrow. lra.
Qed.

Lemma calculate_metrics_zero_first (row : account_record)
    (rest : list account_record) :
  account_value row = 0 ->
  FinRLService._calculate_metrics (row :: rest) = Raise ZeroDivisionError.
Proof.
  intros Hz. unfold FinRLService._calculate_metrics. rewrite fmap_cons.
  unfold iloc_last. rewrite last_cons.
  destruct (last (account_value <$> rest)); simpl;
    destruct (Req_dec_T (account_value row) 0); try contradiction;
    reflexivity.
Qed.

(** X1.  [_calculate_metrics] raises [IndexError] on an empty account
    memory and [ZeroDivisionError] when the first account value is zero;
    in every other case it returns metrics. *)
Theorem calculate_metrics_outcome (account_memory : list account_record) :
  (account_memory = [] /\
   FinRLService._calculate_metrics account_memory = Raise IndexError)
  \/ (exists row rest,
        account_memory = row :: rest /\ account_value row = 0 /\
        FinRLService._calculate_metrics account_memory = Raise ZeroDivisionError)
  \/ (exists row rest m,
        account_memory = row :: rest /\ account_value row <> 0 /\
        FinRLService._calculate_metrics account_memory = Ok m).
Proof.
  destruct account_memory as [|row rest]; [left; split; reflexivity|].
  right. destruct (Req_dec_T (account_value row) 0) as [Hz | Hnz].
  - left. exists row, rest. split; [reflexivity|]. split; [exact Hz|].
    now apply calculate_metrics_zero_first.
  - right. exists row, rest. eexists. split; [reflexivity|].
    split; [exact Hnz|]. now apply calculate_metrics_cons.
Qed.

(** X2.  For an account memory that is not empty and whose values are all
    positive, the metrics exist and the maximum drawdown lies between -100
    and 0 percent. *)
Theorem max_drawdown_between_minus_100_and_0
    (account_memory : list account_record) :
  account_memory <> [] ->
  Forall (fun row => 0 < account_value row) account_memory ->
  exists m,
    FinRLService._calculate_metrics account_memory = Ok m /\
    -100 <= max_drawdown_pct m <= 0.
Proof.
  intros Hne Hpos. destruct account_memory as [|row rest]; [contradiction|].
  inversion Hpos as [|? ? Hrow Hrest]; subst.
  eexists. split; [apply calculate_metrics_cons; lra|]. cbn [max_drawdown_pct].
  set (x := account_value row). set (xs := account_value <$> rest).
  assert (Hb : -1 <= series_min (drawdown x x)
                       (zip_with drawdown xs (cummax_from x xs)) <= 0).
  { apply foldl_Rmin_bounds.
    - unfold Rdiv. rewrite Rminus_diag, Rmult_0_l. lra.
    - apply drawdowns_bounds; [exact Hrow | now apply positive_values]. }
  split.
  - replace (-100) with (IZR (-10000) / 10 ^ 2) by (simpl; lra).
    apply py_round_ge. simpl. lra.
  - apply py_round_nonpos. lra.
Qed.

(** X3.  For an account memory that is not empty, positive and never
    falling from one record to the next, the maximum drawdown is 0. *)
Theorem max_drawdown_of_rising_curve_is_zero
    (account_memory : list account_record) :
  account_memory <> [] ->
  Forall (fun row => 0 < account_value row) account_memory ->
  Sorted Rle (account_value <$> account_memory) ->
  exists m,
    FinRLService._calculate_metrics account_memory = Ok m /\
    max_drawdown_pct m = 0.
Proof.
  intros Hne Hpos Hsorted.
  destruct account_memory as [|row rest]; [contradiction|].
  inversion Hpos as [|? ? Hrow Hrest]; subst.
  eexists. split; [apply calculate_metrics_cons; lra|]. cbn [max_drawdown_pct].
  set (x := account_value row). set (xs := account_value <$> rest).
  assert (Hb : 0 <= series_min (drawdown x x)
                      (zip_with drawdown xs (cummax_from x xs)) <= 0).
  { apply foldl_Rmin_bounds.
    - unfold Rdiv. rewrite Rminus_diag, Rmult_0_l. lra.
    - apply drawdowns_of_rising_curve; [exact Hrow | exact Hsorted]. }
  replace (series_min (drawdown x x)
             (zip_with drawdown xs (cummax_from x xs)) * 100) with 0 by lra.
  apply py_round_0.
Qed.
Lemma pct_change_from_length (x : R) (xs : list R) :
  length (pct_change_from x xs) = length xs.
Proof. revert x. induction xs as [|y xs IH]; intros x; simpl; auto. Qed.

Lemma pct_change_of_constant (c : R) (xs : list R) :
  c <> 0 -> Forall (fun v => v = c) xs ->
  Forall (fun ret => ret = 0) (pct_change_from c xs).
Proof.
  intros Hc Hxs. induction Hxs as [|y xs -> _ IH]; simpl; constructor.
  - field. exact Hc.
  - exact IH.
Qed.

Lemma Rsum_zeros (l : list R) : Forall (fun v => v = 0) l -> Rsum l = 0.
Proof.
  induction 1 as [|y l -> _ IH]; [reflexivity|].
  change (Rsum (0 :: l)) with (0 + Rsum l). rewrite IH. lra.
Qed.

Lemma std_of_zeros (l : list R) (s : R) :
  Forall (fun v => v = 0) l -> std l = Some s -> s = 0.
Proof.
  intros Hz. unfold std. case_decide; [discriminate|].
  intros [= <-].
  assert (Hmean : mean l = 0).
  { unfold mean. rewrite Rsum_zeros by exact Hz. unfold Rdiv. apply Rmult_0_l. }
  rewrite Hmean, Rsum_zeros.
  - unfold Rdiv. rewrite Rmult_0_l. apply sqrt_0.
  - apply Forall_fmap. eapply Forall_impl; [exact Hz|].
    simpl. intros v ->. ring.
Qed.

(** X4.  The Sharpe ratio is 0 for an account memory of fewer than three
    records (fewer than two return samples) and for one whose values are
    all the same (returns without spread). *)
Theorem sharpe_ratio_zero_without_spread
    (account_memory : list account_record) (m : metrics_t) :
  FinRLService._calculate_metrics account_memory = Ok m ->
  ((length account_memory < 3)%nat
   \/ exists c, Forall (fun row => account_value row = c) account_memory) ->
  sharpe_ratio m = 0.
Proof.
  intros Hm Hcase.
  destruct account_memory as [|row rest]; [discriminate|].
  destruct (Req_dec_T (account_value row) 0) as [Hz | Hnz].
  { rewrite (calculate_metrics_zero_first row rest Hz) in Hm. discriminate. }
  rewrite (calculate_metrics_cons row rest Hnz) in Hm.
  injection Hm as <-. cbn [sharpe_ratio].
  match goal with
  | |- py_round ?t 3 = 0 => cut (t = 0); [intros ->; apply py_round_0|]
  end.
  set (returns := pct_change_from (account_value row) (account_value <$> rest)).
  destruct Hcase as [Hshort | (c & Hconst)].
  - assert (Hlen : (length returns < 2)%nat).
    { unfold returns. rewrite pct_change_from_length, length_fmap.
      simpl in Hshort. lia. }
    destruct returns as [|ret returns']; [reflexivity|].
    unfold std. rewrite decide_True by exact Hlen. reflexivity.
  - inversion Hconst as [|? ? Hrow Hrest]; subst.
    assert (Hret : Forall (fun ret => ret = 0) returns).
    { apply pct_change_of_constant; [exact Hnz|].
      apply Forall_fmap. exact Hrest. }
    destruct returns as [|ret returns']; [reflexivity|].
    destruct (std (ret :: returns')) as [s|] eqn:Hstd; [|reflexivity].
    apply (std_of_zeros _ _ Hret) in Hstd. subst s.
    destruct (Rlt_dec 0 0); [lra | reflexivity].
Qed.

(** X5.  For an account memory that starts with a positive value, the
    total return differs from the percentage change from the first to the
    last account value by less than one unit of its second decimal; it is
    not negative when the curve ends at or above its start and not positive
    when it ends at or below it. *)
Theorem total_return_follows_first_and_last
    (account_memory : list account_record) (first_row last_row : account_record) :
  head account_memory = Some first_row ->
  last account_memory = Some last_row ->
  0 < account_value first_row ->
  exists m,
    FinRLService._calculate_metrics account_memory = Ok m /\
    Rabs (total_return_pct m
          - (account_value last_row / account_value first_row - 1) * 100)
    < 1 / 100 /\
    (account_value first_row <= account_value last_row ->
     0 <= total_return_pct m) /\
    (account_value last_row <= account_value first_row ->
     total_return_pct m <= 0).
Proof.
  intros Hhead Hlast Hpos.
  destruct account_memory as [|row rest]; [discriminate|].
  injection Hhead as ->.
  eexists. split; [apply calculate_metrics_cons; lra|].
  cbn [total_return_pct].
  assert (Hfin : default (account_value first_row)
                   (last (account_value <$> rest)) = account_value last_row).
  { rewrite last_cons in Hlast. rewrite fmap_last.
    destruct (last rest) as [y|]; simpl; congruence. }
  rewrite Hfin.
  set (x := account_value first_row) in *. set (y := account_value last_row).
  assert (Hinv : 0 < / x) by now apply Rinv_0_lt_compat.
  split; [|split; intros Hle].
  - set (t := (y / x - 1) * 100). unfold py_round.
    pose proof (round_half_even_close (t * 10 ^ 2)) as Hclose.
    set (r := IZR (round_half_even (t * 10 ^ 2))) in *.
    replace (r / 10 ^ 2 - t) with ((r - t * 10 ^ 2) / 100) by (simpl; field).
    assert (Hlt : Rabs (r - t * 10 ^ 2) < 1) by lra.
    apply Rabs_def2 in Hlt. apply Rabs_def1; lra.
  - apply py_round_nonneg.
    assert (1 <= y / x).
    { replace 1 with (x * / x) by (field; lra). unfold Rdiv.
      apply Rmult_le_compat_r; lra. }
    lra.
  - apply py_round_nonpos.
    assert (y / x <= 1).
    { replace 1 with (x * / x) by (field; lra). unfold Rdiv.
      apply Rmult_le_compat_r; lra. }
    lra.
Qed.
End Metrics.

(** ** The price comparison of the backtest *)

Section PriceComparison.
Local Open Scope R_scope.

Lemma signal_of_in_range (x : R) (hmax : Z) :
  signal_in_range (FinRLService.signal_of x hmax).
Proof.
  unfold FinRLService.signal_of, signal_in_range. intros v.
  destruct (decide (hmax = 0%Z)).
  - destruct (Rlt_dec 0 x); [intros [= <-]; lra|].
    destruct (Rlt_dec x 0); [intros [= <-]; lra | discriminate].
  - intros [= <-]. pose proof (tanh_range (x / IZR hmax)). lra.
Qed.

Lemma action_signals_in_range (actions_frame : list action_record) (hmax : Z)
    (signals : list (Z * option R)) :
  FinRLService.action_signals actions_frame hmax = Ok signals ->
  Forall (fun p => signal_in_range p.2) signals.
Proof.
  revert signals. induction actions_frame as [|a rest IH]; intros signals; simpl.
  - intros [= <-]. constructor.
  - intros H. apply rbind_ok in H as (x & _ & H).
    apply rbind_ok in H as (sigs & Hsigs & H). injection H as <-.
    constructor; [apply signal_of_in_range | now apply IH].
Qed.

Lemma merge_left_in_range (closes : list (Z * R)) (signals : list (Z * option R)) :
  Forall (fun p => signal_in_range p.2) signals ->
  Forall (fun t => signal_in_range t.2) (FinRLService.merge_left closes signals).
Proof.
  intros Hs. unfold FinRLService.merge_left.
  apply Forall_bind. apply Forall_true. intros [d c]. simpl.
  match goal with
  | |- context [filter ?P signals] => set (found := filter P signals)
  end.
  assert (Hfound : Forall (fun p => signal_in_range p.2) found).
  { apply Forall_forall. intros p Hp. apply list_elem_of_filter in Hp as [_ Hp].
    rewrite Forall_forall in Hs. now apply Hs. }
  clearbody found. destruct found as [|p found].
  - constructor; [|constructor]. simpl. intros v. discriminate.
  - change (Forall (fun t : Z * R * option R => signal_in_range t.2)
              ((fun s : Z * option R => (d, c, s.2)) <$> p :: found)).
    apply Forall_fmap. eapply Forall_impl; [exact Hfound|]. simpl. auto.
Qed.

Lemma fill_in_range (above s : option R) :
  signal_in_range above -> signal_in_range s -> signal_in_range (fill above s).
Proof. intros Ha Hs. destruct s; simpl; assumption. Qed.

Lemma adjusted_by_signal (reference : R) (filled : option R) :
  signal_in_range filled ->
  Rabs (reference * (1 + default 0 filled * 0.01) - reference)
  <= 0.01 * Rabs reference.
Proof.
  intros Hr.
  assert (Hs : -1 <= default 0 filled <= 1).
  { destruct filled as [v|]; simpl; [now apply Hr | lra]. }
  set (s := default 0 filled) in *.
  replace (reference * (1 + s * 0.01) - reference)
    with (reference * (s * 0.01)) by ring.
  rewrite Rabs_mult, (Rmult_comm 0.01).
  apply Rmult_le_compat_l; [apply Rabs_pos|].
  apply Rabs_le. lra.
Qed.

Lemma comparison_rows_within_one_percent
    (above_close above_signal : option R) (merged : list (Z * R * option R)) :
  signal_in_range above_signal ->
  Forall (fun t => signal_in_range t.2) merged ->
  let rows := FinRLService.comparison_rows above_close above_signal merged in
  (forall row, rows !! 0%nat = Some row ->
     let reference := default (actual_close row) above_close in
     Rabs (cmp_predicted_close row - reference) <= 0.01 * Rabs reference) /\
  (forall (i : nat) above row,
     rows !! i = Some above -> rows !! S i = Some row ->
     Rabs (cmp_predicted_close row - actual_close above)
     <= 0.01 * Rabs (actual_close above)).
Proof.
  intros Ha Hm. revert above_close above_signal Ha.
  induction Hm as [|[[d c] s] merged Hs _ IH]; intros above_close above_signal Ha.
  - simpl. split; intros; discriminate.
  - simpl in Hs.
    pose proof (fill_in_range above_signal s Ha Hs) as Hfilled.
    destruct (IH (Some c) (fill above_signal s) Hfilled) as [IH0 IHS].
    cbn [FinRLService.comparison_rows]. split.
    + intros row [= <-]. cbn [actual_close cmp_predicted_close].
      now apply adjusted_by_signal.
    + intros [|i] above row.
      * intros [= <-] Hrow. cbn [actual_close].
        apply (IH0 row Hrow).
      * intros Habove Hrow. now apply (IHS i above row).
Qed.

(** X6.  For an [hmax] other than zero, every predicted close of the price
    comparison is within one percent of its reference, whatever the actions
    are: the first row's own actual close, and for every later row the
    actual close of the row before it. *)
Theorem price_comparison_within_one_percent
    (actions_frame : list action_record) (test_df : list feature_row)
    (hmax : Z) (rows : list comparison_row) :
  hmax <> 0%Z ->
  FinRLService._build_price_comparison actions_frame test_df hmax = Ok rows ->
  (forall row, rows !! 0%nat = Some row ->
     Rabs (cmp_predicted_close row - actual_close row)
     <= 0.01 * Rabs (actual_close row)) /\
  (forall (i : nat) above row,
     rows !! i = Some above -> rows !! S i = Some row ->
     Rabs (cmp_predicted_close row - actual_close above)
     <= 0.01 * Rabs (actual_close above)).
Proof.
  intros _. unfold FinRLService._build_price_comparison.
  destruct (FinRLService.closes_by_date test_df) as [|p closes] eqn:Hc.
  - intros [= <-]. split; intros; discriminate.
  - intros H. apply rbind_ok in H as (signals & Hsig & H). injection H as <-.
    apply action_signals_in_range in Hsig.
    assert (Hnone : signal_in_range None) by (intros v; discriminate).
    exact (comparison_rows_within_one_percent None None
             (FinRLService.merge_left (p :: closes) signals) Hnone
             (merge_left_in_range (p :: closes) signals Hsig)).
Qed.
Lemma action_to_scalar_outcome (v : action_value) :
  (long_array v /\ _action_to_scalar v = Raise ambiguous_truth_value)
  \/ (~ long_array v /\ exists x, _action_to_scalar v = Ok x).
Proof.
  destruct v as [x | xs | xs | xs].
  - right. split; [intros (? & ? & ? & [=]) | eexists; reflexivity].
  - right. split; [intros (? & ? & ? & [=])|].
    destruct xs; eexists; reflexivity.
  - right. split; [intros (? & ? & ? & [=])|].
    destruct xs; eexists; reflexivity.
  - destruct xs as [|x [|y rest]].
    + right. split; [intros (? & ? & ? & [=]) | eexists; reflexivity].
    + right. split; [intros (? & ? & ? & [=])|].
      destruct (action_to_scalar_first_or_zero) as (_ & _ & _ & _ & _ & _ & H).
      eexists. apply H.
    + left. split; [exists x, y, rest; reflexivity | reflexivity].
Qed.

Lemma action_signals_outcome (actions_frame : list action_record) (hmax : Z) :
  (Exists (fun a => long_array (actions a)) actions_frame /\
   FinRLService.action_signals actions_frame hmax = Raise ambiguous_truth_value)
  \/ (Forall (fun a => ~ long_array (actions a)) actions_frame /\
      exists signals,
        FinRLService.action_signals actions_frame hmax = Ok signals /\
        fst <$> signals = act_date <$> actions_frame).
Proof.
  induction actions_frame as [|a rest IH]; simpl.
  - right. split; [constructor | exists []; split; reflexivity].
  - destruct (action_to_scalar_outcome (actions a)) as [[Hl Hr] | [Hn (x & Hr)]];
      rewrite Hr; simpl.
    + left. split; [now apply Exists_cons_hd | reflexivity].
    + destruct IH as [[He Hraise] | [Hf (signals & Hok & Hdates)]].
      * rewrite Hraise. left. split; [now apply Exists_cons_tl | reflexivity].
      * rewrite Hok. right. split; [now constructor|].
        eexists. split; [reflexivity|]. rewrite !fmap_cons. now rewrite Hdates.
Qed.

Lemma closes_by_date_dates (test_df : list feature_row) :
  fst <$> FinRLService.closes_by_date test_df
  = merge_sort Z.le (remove_dups (f_date <$> test_df)).
Proof.
  unfold FinRLService.closes_by_date. rewrite <- list_fmap_compose.
  apply list_fmap_id.
Qed.

Lemma closes_by_date_nil (test_df : list feature_row) :
  FinRLService.closes_by_date test_df = [] <-> test_df = [].
Proof.
  split.
  - intros H. apply (f_equal (fmap fst)) in H.
    rewrite closes_by_date_dates in H. simpl in H.
    destruct test_df as [|r rest]; [reflexivity|]. exfalso.
    assert (Hin : f_date r ∈ merge_sort Z.le (remove_dups (f_date <$> r :: rest))).
    { rewrite merge_sort_Permutation. apply elem_of_remove_dups.
      rewrite fmap_cons. apply elem_of_cons. now left. }
    rewrite H in Hin. now apply elem_of_nil in Hin.
  - intros ->. reflexivity.
Qed.

Lemma merge_left_not_nil (p : Z * R) (closes : list (Z * R))
    (signals : list (Z * option R)) :
  FinRLService.merge_left (p :: closes) signals <> [].
Proof.
  unfold FinRLService.merge_left. destruct p as [d c]. simpl.
  match goal with
  | |- context [filter ?P signals] => destruct (filter P signals)
  end; discriminate.
Qed.

Lemma comparison_rows_length (above_close above_signal : option R)
    (merged : list (Z * R * option R)) :
  length (FinRLService.comparison_rows above_close above_signal merged)
  = length merged.
Proof.
  revert above_close above_signal.
  induction merged as [|[[d c] s] merged IH]; intros; simpl; [reflexivity|].
  now rewrite IH.
Qed.

(** X7.  The outcome of [_build_price_comparison] on an action frame that
    holds no empty numpy array (whose truth value depends on the numpy
    version): no rows for an empty test frame, whatever the actions are;
    for a test frame with rows, the numpy [ValueError] as soon as one action
    record holds an array of more than one element, and a list of rows that
    is not empty otherwise. *)
Theorem build_price_comparison_outcome
    (actions_frame : list action_record) (test_df : list feature_row)
    (hmax : Z) :
  Forall (fun a => actions a <> NdArray []) actions_frame ->
  (test_df = [] /\
   FinRLService._build_price_comparison actions_frame test_df hmax = Ok [])
  \/ (test_df <> [] /\
      Exists (fun a => long_array (actions a)) actions_frame /\
      FinRLService._build_price_comparison actions_frame test_df hmax
      = Raise ambiguous_truth_value)
  \/ (test_df <> [] /\
      Forall (fun a => ~ long_array (actions a)) actions_frame /\
      exists rows,
        FinRLService._build_price_comparison actions_frame test_df hmax
        = Ok rows /\ rows <> []).
Proof.
  intros _. unfold FinRLService._build_price_comparison.
  destruct (FinRLService.closes_by_date test_df) as [|p closes] eqn:Hc.
  - left. split; [now apply closes_by_date_nil | reflexivity].
  - right.
    assert (Hne : test_df <> []).
    { intros ->. discriminate. }
    destruct (action_signals_outcome actions_frame hmax)
      as [[He Hraise] | [Hf (signals & Hok & _)]].
    + left. rewrite Hraise. repeat split; assumption.
    + right. rewrite Hok. split; [exact Hne|]. split; [exact Hf|].
      eexists. split; [reflexivity|].
      intros Hnil. apply (f_equal length) in Hnil.
      rewrite comparison_rows_length in Hnil.
      apply nil_length_inv in Hnil. now apply merge_left_not_nil in Hnil.
Qed.
Lemma comparison_rows_keys (above_close above_signal : option R)
    (merged : list (Z * R * option R)) :
  (fun row => (cmp_date row, actual_close row))
    <$> FinRLService.comparison_rows above_close above_signal merged
  = fst <$> merged.
Proof.
  revert above_close above_signal.
  induction merged as [|[[d c] s] merged IH]; intros; [reflexivity|].
  cbn [FinRLService.comparison_rows]. rewrite !fmap_cons, IH. reflexivity.
Qed.

Lemma filter_by_unique_date (d : Z) (signals : list (Z * option R)) :
  NoDup (fst <$> signals) ->
  (length (filter (fun s => s.1 = d) signals) <= 1)%nat.
Proof.
  induction signals as [|s signals IH]; [simpl; lia|].
  rewrite fmap_cons. intros Hnd. apply NoDup_cons in Hnd as [Hnotin Hnd].
  destruct (decide (s.1 = d)) as [Heq | Hne].
  - rewrite filter_cons_True by exact Heq.
    assert (Hnil : filter (fun s0 : Z * option R => s0.1 = d) signals = []).
    { destruct (filter (fun s0 : Z * option R => s0.1 = d) signals)
        as [|s' l] eqn:Hf; [reflexivity|]. exfalso. apply Hnotin.
      assert (Hin : s' ∈ filter (fun s0 : Z * option R => s0.1 = d) signals)
        by (rewrite Hf; apply elem_of_cons; now left).
      apply list_elem_of_filter in Hin as [Hd Hin].
      rewrite Heq, <- Hd. now apply list_elem_of_fmap_2. }
    rewrite Hnil. simpl. lia.
  - rewrite filter_cons_False by exact Hne. now apply IH.
Qed.

Lemma merge_left_keys (closes : list (Z * R)) (signals : list (Z * option R)) :
  NoDup (fst <$> signals) ->
  fst <$> FinRLService.merge_left closes signals = closes.
Proof.
  intros Hnd. induction closes as [|[d c] closes IH]; [reflexivity|].
  change (FinRLService.merge_left ((d, c) :: closes) signals)
    with (match filter (fun s : Z * option R => s.1 = d) signals with
          | [] => [(d, c, None)]
          | found => (fun s : Z * option R => (d, c, s.2)) <$> found
          end ++ FinRLService.merge_left closes signals).
  rewrite fmap_app, IH.
  pose proof (filter_by_unique_date d signals Hnd) as Hlen.
  destruct (filter (fun s : Z * option R => s.1 = d) signals) as [|s [|s' l]];
    [reflexivity | reflexivity | simpl in Hlen; lia].
Qed.

Lemma sorted_without_duplicates (l : list Z) :
  StronglySorted Z.le l -> NoDup l -> StronglySorted Z.lt l.
Proof.
  induction 1 as [|x l Hs IH Hall]; intros Hnd; constructor.
  - apply IH. now apply NoDup_cons in Hnd as [_ ?].
  - apply NoDup_cons in Hnd as [Hnotin _].
    rewrite Forall_forall in Hall |- *. intros y Hy.
    assert (x <> y) by (intros ->; contradiction).
    pose proof (Hall y Hy). lia.
Qed.

(** X8.  When no two action records share a date, a price comparison that
    is returned has one row for each distinct date of the test frame, in
    strictly ascending date order, and the actual close of a row is the
    mean close of the test rows of its date. *)
Theorem price_comparison_one_row_per_date
    (actions_frame : list action_record) (test_df : list feature_row)
    (hmax : Z) (rows : list comparison_row) :
  NoDup (act_date <$> actions_frame) ->
  FinRLService._build_price_comparison actions_frame test_df hmax = Ok rows ->
  StronglySorted Z.lt (cmp_date <$> rows) /\
  (forall d, d ∈ cmp_date <$> rows <-> d ∈ f_date <$> test_df) /\
  length rows = length (remove_dups (f_date <$> test_df)) /\
  (forall row, row ∈ rows ->
     actual_close row
     = mean (f_close <$> filter (fun r => f_date r = cmp_date row) test_df)).
Proof.
  intros Hnd Hrows.
  assert (Hkeys : (fun row => (cmp_date row, actual_close row)) <$> rows
                  = FinRLService.closes_by_date test_df).
  { unfold FinRLService._build_price_comparison in Hrows.
    destruct (FinRLService.closes_by_date test_df) as [|p closes] eqn:Hc.
    - injection Hrows as <-. reflexivity.
    - apply rbind_ok in Hrows as (signals & Hsig & Hrows).
      destruct (action_signals_outcome actions_frame hmax)
        as [[_ Hraise] | [_ (signals' & Hok & Hdates)]]; [congruence|].
      assert (signals' = signals) by congruence. subst signals'.
      assert (Heq : rows = FinRLService.comparison_rows None None
                             (FinRLService.merge_left (p :: closes) signals))
        by (injection Hrows as <-; reflexivity).
      rewrite Heq, comparison_rows_keys. apply merge_left_keys.
      now rewrite Hdates. }
  assert (Hdates : cmp_date <$> rows
                   = merge_sort Z.le (remove_dups (f_date <$> test_df))).
  { rewrite <- closes_by_date_dates, <- Hkeys, <- list_fmap_compose.
    reflexivity. }
  split; [|split; [|split]].
  - rewrite Hdates. apply sorted_without_duplicates.
    + apply StronglySorted_merge_sort; apply _.
    + rewrite merge_sort_Permutation. apply NoDup_remove_dups.
  - intros d. rewrite Hdates, merge_sort_Permutation.
    apply elem_of_remove_dups.
  - rewrite <- (length_fmap cmp_date), Hdates.
    apply Permutation_length, merge_sort_Permutation.
  - intros row Hrow.
    assert (Hin : (cmp_date row, actual_close row)
                  ∈ FinRLService.closes_by_date test_df).
    { rewrite <- Hkeys.
      apply (list_elem_of_fmap_2
               (fun row => (cmp_date row, actual_close row)) _ _ Hrow). }
    unfold FinRLService.closes_by_date in Hin.
    apply list_elem_of_fmap in Hin as (d & Heq & _).
    injection Heq as Hd Hc. subst d. exact Hc.
Qed.
Lemma merge_left_no_signals (closes : list (Z * R)) :
  Forall (fun t => t.2 = None) (FinRLService.merge_left closes []).
Proof.
  unfold FinRLService.merge_left. apply Forall_bind. apply Forall_true.
  intros [d c]. simpl. constructor; [reflexivity | constructor].
Qed.

Lemma comparison_rows_neutral (above_close : option R)
    (merged : list (Z * R * option R)) :
  Forall (fun t => t.2 = None) merged ->
  let rows := FinRLService.comparison_rows above_close None merged in
  (forall row, rows !! 0%nat = Some row ->
     cmp_predicted_close row = default (actual_close row) above_close) /\
  (forall (i : nat) above row,
     rows !! i = Some above -> rows !! S i = Some row ->
     cmp_predicted_close row = actual_close above).
Proof.
  intros Hm. revert above_close.
  induction Hm as [|[[d c] s] merged Hs _ IH]; intros above_close.
  - simpl. split; intros; discriminate.
  - simpl in Hs. subst s. destruct (IH (Some c)) as [IH0 IHS].
    cbn [FinRLService.comparison_rows fill default]. split.
    + intros row [= <-]. cbn [actual_close cmp_predicted_close]. ring.
    + intros [|i] above row.
      * intros [= <-] Hrow. cbn [actual_close]. apply (IH0 row Hrow).
      * intros Habove Hrow. now apply (IHS i above row).
Qed.

(** X9.  With an empty action frame the comparison is neutral: the first
    row predicts its own actual close and every later row predicts the
    actual close of the row before it. *)
Theorem price_comparison_without_actions_is_neutral
    (test_df : list feature_row) (hmax : Z) (rows : list comparison_row) :
  FinRLService._build_price_comparison [] test_df hmax = Ok rows ->
  (forall row, rows !! 0%nat = Some row ->
     cmp_predicted_close row = actual_close row) /\
  (forall (i : nat) above row,
     rows !! i = Some above -> rows !! S i = Some row ->
     cmp_predicted_close row = actual_close above).
Proof.
  unfold FinRLService._build_price_comparison.
  destruct (FinRLService.closes_by_date test_df) as [|p closes] eqn:Hc.
  - intros [= <-]. split; intros; discriminate.
  - intros H.
    assert (Heq : rows = FinRLService.comparison_rows None None
                           (FinRLService.merge_left (p :: closes) []))
      by (injection H as <-; reflexivity).
    rewrite Heq.
    exact (comparison_rows_neutral None _ (merge_left_no_signals (p :: closes))).
Qed.
End PriceComparison.

(** ** More on the prediction cache *)

Lemma upper_ascii_idempotent (c : ascii) :
  upper_ascii (upper_ascii c) = upper_ascii c.
Proof. destruct c as [[] [] [] [] [] [] [] []]; reflexivity. Qed.

Lemma upper_idempotent (s : string) : upper (upper s) = upper s.
Proof.
  induction s as [|c s IH]; [reflexivity|]. simpl.
  now rewrite upper_ascii_idempotent, IH.
Qed.

Section CacheMore.
Context {World Model : Type}.
Variable settings : Settings.
Variable utcnow : World -> Z.
Variable yf_download : string -> Z -> Z -> io World (list candle).
Variable INDICATORS : list string.
Variable preprocess_data : list bar -> result (list indicator_row).
Variable data_split : list feature_row -> Z -> Z -> list feature_row.
Variable train_model : list feature_row -> env_kwargs -> Z -> io World Model.
Variable DRL_prediction :
  Model -> list feature_row -> env_kwargs ->
  io World (list account_record * list action_record).

Local Abbreviation run_pipeline :=
  (FinRLService._run_pipeline settings utcnow yf_download INDICATORS
     preprocess_data data_split train_model DRL_prediction).
Local Abbreviation get_or_train :=
  (FinRLService._get_or_train settings utcnow yf_download INDICATORS
     preprocess_data data_split train_model DRL_prediction).

Implicit Types (cache : gmap string FinRLService.CacheEntry).

(** The cache after a call is the one before it, or that one with an entry
    put under the upper-case symbol. *)
Lemma get_or_train_cache_after cache symbol w r cache' w' :
  get_or_train cache symbol w = (r, cache', w') →
  cache' = cache ∨ ∃ entry, cache' = <[upper symbol := entry]> cache.
Proof.
  unfold FinRLService._get_or_train.
  destruct (cache !! upper symbol) as [old|].
  - case_decide.
    + intros [= <- <- <-]. by left.
    + destruct (run_pipeline (upper symbol) w) as [[[p b]|e] w1];
        intros [= <- <- <-]; [right; eauto | by left].
  - destruct (run_pipeline (upper symbol) w) as [[[p b]|e] w1];
      intros [= <- <- <-]; [right; eauto | by left].
Qed.

(** X10.  A call touches no key but the upper-case form of its symbol, and
    removes no key: every other key maps to what it mapped to before, and
    every key present before the call is present after it. *)
Theorem get_or_train_touches_only_its_key
    cache (symbol : string) (w w' : World)
    (r : result FinRLService.CacheEntry)
    (cache' : gmap string FinRLService.CacheEntry) :
  get_or_train cache symbol w = (r, cache', w') →
  (∀ key, key ≠ upper symbol → cache' !! key = cache !! key) ∧
  dom cache ⊆ dom cache'.
Proof.
  intros Hcall.
  destruct (get_or_train_cache_after _ _ _ _ _ _ Hcall) as [-> | (entry & ->)].
  - split; [done | set_solver].
  - split.
    + intros key Hkey. by rewrite lookup_insert_ne.
    + rewrite dom_insert_L. set_solver.
Qed.

(** X11.  When every key of the cache is its own upper-case form, the same
    holds after any call, whatever the letter case of the symbol asked
    for. *)
Theorem get_or_train_keeps_keys_upper_case
    cache (symbol : string) (w w' : World)
    (r : result FinRLService.CacheEntry)
    (cache' : gmap string FinRLService.CacheEntry) :
  (∀ key, key ∈ dom cache → upper key = key) →
  get_or_train cache symbol w = (r, cache', w') →
  ∀ key, key ∈ dom cache' → upper key = key.
Proof.
  intros Hkeys Hcall.
  destruct (get_or_train_cache_after _ _ _ _ _ _ Hcall) as [-> | (entry & ->)];
    [done|].
  intros key. rewrite dom_insert_L, elem_of_union, elem_of_singleton.
  intros [-> | Hin]; [apply upper_idempotent | by apply Hkeys].
Qed.

(** X12.  The life of an entry.  After a miss that succeeded for a call
    started at clock reading [t], a later call for a symbol of the same key
    returns that entry, leaving cache and world alone, as long as its clock
    reads less than [t] plus the TTL; from that reading on, it returns what
    the same call returns on a cache that has no entry under the key. *)
Theorem entry_served_until_ttl_after_call_start
    cache (symbol symbol' : string) (w w1 w2 : World)
    (prediction : prediction_payload) (backtest : backtest_payload) :
  is_miss utcnow cache symbol w →
  run_pipeline (upper symbol) w = (Ok (prediction, backtest), w1) →
  upper symbol' = upper symbol →
  ∃ entry cache1,
    get_or_train cache symbol w = (Ok entry, cache1, w1) ∧
    ((utcnow w2 < utcnow w + timedelta_minutes (cache_ttl_minutes settings))%Z →
     get_or_train cache1 symbol' w2 = (Ok entry, cache1, w2)) ∧
    ((utcnow w + timedelta_minutes (cache_ttl_minutes settings) ≤ utcnow w2)%Z →
     (get_or_train cache1 symbol' w2).1.1
       = (get_or_train (delete (upper symbol) cache1) symbol' w2).1.1 ∧
     (get_or_train cache1 symbol' w2).2
       = (get_or_train (delete (upper symbol) cache1) symbol' w2).2).
Proof.
  intros Hmiss Hrun Hkey.
  pose proof (get_or_train_miss settings utcnow yf_download INDICATORS
                preprocess_data data_split train_model DRL_prediction
                cache symbol w Hmiss) as Hcall.
  rewrite Hrun in Hcall. cbv zeta in Hcall.
  eexists. eexists. split; [exact Hcall|]. split.
  - intros Hlt. apply get_or_train_hit; [|exact Hlt].
    rewrite Hkey. apply lookup_insert_eq.
  - intros Hge.
    rewrite (get_or_train_miss settings utcnow yf_download INDICATORS
               preprocess_data data_split train_model DRL_prediction
               _ symbol' w2).
    2:{ intros entry. rewrite Hkey, lookup_insert_eq. intros [= <-].
        simpl. lia. }
    rewrite (get_or_train_miss settings utcnow yf_download INDICATORS
               preprocess_data data_split train_model DRL_prediction
               (delete (upper symbol) _) symbol' w2).
    2:{ intros entry. rewrite Hkey, lookup_delete_eq. discriminate. }
    destruct (run_pipeline (upper symbol') w2) as [[[p b]|e] w3]; done.
Qed.
End CacheMore.

(** ** More on the chart provider client *)

Section ClientMore.
Import YFinanceClient.
Context {World : Type}.
Variable session_get : string -> Z -> Z -> World -> http_reply * World.
Variable python : objects.

Lemma timestamps_of_ints (ts : list Z) :
  timestamps_of (JArray (JInt <$> ts)) = Some ts.
Proof. simpl. by apply mapM_fmap_Some. Qed.

Lemma series_of_series (series : option (list (option R))) :
  series_of (ChartDocument.of_series series) = Some series.
Proof.
  destruct series as [values|]; [|done]. simpl.
  rewrite (mapM_fmap_Some cell_of ChartDocument.of_cell); [done|].
  by intros [x|].
Qed.

(** Only the timestamps, the first quote and the first adjclose entry of
    the first result matter. *)
Lemma frame_of_results_head (r : chart_result) (rs : list chart_result) :
  frame_of_results (r :: rs)
  = frame_of_results
      [{| timestamp := timestamp r;
          indicators_quote := [default no_quote (head (indicators_quote r))];
          indicators_adjclose :=
            [default no_adjclose (head (indicators_adjclose r))] |}].
Proof. reflexivity. Qed.

Lemma frame_of_quote_series (ts : list Z) (q : quote) (a : adjclose_entry) :
  frame_of_series python (JArray (JInt <$> ts)) (ChartDocument.of_quote q)
    (ChartDocument.of_series (adjclose a))
  = Ok (frame_of_results
          [{| timestamp := ts; indicators_quote := [q];
              indicators_adjclose := [a] |}]).
Proof.
  unfold frame_of_series, ChartDocument.of_quote.
  cbn [dict_get member String.eqb Ascii.eqb Bool.eqb default from_option rbind
       Datatypes.id].
  rewrite timestamps_of_ints, !series_of_series. by destruct q, a.
Qed.

Lemma frame_of_no_quote_series (ts : list Z) (a : adjclose_entry) :
  frame_of_series python (JArray (JInt <$> ts)) (JObject [])
    (ChartDocument.of_series (adjclose a))
  = Ok (frame_of_results
          [{| timestamp := ts; indicators_quote := [no_quote];
              indicators_adjclose := [a] |}]).
Proof.
  unfold frame_of_series.
  cbn [dict_get member default from_option rbind Datatypes.id].
  rewrite timestamps_of_ints, series_of_series. by destruct a.
Qed.

(** A result of the chart shape is read as its frame. *)
Lemma frame_of_chart_result (r : chart_result) (rs : list chart_result) :
  frame_of_result python (ChartDocument.of_result r)
  = Ok (frame_of_results (r :: rs)).
Proof.
  rewrite frame_of_results_head.
  unfold frame_of_result, ChartDocument.of_result.
  cbn [dict_get member String.eqb Ascii.eqb Bool.eqb default from_option rbind
       Datatypes.id py_or truthy].
  destruct (timestamp r) as [|t ts] eqn:Hts.
  { destruct (indicators_quote r), (indicators_adjclose r); done. }
  change (JArray (JInt <$> t :: ts)) with (JArray (JInt <$> (t :: ts))).
  destruct (indicators_quote r) as [|q qs], (indicators_adjclose r) as [|a adjs];
    cbn [fmap list_fmap truthy subscript0 rbind py_or head default from_option
         Datatypes.id dict_get member String.eqb Ascii.eqb Bool.eqb
         ChartDocument.of_adjclose].
  - apply (frame_of_no_quote_series (t :: ts) no_adjclose).
  - apply (frame_of_no_quote_series (t :: ts) a).
  - apply (frame_of_quote_series (t :: ts) q no_adjclose).
  - apply (frame_of_quote_series (t :: ts) q a).
Qed.

(** A document of the chart shape whose error value is false is read as
    the frame of its results. *)
Lemma frame_of_chart_document (error : json) (results : list chart_result) :
  truthy error = false →
  frame_of_payload python (ChartDocument.of_results error results)
  = Ok (frame_of_results results).
Proof.
  intros Herr. unfold frame_of_payload, ChartDocument.of_results.
  cbn [dict_get member String.eqb Ascii.eqb Bool.eqb default from_option rbind
       Datatypes.id].
  rewrite Herr. destruct results as [|r rs]; [done|].
  cbn [fmap list_fmap truthy subscript0 rbind].
  apply frame_of_chart_result.
Qed.




(** The download on a reply that is read as a document. *)
Lemma download_reads_payload (symbol : string) (start end_ : Z)
    (w w1 : World) (status : Z) (payload : json) :
  (start < end_)%Z →
  session_get symbol (_to_unix_timestamp start) (_to_unix_timestamp end_) w
  = (Reply status (Some payload), w1) →
  ¬ (400 ≤ status < 600)%Z →
  download_price_history session_get python symbol start end_ w
  = (frame_of_payload python payload, w1).
Proof.
  intros Hlt Hget Hstatus. unfold download_price_history.
  rewrite decide_False by lia. unfold bind. rewrite Hget.
  rewrite decide_False by lia. by rewrite decide_False.
Qed.



End ClientMore.


(** ** What the market data fetchers return *)

Lemma clean_candle_tic (symbol : string) (c : candle) (b : bar) :
  clean_candle symbol c = Some b → tic b = symbol.
Proof.
  unfold clean_candle. intros H.
  repeat match type of H with
         | context [mbind _ ?o] => destruct o; simpl in H; [|done]
         end.
  by injection H as <-.
Qed.

(** The cleaned and sorted frame made of downloaded candles. *)
Lemma cleaned_frame (symbol : string) (candles : list candle) :
  let frame := sort_values_date (omap (clean_candle symbol) candles) in
  StronglySorted date_le frame ∧
  Forall (λ b, tic b = symbol) frame ∧
  frame ≡ₚ omap (clean_candle symbol) candles.
Proof.
  intros frame. split; [apply sort_values_date_sorted|].
  assert (Hperm : frame ≡ₚ omap (clean_candle symbol) candles)
    by apply merge_sort_Permutation.
  split; [|exact Hperm].
  rewrite Hperm. apply Forall_forall. intros b Hb.
  apply list_elem_of_omap in Hb as (c & _ & Hc).
  by eapply clean_candle_tic.
Qed.

Section Fetchers.
Context {World : Type}.
Variable settings : Settings.
Variable utcnow : World -> Z.
Variable yf_download : string -> Z -> Z -> io World (list candle).
Variable session_get :
  string -> Z -> Z -> World -> YFinanceClient.http_reply * World.
Variable python : YFinanceClient.objects.

(** X15.  [_fetch_market_data] of the prediction router raises its own two
    [ValueError]s, for no data and for too little data, or what the client
    raised: a [RuntimeError] of the client becomes a [ValueError] with the
    same message, and any other exception of the client (an
    [AttributeError] from a document of another shape, say) passes as it
    is.  A frame it returns has at least 30 rows, ascends by date, carries
    the symbol in every row, and holds exactly the downloaded rows that
    have all six values. *)
Theorem fetch_market_data_outcome (symbol : string) (w : World) :
  match (Predict._fetch_market_data utcnow session_get python symbol w).1 with
  | Ok frame =>
      30 ≤ length frame ∧
      StronglySorted date_le frame ∧
      Forall (λ b, tic b = symbol) frame ∧
      ∃ data w1,
        YFinanceClient.download_price_history session_get python symbol
          (utcnow w - timedelta_days Predict.LOOKBACK_DAYS)%Z (utcnow w) w
        = (Ok data, w1) ∧
        frame ≡ₚ omap (clean_candle symbol) (YFinanceClient.rows data)
  | Raise e =>
      e = ValueError ("No Yahoo Finance data returned for " +:+ symbol +:+ ".")
      ∨ e = ValueError ("Insufficient historical data for " +:+ symbol +:+ ".")
      ∨ ∃ e0 w1,
          YFinanceClient.download_price_history session_get python symbol
            (utcnow w - timedelta_days Predict.LOOKBACK_DAYS)%Z (utcnow w) w
          = (Raise e0, w1) ∧
          e = match e0 with
              | RuntimeError msg | FinRLException msg => ValueError msg
              | _ => e0
              end
  end.
Proof.
  unfold Predict._fetch_market_data.
  destruct (YFinanceClient.download_price_history session_get python symbol _ _ w)
    as [[data|e] w1] eqn:Hdl.
  - destruct (YFinanceClient.rows data) as [|c candles] eqn:Hrows;
      [simpl; eauto|].
    pose proof (cleaned_frame symbol (c :: candles)) as (Hs & Ht & Hp).
    set (frame := sort_values_date _) in *.
    case_decide as Hlen; [simpl; eauto|]. simpl.
    split; [lia|]. split; [done|]. split; [done|].
    exists data, w1. split; [done|]. by rewrite Hrows.
  - destruct e; simpl; right; right; eexists _, w1; by split.
Qed.

(** X16.  [_download_market_data] of the training service raises what the
    download raised or one of its two [FinRLException]s, for no data and
    for too little data; a frame it returns has at least 100 rows, ascends
    by date, carries the symbol in every row, and holds exactly the
    downloaded rows that have all six values. *)
Theorem download_market_data_outcome (symbol : string) (w : World) :
  match
    (FinRLService._download_market_data settings utcnow yf_download symbol w).1
  with
  | Ok frame =>
      100 ≤ length frame ∧
      StronglySorted date_le frame ∧
      Forall (λ b, tic b = symbol) frame ∧
      ∃ data w1,
        yf_download symbol
          (utcnow w - timedelta_days (365 * lookback_years settings))%Z
          (utcnow w) w = (Ok data, w1) ∧
        frame ≡ₚ omap (clean_candle symbol) data
  | Raise e =>
      (∃ w1,
         yf_download symbol
           (utcnow w - timedelta_days (365 * lookback_years settings))%Z
           (utcnow w) w = (Raise e, w1))
      ∨ e = FinRLException
              ("No Yahoo Finance data returned for " +:+ symbol
               +:+ ". Check the ticker symbol.")
      ∨ e = FinRLException
              ("Insufficient historical data for " +:+ symbol
               +:+ ". Try expanding the window.")
  end.
Proof.
  unfold FinRLService._download_market_data, bind.
  destruct (yf_download symbol _ _ w) as [[data|e] w1] eqn:Hdl.
  - destruct data as [|c candles]; [simpl; eauto|].
    pose proof (cleaned_frame symbol (c :: candles)) as (Hs & Ht & Hp).
    set (frame := sort_values_date _) in *.
    case_decide as Hlen; [simpl; eauto|]. simpl.
    split; [lia|]. split; [done|]. split; [done|].
    exists (c :: candles), w1. done.
  - simpl. eauto.
Qed.

(** X17.  [_fetch_data] of the training script raises its own two
    [RuntimeError]s, for no data and for no row with all six values, or
    what the client raised, unchanged: it catches nothing.  A frame it
    returns is not empty (there is no larger minimum), ascends by date,
    carries the symbol in every row, and holds exactly the downloaded rows
    that have all six values. *)
Theorem fetch_data_outcome (symbol : string) (w : World) :
  match (TrainModel._fetch_data utcnow session_get python symbol w).1 with
  | Ok frame =>
      frame ≠ [] ∧
      StronglySorted date_le frame ∧
      Forall (λ b, tic b = symbol) frame ∧
      ∃ data w1,
        YFinanceClient.download_price_history session_get python symbol
          (utcnow w - timedelta_days TrainModel.LOOKBACK_DAYS)%Z (utcnow w) w
        = (Ok data, w1) ∧
        frame ≡ₚ omap (clean_candle symbol) (YFinanceClient.rows data)
  | Raise e =>
      e = RuntimeError ("No Yahoo Finance data returned for " +:+ symbol +:+ ".")
      ∨ e = RuntimeError
              ("Unable to prepare training frame for " +:+ symbol +:+ ".")
      ∨ ∃ w1,
          YFinanceClient.download_price_history session_get python symbol
            (utcnow w - timedelta_days TrainModel.LOOKBACK_DAYS)%Z (utcnow w) w
          = (Raise e, w1)
  end.
Proof.
  unfold TrainModel._fetch_data, bind.
  destruct (YFinanceClient.download_price_history session_get python symbol _ _ w)
    as [[data|e] w1] eqn:Hdl.
  - destruct (YFinanceClient.rows data) as [|c candles] eqn:Hrows;
      [simpl; eauto|].
    pose proof (cleaned_frame symbol (c :: candles)) as (Hs & Ht & Hp).
    set (frame := sort_values_date _) in *.
    clearbody frame. destruct frame as [|b rest]; [simpl; eauto|]. simpl.
    split; [done|]. split; [done|]. split; [done|].
    exists data, w1. split; [done|]. by rewrite Hrows.
  - simpl. eauto.
Qed.
End Fetchers.

(** ** The prediction router *)

Lemma tail_last {A} (n : nat) (frame : list A) :
  0 < n → last (tail n frame) = last frame.
Proof.
  intros Hn. destruct frame as [|x frame]; [done|].
  rewrite (tail_split n (x :: frame)) at 2. rewrite last_app.
  destruct (last (tail n (x :: frame))) as [y|] eqn:Hlast; [done|].
  apply last_None in Hlast. apply (f_equal length) in Hlast.
  rewrite tail_length in Hlast. simpl in Hlast. lia.
Qed.

Lemma history_points_last (raw_df : list bar) (row : bar) :
  last raw_df = Some row →
  last (history_points raw_df)
  = Some {| pp_date := date row; value := close row |}.
Proof.
  intros Hlast. unfold history_points. rewrite fmap_last, tail_last by lia.
  by rewrite Hlast.
Qed.

Section RouterMore.
Context {World Model : Type}.
Variable utcnow : World -> Z.
Variable session_get :
  string -> Z -> Z -> World -> YFinanceClient.http_reply * World.
Variable python : YFinanceClient.objects.
Variable model_path_exists : World -> bool.
Variable PPO_load : io World Model.
Variable INDICATORS : list string.
Variable preprocess_data : list bar -> result (list indicator_row).
Variable DRL_prediction :
  Model -> list feature_row -> env_kwargs ->
  io World (list account_record * list action_record).
Variable MODEL_PATH : string.

Local Abbreviation load_model :=
  (Predict._load_model model_path_exists PPO_load).
Local Abbreviation fetch_market_data :=
  (Predict._fetch_market_data utcnow session_get python).
Local Abbreviation run_prediction :=
  (Predict._run_prediction utcnow session_get python model_path_exists PPO_load
     INDICATORS preprocess_data DRL_prediction).
Local Abbreviation predict :=
  (Endpoints.predict utcnow session_get python model_path_exists PPO_load INDICATORS
     preprocess_data DRL_prediction MODEL_PATH).

(** X18.  The model is loaded once.  A call of [_load_model] that returns a
    model leaves it in the model cache; every later call returns that model
    without loading anything, as long as the model file exists, and raises
    [FileNotFoundError] when the file is gone, cached model or not. *)
Theorem load_model_loads_once
    (model_cache model_cache' : option Model) (w w' : World) (model : Model) :
  load_model model_cache w = (Ok model, model_cache', w') →
  model_cache' = Some model ∧
  ∀ w2 : World,
    load_model model_cache' w2
    = if model_path_exists w2 then (Ok model, model_cache', w2)
      else (Raise FileNotFoundError, model_cache', w2).
Proof.
  unfold Predict._load_model.
  destruct (model_path_exists w); [|discriminate].
  destruct model_cache as [cached|].
  - intros [= <- <- <-]. split; [done|]. intros w2.
    by destruct (model_path_exists w2).
  - destruct (PPO_load w) as [[loaded|e] w1]; [|discriminate].
    intros [= <- <- <-]. split; [done|]. intros w2.
    by destruct (model_path_exists w2).
Qed.

(** Every failure of [_fetch_market_data] is a [ValueError]. *)
(** X19.  When the model file is missing, the prediction endpoint answers
    500 with the missing-model message, and neither the model cache nor the
    world changes: the provider is not contacted. *)
Theorem predict_without_model_file
    (model_cache : option Model) (symbol : string) (w : World) :
  model_path_exists w = false →
  predict model_cache symbol w
  = (inr {| Endpoints.status_code := 500;
            Endpoints.detail :=
              "Missing PPO model at " +:+ MODEL_PATH
              +:+ ". Train one via `python3 train_model.py`." |},
     model_cache, w).
Proof.
  intros Hmissing. unfold Endpoints.predict, Predict._run_prediction,
    Predict._load_model.
  by rewrite Hmissing.
Qed.

(** X20.  Once the model is available, a failure to fetch the market data
    is answered by its kind.  A [ValueError] (the fetcher's own, for no
    data or too few rows, or a [RuntimeError] of the client that the
    fetcher converted: provider unreachable or throttling, provider error)
    reaches the client of the prediction endpoint as a 400 whose detail is
    the message of the failure.  Any other exception (an [AttributeError]
    from a document of another shape, say) reaches it as a 500 with the
    fixed detail. *)
Theorem predict_answers_fetch_failure
    (model_cache model_cache' : option Model) (symbol : string)
    (w w1 w2 : World) (model : Model) (e : exn) :
  load_model model_cache w = (Ok model, model_cache', w1) →
  fetch_market_data symbol w1 = (Raise e, w2) →
  e ≠ FileNotFoundError →
  predict model_cache symbol w
  = (inr match e with
         | ValueError msg =>
             {| Endpoints.status_code := 400; Endpoints.detail := msg |}
         | _ =>
             {| Endpoints.status_code := 500;
                Endpoints.detail := "Unexpected prediction failure" |}
         end,
     model_cache', w2).
Proof.
  intros Hload Hfetch Hkind.
  unfold Endpoints.predict, Predict._run_prediction. rewrite Hload.
  rewrite (bind_raise _ _ _ _ _ Hfetch). by destruct e.
Qed.

Lemma iloc_last_ok {A} (frame : list A) (row : A) :
  iloc_last frame = Ok row → last frame = Some row.
Proof. unfold iloc_last. destruct (last frame); [by intros [= ->] | done]. Qed.

Lemma estimate_price_ok (latest_close action : R) (hmax : Z) (predicted : R) :
  _estimate_price latest_close (Some action) hmax = Ok predicted →
  hmax ≠ 0%Z ∧
  predicted = py_round (latest_close * (1 + tanh (action / IZR hmax) * 0.01)) 4.
Proof.
  unfold _estimate_price. case_decide; [done|]. by intros [= <-].
Qed.

(** X21.  A response of [_run_prediction] hangs together and follows the
    policy.  It comes from a run in which the model was loaded, the market
    data fetched, the features computed and the policy simulated on them.
    It names the upper-case symbol, its latest close is the value of the
    last point of its price history, its prediction point is dated one day
    after that point and carries the predicted close, which is the latest
    close adjusted by the scalar of the last action record of that
    simulation (by 0 when the simulation gave no action) against
    [hmax = 100] and rounded to four decimals; the delta is the difference
    of the two closes and the percentage is 0 for a latest close of 0. *)
Theorem prediction_response_is_consistent
    (model_cache model_cache' : option Model) (symbol : string) (w w' : World)
    (response : Predict.PredictionResponse) :
  run_prediction model_cache symbol w = (Ok response, model_cache', w') →
  ∃ model w1 raw_df w2 processed account_memory actions_frame,
    load_model model_cache w = (Ok model, model_cache', w1) ∧
    fetch_market_data symbol w1 = (Ok raw_df, w2) ∧
    Predict._engineer_features preprocess_data raw_df = Ok processed ∧
    DRL_prediction model processed
      (Predict._build_env_kwargs INDICATORS
         (length (remove_dups (f_tic <$> processed)))) w2
    = (Ok (account_memory, actions_frame), w') ∧
    let latest := Predict.r_latest_close response in
    let predicted := Predict.r_predicted_next_close response in
    Predict.r_symbol response = upper symbol ∧
    Predict.r_generated_at response = utcnow w' ∧
    Predict.r_disclaimer response = DISCLAIMER_TEXT ∧
    Predict.r_delta response = (predicted - latest)%R ∧
    ((latest = 0%R ∧ Predict.r_delta_pct response = 0%R)
     ∨ (latest ≠ 0%R ∧
        Predict.r_delta_pct response
        = (Predict.r_delta response / latest * 100)%R)) ∧
    predicted_close (Predict.r_prediction_point response) = predicted ∧
    (∃ action : R,
       match last actions_frame with
       | Some row => _action_to_scalar (actions row)
       | None => Ok 0%R
       end = Ok action ∧
       predicted = py_round (latest * (1 + tanh (action / IZR 100) * 0.01)) 4) ∧
    ∃ point,
      last (Predict.r_price_history response) = Some point ∧
      value point = latest ∧
      pt_date (Predict.r_prediction_point response)
      = (pp_date point + timedelta_days 1)%Z.
Proof.
  unfold Predict._run_prediction. intros H.
  destruct (Predict._load_model _ _ _ _) as [[[model|e] mc] w0] eqn:Hload;
    [|discriminate].
  match type of H with
  | (let (_, _) := ?m w0 in _) = _ => destruct (m w0) as [r w2] eqn:Hrest
  end.
  injection H as -> <- <-.
  apply bind_ok in Hrest as (raw_df & w1 & Hraw & H).
  apply bind_ok in H as (processed & w3 & Heng & H).
  apply lift_ok in Heng as [Heng ->].
  apply bind_ok in H as ([account_memory actions_frame] & w4 & Hdrl & H).
  apply bind_ok in H as (latest_row & w5 & Hlatest & H).
  apply lift_ok in Hlatest as [Hlatest ->].
  apply bind_ok in H as (last_action & w6 & Haction & H).
  apply lift_ok in Haction as [Haction ->].
  apply bind_ok in H as (predicted & w7 & Hpred & H).
  apply lift_ok in Hpred as [Hpred ->].
  injection H as <- <-.
  apply estimate_price_ok in Hpred as [_ Hpred].
  apply iloc_last_ok in Hlatest.
  exists model, w0, raw_df, w1, processed, account_memory, actions_frame.
  split; [done|]. split; [done|]. split; [done|]. split; [done|].
  cbn [Predict.r_symbol Predict.r_generated_at Predict.r_disclaimer
       Predict.r_delta Predict.r_delta_pct Predict.r_latest_close
       Predict.r_predicted_next_close Predict.r_prediction_point
       Predict.r_price_history predicted_close pt_date].
  repeat split.
  - destruct (Req_dec_T (close latest_row) 0) as [Hz | Hnz];
      [left | right]; done.
  - exists last_action. split; [exact Haction | exact Hpred].
  - eexists. split; [by apply history_points_last|]. done.
Qed.
End RouterMore.

(** ** The prediction payload of the training service *)

(** X22.  A payload of [_build_prediction_payload] hangs together: its
    latest close is the value of the last point of its price history, its
    prediction point is dated one day after that point and carries the
    predicted close.  Only the last action record counts: without any
    action record the predicted close is the latest close itself, otherwise
    it is the latest close adjusted by the scalar of the last record and
    rounded to four decimals. *)
Theorem prediction_payload_is_consistent
    {World : Type} (utcnow : World -> Z) (symbol_asked : string)
    (raw_df : list bar) (actions_frame : list action_record)
    (kwargs : env_kwargs) (w w' : World) (payload : prediction_payload) :
  FinRLService._build_prediction_payload utcnow symbol_asked raw_df
    actions_frame kwargs w = (Ok payload, w') →
  w' = w ∧
  symbol payload = symbol_asked ∧
  generated_at payload = utcnow w ∧
  disclaimer payload = DISCLAIMER_TEXT ∧
  predicted_close (prediction_point payload) = predicted_next_close payload ∧
  (∃ point,
     last (price_history payload) = Some point ∧
     value point = latest_close payload ∧
     pt_date (prediction_point payload) = (pp_date point + timedelta_days 1)%Z) ∧
  match last actions_frame with
  | None => predicted_next_close payload = latest_close payload
  | Some row =>
      ∃ action : R,
        _action_to_scalar (actions row) = Ok action ∧
        hmax kwargs ≠ 0%Z ∧
        predicted_next_close payload
        = py_round (latest_close payload
                    * (1 + tanh (action / IZR (hmax kwargs)) * 0.01)) 4
  end.
Proof.
  unfold FinRLService._build_prediction_payload. intros H.
  apply bind_ok in H as (latest_row & w1 & Hlatest & H).
  apply lift_ok in Hlatest as [Hlatest ->].
  apply bind_ok in H as (last_action & w2 & Haction & H).
  apply lift_ok in Haction as [Haction ->].
  apply bind_ok in H as (predicted & w3 & Hpred & H).
  apply lift_ok in Hpred as [Hpred ->].
  injection H as <- <-.
  apply iloc_last_ok in Hlatest.
  cbn [symbol generated_at disclaimer prediction_point predicted_close
       predicted_next_close latest_close price_history pt_date].
  repeat split.
  - eexists. split; [by apply history_points_last|]. done.
  - unfold FinRLService._extract_action in Haction.
    destruct (last actions_frame) as [row|].
    + apply rbind_ok in Haction as (a & Ha & Hsome). injection Hsome as <-.
      exists a. split; [exact Ha|].
      unfold _estimate_price_from_action in Hpred.
      case_decide; [done|]. by injection Hpred as <-.
    + injection Haction as <-. simpl in Hpred. by injection Hpred as <-.
Qed.

(** ** The backtest endpoint *)

Section BacktestEndpoint.
Context {World Model : Type}.
Variable settings : Settings.
Variable utcnow : World -> Z.
Variable yf_download : string -> Z -> Z -> io World (list candle).
Variable INDICATORS : list string.
Variable preprocess_data : list bar -> result (list indicator_row).
Variable data_split : list feature_row -> Z -> Z -> list feature_row.
Variable train_model : list feature_row -> env_kwargs -> Z -> io World Model.
Variable DRL_prediction :
  Model -> list feature_row -> env_kwargs ->
  io World (list account_record * list action_record).

Local Abbreviation run_pipeline :=
  (FinRLService._run_pipeline settings utcnow yf_download INDICATORS
     preprocess_data data_split train_model DRL_prediction).
Local Abbreviation get_or_train :=
  (FinRLService._get_or_train settings utcnow yf_download INDICATORS
     preprocess_data data_split train_model DRL_prediction).
Local Abbreviation get_backtest_payload :=
  (FinRLService.get_backtest_payload settings utcnow yf_download INDICATORS
     preprocess_data data_split train_model DRL_prediction).
Local Abbreviation backtest_strategy :=
  (Endpoints.backtest_strategy settings utcnow yf_download INDICATORS
     preprocess_data data_split train_model DRL_prediction).

Implicit Types (cache : gmap string FinRLService.CacheEntry).

(** X23.  What the backtest endpoint answers.  A payload it returns is the
    backtest of the entry now cached under the upper-case symbol.  An error
    it returns leaves the cache as it was and is either a 400 carrying the
    message of the [FinRLException] the service raised, or a 500 with the
    fixed detail "Unexpected FinRL error". *)
Theorem backtest_strategy_outcome cache (symbol : string) (w : World) :
  match backtest_strategy cache symbol w with
  | (inl payload, cache', w') =>
      ∃ entry,
        cache' !! upper symbol = Some entry ∧
        FinRLService.backtest entry = payload
  | (inr exc, cache', w') =>
      cache' = cache ∧
      ((Endpoints.status_code exc = 400%Z ∧
        get_backtest_payload cache symbol w
        = (Raise (FinRLException (Endpoints.detail exc)), cache, w'))
       ∨ (Endpoints.status_code exc = 500%Z ∧
          Endpoints.detail exc = "Unexpected FinRL error"))
  end.
Proof.
  unfold Endpoints.backtest_strategy, FinRLService.get_backtest_payload.
  destruct (get_or_train cache symbol w) as [[[entry|e] cache'] w'] eqn:Hcall.
  - exists entry. split; [|done]. by eapply get_or_train_ok_stored.
  - apply get_or_train_raise_keeps_cache in Hcall as ->.
    destruct e; simpl; (split; [done|]); auto.
Qed.

(** X24.  A symbol the provider has no data for.  On a miss for which the
    download comes back empty, the backtest endpoint answers 400 with the
    no-data message, which names the symbol in upper case, and the cache is
    unchanged. *)
Theorem backtest_of_unknown_symbol_is_400
    cache (symbol : string) (w w1 : World) :
  is_miss utcnow cache symbol w →
  yf_download (upper symbol)
    (utcnow w - timedelta_days (365 * lookback_years settings))%Z (utcnow w) w
  = (Ok [], w1) →
  backtest_strategy cache symbol w
  = (inr {| Endpoints.status_code := 400;
            Endpoints.detail :=
              "No Yahoo Finance data returned for " +:+ upper symbol
              +:+ ". Check the ticker symbol." |},
     cache, w1).
Proof.
  intros Hmiss Hdl.
  unfold Endpoints.backtest_strategy, FinRLService.get_backtest_payload.
  rewrite (get_or_train_miss settings utcnow yf_download INDICATORS
             preprocess_data data_split train_model DRL_prediction
             cache symbol w Hmiss).
  assert (Hrun :
    run_pipeline (upper symbol) w
    = (Raise (FinRLException
                ("No Yahoo Finance data returned for " +:+ upper symbol
                 +:+ ". Check the ticker symbol.")), w1)).
  { unfold FinRLService._run_pipeline. apply bind_raise.
    unfold FinRLService._download_market_data, bind. by rewrite Hdl. }
  by rewrite Hrun.
Qed.
End BacktestEndpoint.

(** ** Forward fill and null drop *)

Lemma fill_cells_length (above cells : list (option R)) :
  length (fill_cells above cells) = length cells.
Proof.
  revert above. induction cells as [|c cells IH]; intros above;
    [by destruct above|].
  destruct above as [|a above]; simpl; [done|]. by rewrite IH.
Qed.

Lemma fill_cells_present (above cells : list (option R)) :
  Forall is_Some above → length above = length cells →
  Forall is_Some (fill_cells above cells).
Proof.
  intros Habove. revert cells.
  induction Habove as [|a above [x ->] _ IH]; intros cells Hlen.
  - destruct cells; [constructor | discriminate].
  - destruct cells as [|c cells]; [discriminate|]. simpl.
    constructor; [destruct c; simpl; eauto|].
    apply IH. simpl in Hlen. lia.
Qed.

Lemma fill_present (above cell : option R) :
  is_Some above → is_Some (fill above cell).
Proof. intros Ha. destruct cell; simpl; eauto. Qed.

Lemma fill_row_no_null (above r : indicator_row) :
  has_no_null above →
  length (i_indicators above) = length (i_indicators r) →
  has_no_null (fill_row above r).
Proof.
  unfold has_no_null. intros (? & ? & ? & ? & ? & ? & Hind) Hlen. simpl.
  repeat split; try by apply fill_present.
  by apply fill_cells_present.
Qed.

Lemma ffill_from_no_null (above : indicator_row) (frame : list indicator_row)
    (k : nat) :
  has_no_null above →
  length (i_indicators above) = k →
  Forall (λ r, length (i_indicators r) = k) frame →
  Forall has_no_null (ffill_from above frame).
Proof.
  intros Habove Hk Hrect. revert above Habove Hk.
  induction Hrect as [|r frame Hr _ IH]; intros above Habove Hk; simpl;
    [constructor|].
  assert (Hfilled : has_no_null (fill_row above r))
    by (apply fill_row_no_null; [done | congruence]).
  constructor; [done|]. apply IH; [done|].
  simpl. by rewrite fill_cells_length.
Qed.

Lemma ffill_from_indicator_count (above : indicator_row)
    (frame : list indicator_row) (k : nat) :
  Forall (λ r, length (i_indicators r) = k) frame →
  Forall (λ r, length (i_indicators r) = k) (ffill_from above frame).
Proof.
  intros Hrect. revert above.
  induction Hrect as [|r frame Hr _ IH]; intros above; simpl; constructor.
  - simpl. by rewrite fill_cells_length.
  - apply IH.
Qed.

Lemma filter_all {A} (P : A → Prop) `{∀ x, Decision (P x)} (l : list A) :
  Forall P l → filter P l = l.
Proof.
  induction 1 as [|x l Hx _ IH]; [done|].
  by rewrite filter_cons_True, IH.
Qed.

Lemma ffill_from_complete_suffix (above : indicator_row)
    (frame : list indicator_row) (k : nat) :
  Forall (λ r, length (i_indicators r) = k) frame →
  ∃ n, filter has_no_null (ffill_from above frame)
       = drop n (ffill_from above frame).
Proof.
  intros Hrect. revert above.
  induction Hrect as [|r frame Hr Hrect IH]; intros above; simpl;
    [by exists 0|].
  destruct (decide (has_no_null (fill_row above r))) as [Hfull | Hnot].
  - exists 0. simpl.
    apply (filter_all has_no_null (fill_row above r :: _)).
    constructor; [done|]. apply (ffill_from_no_null _ _ k); [done| |done].
    simpl. by rewrite fill_cells_length.
  - rewrite filter_cons_False by done.
    destruct (IH (fill_row above r)) as (n & Hn). by exists (S n).
Qed.

Lemma ffill_complete_suffix (frame : list indicator_row) (k : nat) :
  Forall (λ r, length (i_indicators r) = k) frame →
  ∃ n, filter has_no_null (ffill frame) = drop n (ffill frame).
Proof.
  intros Hrect. destruct frame as [|r frame]; [by exists 0|].
  inversion Hrect as [|? ? Hr Hrest]; subst. unfold ffill.
  destruct (decide (has_no_null r)) as [Hfull | Hnot].
  - exists 0. simpl.
    apply (filter_all has_no_null (r :: _)).
    constructor; [done|]. by eapply ffill_from_no_null.
  - rewrite filter_cons_False by done.
    destruct (ffill_from_complete_suffix r frame _ Hrest) as (n & Hn).
    by exists (S n).
Qed.

Lemma ffill_from_dates (above : indicator_row) (frame : list indicator_row) :
  i_date <$> ffill_from above frame = i_date <$> frame.
Proof.
  revert above. induction frame as [|r frame IH]; intros above; [done|].
  simpl. by rewrite IH.
Qed.

Lemma ffill_dates (frame : list indicator_row) :
  i_date <$> ffill frame = i_date <$> frame.
Proof.
  destruct frame as [|r frame]; [done|]. simpl. by rewrite ffill_from_dates.
Qed.

(** X25.  Feature engineering drops leading rows only.  When the indicator
    computation returns a frame whose rows all have the same number of
    indicator cells, both [_engineer_features] return the forward-filled
    frame without some number of its first rows; the dates of the result
    are the dates of that frame from that row on. *)
Theorem engineer_features_drops_only_leading_rows
    (preprocess_data : list bar -> result (list indicator_row))
    (raw_df : list bar) (processed : list indicator_row) (k : nat) :
  preprocess_data raw_df = Ok processed →
  Forall (λ r, length (i_indicators r) = k) processed →
  ∃ (df : list feature_row) (n : nat),
    FinRLService._engineer_features preprocess_data raw_df = Ok df ∧
    Predict._engineer_features preprocess_data raw_df = Ok df ∧
    nullable <$> df = drop n (ffill processed) ∧
    f_date <$> df = drop n (i_date <$> processed).
Proof.
  intros Hpre Hrect.
  destruct (ffill_complete_suffix processed k Hrect) as (n & Hn).
  exists (dropna (ffill processed)), n.
  unfold FinRLService._engineer_features, Predict._engineer_features.
  rewrite Hpre. simpl. split; [done|]. split; [done|].
  assert (Hrows : nullable <$> dropna (ffill processed) = drop n (ffill processed))
    by (by rewrite dropna_filter).
  split; [exact Hrows|].
  rewrite <- ffill_dates, <- fmap_drop, <- Hrows, <- list_fmap_compose.
  done.
Qed.

(** ** The environment configuration *)

Lemma remove_dups_of_one_value {A} `{EqDecision A} (t : A) (l : list A) :
  l ≠ [] → Forall (λ x, x = t) l → remove_dups l = [t].
Proof.
  intros Hne Hall. induction Hall as [|x l -> Hall IH]; [done|].
  destruct l as [|y l]; [reflexivity|].
  inversion Hall as [|? ? Hy _]; subst.
  rewrite <- IH by done.
  change (remove_dups (t :: t :: l))
    with (if decide_rel elem_of t (t :: l)
          then remove_dups (t :: l) else t :: remove_dups (t :: l)).
  destruct (decide_rel elem_of t (t :: l)) as [_ | Hnot]; [done|].
  exfalso. apply Hnot, elem_of_cons. by left.
Qed.

(** X26.  For a training frame that is not empty and holds one ticker, the
    configuration built by [_build_env_kwargs] has stock dimension and
    action space 1, state space 3 plus the number of indicators, and
    one-element cost and share lists; [hmax] is 100 and the initial amount
    100000. *)
Theorem env_kwargs_of_single_ticker
    (INDICATORS : list string) (train_df : list feature_row) (ticker : string) :
  train_df ≠ [] →
  Forall (λ r, f_tic r = ticker) train_df →
  let kwargs := FinRLService._build_env_kwargs INDICATORS train_df in
  stock_dim kwargs = 1 ∧
  action_space kwargs = 1 ∧
  state_space kwargs = 3 + length INDICATORS ∧
  buy_cost_pct kwargs = [(1 / 1000)%R] ∧
  sell_cost_pct kwargs = [(1 / 1000)%R] ∧
  num_stock_shares kwargs = [0%Z] ∧
  tech_indicator_list kwargs = INDICATORS ∧
  hmax kwargs = 100%Z ∧
  initial_amount kwargs = 100000%Z ∧
  kwargs
  = Predict._build_env_kwargs INDICATORS
      (length (remove_dups (f_tic <$> train_df))).
Proof.
  intros Hne Hall kwargs. subst kwargs.
  unfold FinRLService._build_env_kwargs.
  rewrite (remove_dups_of_one_value ticker).
  - simpl. repeat split. lia.
  - by destruct train_df.
  - by apply Forall_fmap.
Qed.

(** ** The dataset splitter, when it succeeds *)

(** X27.  When [_split_dataframes] returns, both partitions have rows, the
    split date (the latest date minus the test window) is after the
    earliest date, the training partition is what the partition function
    gives from the earliest date to the split date and the test partition
    what it gives from the split date to the latest date. *)
Theorem split_dataframes_success
    (settings : Settings)
    (data_split : list feature_row -> Z -> Z -> list feature_row)
    (df train test : list feature_row) :
  FinRLService._split_dataframes settings data_split df = Ok (train, test) →
  ∃ min_date max_date : Z,
    min_date ∈ f_date <$> df ∧
    max_date ∈ f_date <$> df ∧
    Forall (λ d, min_date ≤ d ≤ max_date)%Z (f_date <$> df) ∧
    (min_date < max_date - timedelta_days (test_window_days settings))%Z ∧
    train
    = data_split df min_date
        (max_date - timedelta_days (test_window_days settings))%Z ∧
    test
    = data_split df (max_date - timedelta_days (test_window_days settings))%Z
        max_date ∧
    train ≠ [] ∧ test ≠ [].
Proof.
  unfold FinRLService._split_dataframes.
  destruct (f_date <$> df) as [|d ds] eqn:Hdates; [discriminate|].
  destruct (foldl_max_spec ds d) as [Hmx_in Hmx_all].
  destruct (foldl_min_spec ds d) as [Hmn_in Hmn_all].
  set (max_date := foldl Z.max d ds) in *.
  set (min_date := foldl Z.min d ds) in *.
  case_decide as Hsplit; [discriminate|].
  destruct (data_split df min_date _) as [|r1 train'] eqn:Htrain;
    [discriminate|].
  destruct (data_split df _ max_date) as [|r2 test'] eqn:Htest;
    [discriminate|].
  intros [= <- <-]. exists min_date, max_date.
  split; [done|]. split; [done|]. split.
  { rewrite Forall_forall in Hmx_all, Hmn_all. apply Forall_forall.
    intros x Hx. split; [by apply Hmn_all | by apply Hmx_all]. }
  split; [lia|]. done.
Qed.

(** ** The CORS origins *)

Section Origins.
Import Config.

Local Abbreviation chars := String.list_ascii_of_string.

Lemma rstrip_cons (c : ascii) (s : string) :
  is_space c = false → rstrip (String c s) = String c (rstrip s).
Proof. intros Hc. simpl. rewrite Hc. by destruct (rstrip s). Qed.

Lemma rstrip_idempotent (s : string) : rstrip (rstrip s) = rstrip s.
Proof.
  induction s as [|c s IH]; [done|]. simpl.
  destruct (rstrip s) as [|k kept] eqn:Hkept.
  - destruct (is_space c) eqn:Hc; [done|]. simpl. by rewrite Hc.
  - change (rstrip (String c (String k kept)))
      with (match rstrip (String k kept) with
            | EmptyString =>
                if is_space c then EmptyString else String c EmptyString
            | kept' => String c kept'
            end).
    by rewrite IH.
Qed.

Lemma lstrip_head (s : string) :
  lstrip s = EmptyString
  ∨ ∃ c rest, lstrip s = String c rest ∧ is_space c = false.
Proof.
  induction s as [|c s IH]; [by left|]. simpl.
  destruct (is_space c) eqn:Hc; [exact IH|]. right. eauto.
Qed.

Lemma strip_idempotent (s : string) : strip (strip s) = strip s.
Proof.
  unfold strip. destruct (lstrip_head s) as [-> | (c & rest & -> & Hc)];
    [done|].
  rewrite (rstrip_cons c rest Hc). simpl lstrip. rewrite Hc.
  rewrite <- (rstrip_cons c rest Hc). apply rstrip_idempotent.
Qed.

Lemma lstrip_chars (s : string) (c : ascii) :
  c ∈ chars (lstrip s) → c ∈ chars s.
Proof.
  induction s as [|x s IH]; [done|]. simpl.
  destruct (is_space x); [|done]. intros Hc. apply elem_of_cons. auto.
Qed.

Lemma rstrip_chars (s : string) (c : ascii) :
  c ∈ chars (rstrip s) → c ∈ chars s.
Proof.
  induction s as [|x s IH]; [done|]. simpl.
  destruct (rstrip s) as [|k kept].
  - destruct (is_space x); simpl; [by intros ?%elem_of_nil|].
    intros [-> | ?%elem_of_nil]%elem_of_cons; [|done].
    apply elem_of_cons. by left.
  - simpl. intros [-> | Hc]%elem_of_cons; apply elem_of_cons; auto.
Qed.

Lemma strip_chars (s : string) (c : ascii) :
  c ∈ chars (strip s) → c ∈ chars s.
Proof. intros Hc. by apply lstrip_chars, rstrip_chars. Qed.

Lemma split_commas_not_nil (raw : string) : split_commas raw ≠ [].
Proof.
  induction raw as [|c raw IH]; [done|]. simpl.
  case_decide; [done|]. by destruct (split_commas raw).
Qed.

Lemma split_commas_pieces (raw : string) :
  Forall (λ piece, ∀ c, c ∈ chars piece → c ≠ comma ∧ c ∈ chars raw)
    (split_commas raw).
Proof.
  induction raw as [|x raw IH]; simpl.
  - constructor; [|constructor]. by intros c ?%elem_of_nil.
  - case_decide as Hx.
    + constructor; [by intros c ?%elem_of_nil|].
      eapply Forall_impl; [exact IH|]. simpl. intros piece Hp c Hc.
      destruct (Hp c Hc). split; [done|]. apply elem_of_cons. auto.
    + destruct (split_commas raw) as [|piece pieces] eqn:Hsplit;
        [by apply split_commas_not_nil in Hsplit|].
      inversion IH as [|? ? Hpiece Hpieces]; subst. constructor.
      * simpl. intros c [-> | Hc]%elem_of_cons.
        -- split; [done|]. apply elem_of_cons. by left.
        -- destruct (Hpiece c Hc). split; [done|]. apply elem_of_cons. auto.
      * eapply Forall_impl; [exact Hpieces|]. simpl. intros p Hp c Hc.
        destruct (Hp c Hc). split; [done|]. apply elem_of_cons. auto.
Qed.

(** X28.  For a configured ASCII value that is not empty, every origin
    [_parse_origins] returns is a non-empty piece of the value between two
    commas, stripped: it holds no comma, and stripping it again changes
    nothing.  Without a value, or with the empty one, the two local
    development origins are returned. *)
Theorem parse_origins_returns_clean_origins (value : string) :
  value ≠ EmptyString →
  is_ascii value →
  _parse_origins None = default_origins ∧
  _parse_origins (Some EmptyString) = default_origins ∧
  Forall (λ origin,
            origin ≠ EmptyString ∧
            strip origin = origin ∧
            (comma ∉ chars origin) ∧
            ∀ c, c ∈ chars origin → c ∈ chars value)
    (_parse_origins (Some value)).
Proof.
  intros Hne _. split; [done|]. split; [done|].
  destruct value as [|x value]; [done|].
  unfold _parse_origins. set (raw := String x value).
  apply Forall_fmap, Forall_forall. intros piece Hpiece.
  apply list_elem_of_filter in Hpiece as [Hkept Hpiece].
  pose proof (split_commas_pieces raw) as Hpieces.
  rewrite Forall_forall in Hpieces. specialize (Hpieces piece Hpiece).
  simpl. split; [done|]. split; [apply strip_idempotent|]. split.
  - intros Hcomma. apply strip_chars in Hcomma.
    by destruct (Hpieces comma Hcomma).
  - intros c Hc. apply strip_chars in Hc. by destruct (Hpieces c Hc).
Qed.

Lemma lstrip_blank (s : string) :
  Forall (λ c, is_space c = true) (chars s) → lstrip s = EmptyString.
Proof.
  induction s as [|x s IH]; [done|]. simpl.
  intros Hall. inversion Hall as [|? ? Hx Hs]; subst. rewrite Hx. by apply IH.
Qed.

Lemma filter_none {A} (P : A → Prop) `{∀ x, Decision (P x)} (l : list A) :
  Forall (λ x, ¬ P x) l → filter P l = [].
Proof.
  induction 1 as [|x l Hx _ IH]; [done|]. by rewrite filter_cons_False.
Qed.

(** X29.  A configured value that is not empty and made of commas and
    ASCII blanks only yields no origin at all, and the application then
    allows every origin. *)
Theorem blank_origins_allow_every_origin (value : string) :
  value ≠ EmptyString →
  Forall (λ c, c = comma ∨ is_space c = true) (chars value) →
  _parse_origins (Some value) = [] ∧
  allow_origins (_parse_origins (Some value)) = ["*"].
Proof.
  intros Hne Hblank.
  assert (Hnone : _parse_origins (Some value) = []).
  { destruct value as [|x value]; [done|]. unfold _parse_origins.
    rewrite filter_none; [done|].
    pose proof (split_commas_pieces (String x value)) as Hpieces.
    eapply Forall_impl; [exact Hpieces|]. simpl. intros piece Hpiece Hkept.
    apply Hkept. unfold strip. rewrite lstrip_blank; [done|].
    apply Forall_forall. intros c Hc. destruct (Hpiece c Hc) as [Hcomma Hin].
    rewrite Forall_forall in Hblank. by destruct (Hblank c Hin). }
  by rewrite Hnone.
Qed.

Lemma split_commas_without_comma (s : string) :
  comma ∉ chars s → split_commas s = [s].
Proof.
  induction s as [|x s IH]; [done|]. simpl. intros Hnot.
  rewrite decide_False by (intros ->; apply Hnot, elem_of_cons; by left).
  rewrite IH; [done|]. intros Hin. apply Hnot, elem_of_cons. auto.
Qed.

Lemma split_commas_app (s t : string) :
  comma ∉ chars s →
  split_commas (s +:+ String comma t) = s :: split_commas t.
Proof.
  induction s as [|x s IH]; simpl; intros Hnot.
  - first [done | by rewrite decide_True].
  - rewrite decide_False by (intros ->; apply Hnot, elem_of_cons; by left).
    rewrite IH; [done|]. intros Hin. apply Hnot, elem_of_cons. auto.
Qed.

Lemma split_commas_concat (origin : string) (origins : list string) :
  Forall (λ o, comma ∉ chars o) (origin :: origins) →
  split_commas (String.concat "," (origin :: origins)) = origin :: origins.
Proof.
  revert origin. induction origins as [|o origins IH]; intros origin Hall.
  - inversion Hall; subst. by apply split_commas_without_comma.
  - inversion Hall as [|? ? Ho Hrest]; subst.
    change (String.concat "," (origin :: o :: origins))
      with (origin +:+ String comma (String.concat "," (o :: origins))).
    rewrite split_commas_app by done. by rewrite IH.
Qed.

(** X30.  Round trip.  A list of ASCII origins that is not empty, each of
    them non-empty, free of commas and without blanks at its ends, is what
    [_parse_origins] returns for the origins joined by commas. *)
Theorem parse_origins_of_joined_origins (origins : list string) :
  origins ≠ [] →
  Forall is_ascii origins →
  Forall (λ o, o ≠ EmptyString ∧ strip o = o ∧ comma ∉ chars o) origins →
  _parse_origins (Some (String.concat "," origins)) = origins.
Proof.
  intros Hne _ Hclean. destruct origins as [|origin origins]; [done|].
  assert (Hsplit : split_commas (String.concat "," (origin :: origins))
                   = origin :: origins).
  { apply split_commas_concat. eapply Forall_impl; [exact Hclean|].
    simpl. by intros o (_ & _ & ?). }
  assert (Hraw : String.concat "," (origin :: origins) ≠ EmptyString).
  { intros Hempty. rewrite Hempty in Hsplit. simpl in Hsplit.
    injection Hsplit as <- <-. inversion Hclean as [|? ? (Ho & _) _]. done. }
  unfold _parse_origins.
  destruct (String.concat "," (origin :: origins)) as [|x value]; [done|].
  rewrite Hsplit, filter_all.
  - apply list_eq. intros i. rewrite list_lookup_fmap.
    destruct ((origin :: origins) !! i) as [o|] eqn:Ho; [|done]. simpl.
    rewrite Forall_forall in Hclean.
    destruct (Hclean o) as (_ & -> & _); [|done].
    by eapply list_elem_of_lookup_2.
  - eapply Forall_impl; [exact Hclean|]. simpl. intros o (Ho & -> & _). done.
Qed.
End Origins.

(** ** The further properties at the scenarios *)

Lemma rising_curve_positive :
  Forall (fun row => (0 < account_value row)%R) Samples.rising_curve.
Proof. repeat constructor; simpl; lra. Qed.

Lemma rising_curve_sorted :
  Sorted Rle (account_value <$> Samples.rising_curve).
Proof. repeat constructor; simpl; lra. Qed.

(** The drawdown bounds on the rising curve. *)
Lemma max_drawdown_between_minus_100_and_0_witness :
  exists m,
    FinRLService._calculate_metrics Samples.rising_curve = Ok m /\
    (-100 <= max_drawdown_pct m <= 0)%R.
Proof.
  apply (max_drawdown_between_minus_100_and_0 Samples.rising_curve);
    [discriminate | exact rising_curve_positive].
Defined.

(** No drawdown on the rising curve. *)
Lemma max_drawdown_of_rising_curve_is_zero_witness :
  exists m,
    FinRLService._calculate_metrics Samples.rising_curve = Ok m /\
    max_drawdown_pct m = 0%R.
Proof.
  apply (max_drawdown_of_rising_curve_is_zero Samples.rising_curve);
    [discriminate | exact rising_curve_positive | exact rising_curve_sorted].
Defined.

(** The Sharpe ratio of the scenario's one-record account memory. *)
Lemma sharpe_ratio_zero_without_spread_witness :
  exists m,
    FinRLService._calculate_metrics Scenario.account_memory = Ok m /\
    sharpe_ratio m = 0%R.
Proof.
  destruct scenario_metrics as (m & Hm & _). exists m. split; [exact Hm|].
  apply (sharpe_ratio_zero_without_spread Scenario.account_memory m Hm).
  left. simpl. lia.
Defined.

(** The total return of the rising curve. *)
Lemma total_return_follows_first_and_last_witness :
  exists m,
    FinRLService._calculate_metrics Samples.rising_curve = Ok m /\
    (Rabs (total_return_pct m - (150 / 100 - 1) * 100) < 1 / 100)%R /\
    (100 <= 150 -> 0 <= total_return_pct m)%R /\
    (150 <= 100 -> total_return_pct m <= 0)%R.
Proof.
  apply (total_return_follows_first_and_last Samples.rising_curve
           {| acc_date := 0; account_value := 100 |}
           {| acc_date := timedelta_days 1; account_value := 150 |});
    [reflexivity | reflexivity | simpl; lra].
Defined.

Lemma sample_price_comparison :
  exists rows,
    FinRLService._build_price_comparison Samples.actions_frame
      Scenario.one_year_frame 100 = Ok rows.
Proof. eexists. reflexivity. Qed.

(** The comparison of the two-row frame with an action on its first day. *)
Lemma price_comparison_within_one_percent_witness :
  exists rows,
    FinRLService._build_price_comparison Samples.actions_frame
      Scenario.one_year_frame 100 = Ok rows /\
    (forall row, rows !! 0 = Some row ->
       (Rabs (cmp_predicted_close row - actual_close row)
        <= 0.01 * Rabs (actual_close row))%R) /\
    (forall (i : nat) above row,
       rows !! i = Some above -> rows !! S i = Some row ->
       (Rabs (cmp_predicted_close row - actual_close above)
        <= 0.01 * Rabs (actual_close above))%R).
Proof.
  destruct sample_price_comparison as (rows & Hrows).
  exists rows. split; [exact Hrows|].
  apply (price_comparison_within_one_percent Samples.actions_frame
           Scenario.one_year_frame 100 rows); [discriminate | exact Hrows].
Defined.

(** The outcome for the same frames. *)
Lemma build_price_comparison_outcome_witness :
  (Scenario.one_year_frame = [] /\
   FinRLService._build_price_comparison Samples.actions_frame
     Scenario.one_year_frame 100 = Ok [])
  \/ (Scenario.one_year_frame <> [] /\
      Exists (fun a => long_array (actions a)) Samples.actions_frame /\
      FinRLService._build_price_comparison Samples.actions_frame
        Scenario.one_year_frame 100 = Raise ambiguous_truth_value)
  \/ (Scenario.one_year_frame <> [] /\
      Forall (fun a => ~ long_array (actions a)) Samples.actions_frame /\
      exists rows,
        FinRLService._build_price_comparison Samples.actions_frame
          Scenario.one_year_frame 100 = Ok rows /\ rows <> []).
Proof.
  apply (build_price_comparison_outcome Samples.actions_frame
           Scenario.one_year_frame 100).
  repeat constructor. discriminate.
Defined.

Lemma price_comparison_one_row_per_date_witness :
  exists rows,
    FinRLService._build_price_comparison [] Scenario.one_year_frame 100
    = Ok rows /\
    StronglySorted Z.lt (cmp_date <$> rows) /\
    length rows = length (remove_dups (f_date <$> Scenario.one_year_frame)).
Proof.
  destruct (price_comparison_without_actions Scenario.one_year_frame 100)
    as (rows & Hrows).
  exists rows. split; [exact Hrows|].
  destruct (price_comparison_one_row_per_date [] Scenario.one_year_frame 100
              rows (NoDup_nil_2) Hrows) as (Hsorted & _ & Hlen & _).
  split; [exact Hsorted | exact Hlen].
Defined.

Lemma price_comparison_without_actions_is_neutral_witness :
  exists rows,
    FinRLService._build_price_comparison [] Scenario.one_year_frame 100
    = Ok rows /\
    (forall row, rows !! 0 = Some row ->
       cmp_predicted_close row = actual_close row) /\
    (forall (i : nat) above row,
       rows !! i = Some above -> rows !! S i = Some row ->
       cmp_predicted_close row = actual_close above).
Proof.
  destruct (price_comparison_without_actions Scenario.one_year_frame 100)
    as (rows & Hrows).
  exists rows. split; [exact Hrows|].
  exact (price_comparison_without_actions_is_neutral Scenario.one_year_frame
           100 rows Hrows).
Defined.

Lemma scenario_hit :
  Scenario.get_or_train {["AAPL" := Scenario.sample_entry]} "aapl" 5%Z
  = (Ok Scenario.sample_entry, {["AAPL" := Scenario.sample_entry]}, 5%Z).
Proof.
  apply get_or_train_hit; [apply lookup_singleton_eq | reflexivity].
Qed.

(** A hit on a cache that holds AAPL. *)
Lemma get_or_train_touches_only_its_key_witness :
  (forall key, key <> upper "aapl" ->
     ({["AAPL" := Scenario.sample_entry]} : gmap string FinRLService.CacheEntry)
       !! key
     = ({["AAPL" := Scenario.sample_entry]}
          : gmap string FinRLService.CacheEntry) !! key) /\
  dom ({["AAPL" := Scenario.sample_entry]}
         : gmap string FinRLService.CacheEntry)
  ⊆ dom ({["AAPL" := Scenario.sample_entry]}
           : gmap string FinRLService.CacheEntry).
Proof.
  exact (get_or_train_touches_only_its_key Scenario.settings Scenario.utcnow
           Scenario.yf_download Scenario.INDICATORS Scenario.preprocess_data
           Scenario.data_split Scenario.train_model Scenario.DRL_prediction
           _ "aapl" 5%Z 5%Z _ _ scenario_hit).
Defined.

Lemma get_or_train_keeps_keys_upper_case_witness :
  Scenario.get_or_train {["AAPL" := Scenario.sample_entry]} "aapl" 5%Z
  = (Ok Scenario.sample_entry, {["AAPL" := Scenario.sample_entry]}, 5%Z) ∧
  upper "AAPL" = "AAPL".
Proof.
  split; [exact scenario_hit|].
  apply (get_or_train_keeps_keys_upper_case Scenario.settings Scenario.utcnow
           Scenario.yf_download Scenario.INDICATORS Scenario.preprocess_data
           Scenario.data_split Scenario.train_model Scenario.DRL_prediction
           {["AAPL" := Scenario.sample_entry]} "aapl" 5%Z 5%Z
           (Ok Scenario.sample_entry) {["AAPL" := Scenario.sample_entry]}).
  - intros key Hkey. rewrite dom_singleton_L in Hkey.
    apply elem_of_singleton in Hkey as ->. reflexivity.
  - exact scenario_hit.
  - rewrite dom_singleton_L. apply elem_of_singleton. reflexivity.
Defined.

(** The entry of the scenario's first call, asked for again. *)
Lemma entry_served_until_ttl_after_call_start_witness :
  exists entry cache1,
    Scenario.get_or_train ∅ "aapl" 0%Z
    = (Ok entry, cache1, Scenario.seconds 68) /\
    Scenario.get_or_train cache1 "AAPL" (Scenario.seconds 100)
    = (Ok entry, cache1, Scenario.seconds 100).
Proof.
  destruct (scenario_pipeline 0) as (p & b & Hrun).
  destruct (entry_served_until_ttl_after_call_start Scenario.settings
              Scenario.utcnow Scenario.yf_download Scenario.INDICATORS
              Scenario.preprocess_data Scenario.data_split Scenario.train_model
              Scenario.DRL_prediction ∅ "aapl" "AAPL" 0%Z
              (Scenario.seconds 68) (Scenario.seconds 100) p b
              (scenario_empty_cache_miss "aapl" 0%Z) Hrun eq_refl)
    as (entry & cache1 & Hfirst & Hsoon & _).
  exists entry, cache1. split; [exact Hfirst|].
  apply Hsoon. vm_compute. reflexivity.
Defined.

Lemma lookback_not_empty (w : Z) :
  (Scenario.utcnow w - timedelta_days Predict.LOOKBACK_DAYS
   < Scenario.utcnow w)%Z.
Proof.
  unfold Scenario.utcnow, timedelta_days, Predict.LOOKBACK_DAYS,
    microseconds_per_second. lia.
Qed.

Lemma router_load (w : Z) :
  Predict._load_model RouterScenario.model_path_exists RouterScenario.PPO_load
    None w = (Ok tt, Some tt, (w + Scenario.seconds 3)%Z).
Proof. reflexivity. Qed.

Lemma router_fetch (w : Z) :
  Predict._fetch_market_data Scenario.utcnow RouterScenario.session_get
    Scenario.python "aapl" w
  = (Ok RouterScenario.raw_df, (w + Scenario.seconds 2)%Z).
Proof.
  unfold Predict._fetch_market_data.
  rewrite (download_reads_payload _ _ _ _ _ w (w + Scenario.seconds 2)%Z 200
             RouterScenario.chart_body (lookback_not_empty w) eq_refl)
    by lia.
  unfold RouterScenario.chart_body.
  rewrite frame_of_chart_document by done. reflexivity.
Qed.

Lemma router_fetch_throttled (w : Z) :
  Predict._fetch_market_data Scenario.utcnow
    RouterScenario.session_get_throttled Scenario.python "aapl" w
  = (Raise (ValueError
              "Yahoo Finance rate limit hit. Please wait a moment and try again."),
     (w + Scenario.seconds 1)%Z).
Proof.
  unfold Predict._fetch_market_data, YFinanceClient.download_price_history.
  pose proof (lookback_not_empty w).
  rewrite decide_False by lia. reflexivity.
Qed.

Lemma router_fetch_null_chart (w : Z) :
  Predict._fetch_market_data Scenario.utcnow
    RouterScenario.session_get_null_chart Scenario.python "aapl" w
  = (Raise AttributeError, (w + Scenario.seconds 1)%Z).
Proof.
  unfold Predict._fetch_market_data.
  rewrite (download_reads_payload _ _ _ _ _ w (w + Scenario.seconds 1)%Z 200
             RouterScenario.null_chart_body (lookback_not_empty w) eq_refl)
    by lia.
  reflexivity.
Qed.

Lemma router_run (w : Z) :
  ∃ response,
    RouterScenario.run_prediction None "aapl" w
    = (Ok response, Some tt, (w + Scenario.seconds 6)%Z).
Proof.
  unfold RouterScenario.run_prediction, Predict._run_prediction.
  rewrite router_load.
  rewrite (bind_eval _ _ _ _ _ (router_fetch _)).
  assert (∃ df, Predict._engineer_features Scenario.preprocess_data
                  RouterScenario.raw_df = Ok df) as (df & Hdf)
    by (eexists; reflexivity).
  rewrite (bind_lift_eval _ _ _ _ Hdf).
  rewrite (bind_eval _ _ _
             (w + Scenario.seconds 3 + Scenario.seconds 2 + Scenario.seconds 1)%Z
             ([], RouterScenario.actions_memory)) by reflexivity.
  assert (∃ row, iloc_last RouterScenario.raw_df = Ok row) as (row & Hrow)
    by (eexists; vm_compute; reflexivity).
  rewrite (bind_lift_eval _ _ _ _ Hrow).
  rewrite (bind_lift_eval _ _ _ 50%R) by reflexivity.
  assert (∃ p, _estimate_price (close row) (Some 50%R) 100 = Ok p) as (p & Hp).
  { unfold _estimate_price. rewrite decide_False by lia. eauto. }
  cbn [hmax Predict._build_env_kwargs].
  rewrite (bind_lift_eval _ _ _ _ Hp).
  eexists. f_equal. unfold Scenario.seconds, microseconds_per_second. lia.
Qed.

Lemma scenario_indicator_count (raw_df : list bar) :
  Forall (λ r, length (i_indicators r) = 1)
    (imap Scenario.indicator_row_of raw_df).
Proof.
  apply Forall_lookup. intros i r H. rewrite list_lookup_imap in H.
  destruct (raw_df !! i); [|done]. by injection H as <-.
Qed.


(** The model of the router scenario, loaded from an empty model cache. *)
Lemma load_model_loads_once_witness :
  Some tt = Some tt ∧
  ∀ w2 : Z,
    Predict._load_model RouterScenario.model_path_exists
      RouterScenario.PPO_load (Some tt) w2
    = (Ok tt, Some tt, w2).
Proof.
  exact (load_model_loads_once RouterScenario.model_path_exists
           RouterScenario.PPO_load None (Some tt) 0%Z
           (0 + Scenario.seconds 3)%Z tt (router_load 0%Z)).
Defined.

(** The router scenario without its model file. *)
Lemma predict_without_model_file_witness :
  Endpoints.predict Scenario.utcnow RouterScenario.session_get
    Scenario.python RouterScenario.model_path_missing RouterScenario.PPO_load
    Scenario.INDICATORS Scenario.preprocess_data RouterScenario.DRL_prediction
    Samples.MODEL_PATH None "aapl" 0%Z
  = (inr {| Endpoints.status_code := 500;
            Endpoints.detail :=
              "Missing PPO model at /srv/backend/ppo_model.zip. Train one via `python3 train_model.py`." |},
     None, 0%Z).
Proof.
  apply (predict_without_model_file Scenario.utcnow RouterScenario.session_get
           Scenario.python RouterScenario.model_path_missing
           RouterScenario.PPO_load
           Scenario.INDICATORS Scenario.preprocess_data
           RouterScenario.DRL_prediction Samples.MODEL_PATH None "aapl" 0%Z).
  reflexivity.
Defined.


(** The router scenario with a provider that throttles, and with one whose
    document has a null chart. *)
Lemma predict_answers_fetch_failure_witness :
  Endpoints.predict Scenario.utcnow RouterScenario.session_get_throttled
    Scenario.python RouterScenario.model_path_exists RouterScenario.PPO_load
    Scenario.INDICATORS Scenario.preprocess_data
    RouterScenario.DRL_prediction Samples.MODEL_PATH None "aapl" 0%Z
  = (inr {| Endpoints.status_code := 400;
            Endpoints.detail :=
              "Yahoo Finance rate limit hit. Please wait a moment and try again." |},
     Some tt, (0 + Scenario.seconds 3 + Scenario.seconds 1)%Z) ∧
  Endpoints.predict Scenario.utcnow RouterScenario.session_get_null_chart
    Scenario.python RouterScenario.model_path_exists RouterScenario.PPO_load
    Scenario.INDICATORS Scenario.preprocess_data
    RouterScenario.DRL_prediction Samples.MODEL_PATH None "aapl" 0%Z
  = (inr {| Endpoints.status_code := 500;
            Endpoints.detail := "Unexpected prediction failure" |},
     Some tt, (0 + Scenario.seconds 3 + Scenario.seconds 1)%Z).
Proof.
  split.
  - apply (predict_answers_fetch_failure Scenario.utcnow
             RouterScenario.session_get_throttled Scenario.python
             RouterScenario.model_path_exists RouterScenario.PPO_load
             Scenario.INDICATORS Scenario.preprocess_data
             RouterScenario.DRL_prediction Samples.MODEL_PATH None (Some tt)
             "aapl" 0%Z (0 + Scenario.seconds 3)%Z
             (0 + Scenario.seconds 3 + Scenario.seconds 1)%Z tt
             (ValueError
                "Yahoo Finance rate limit hit. Please wait a moment and try again.")
             (router_load 0%Z) (router_fetch_throttled _)).
    discriminate.
  - apply (predict_answers_fetch_failure Scenario.utcnow
             RouterScenario.session_get_null_chart Scenario.python
             RouterScenario.model_path_exists RouterScenario.PPO_load
             Scenario.INDICATORS Scenario.preprocess_data
             RouterScenario.DRL_prediction Samples.MODEL_PATH None (Some tt)
             "aapl" 0%Z (0 + Scenario.seconds 3)%Z
             (0 + Scenario.seconds 3 + Scenario.seconds 1)%Z tt
             AttributeError
             (router_load 0%Z) (router_fetch_null_chart _)).
    discriminate.
Defined.

(** The response of the router scenario, whose simulation ends with the
    action 50. *)
Lemma prediction_response_is_consistent_witness :
  ∃ response,
    RouterScenario.run_prediction None "aapl" 0%Z
    = (Ok response, Some tt, (0 + Scenario.seconds 6)%Z) ∧
    Predict.r_symbol response = "AAPL" ∧
    Predict.r_predicted_next_close response
    = py_round (Predict.r_latest_close response
                * (1 + tanh (50 / IZR 100) * 0.01)) 4.
Proof.
  destruct (router_run 0%Z) as (response & Hrun).
  exists response. split; [exact Hrun|].
  destruct (prediction_response_is_consistent Scenario.utcnow
              RouterScenario.session_get Scenario.python
              RouterScenario.model_path_exists
              RouterScenario.PPO_load Scenario.INDICATORS
              Scenario.preprocess_data RouterScenario.DRL_prediction
              None (Some tt) "aapl" 0%Z (0 + Scenario.seconds 6)%Z response
              Hrun)
    as (model & w1 & raw_df & w2 & processed & account_memory & actions_frame
        & _ & _ & _ & Hsimulation & Hsymbol & _ & _ & _ & _ & _
        & (action & Haction & Hpredicted) & _).
  split; [exact Hsymbol|].
  injection Hsimulation as _ <- _. injection Haction as <-.
  exact Hpredicted.
Defined.

(** The prediction payload of the scenario, which has no action. *)
Lemma prediction_payload_is_consistent_witness :
  ∃ payload,
    FinRLService._build_prediction_payload Scenario.utcnow "AAPL"
      Scenario.raw_df [] (Predict._build_env_kwargs Scenario.INDICATORS 1) 0%Z
    = (Ok payload, 0%Z) ∧
    symbol payload = "AAPL" ∧
    predicted_next_close payload = latest_close payload.
Proof.
  destruct (scenario_prediction "AAPL"
              (Predict._build_env_kwargs Scenario.INDICATORS 1) 0%Z)
    as (payload & Hpayload).
  exists payload. split; [exact Hpayload|].
  destruct (prediction_payload_is_consistent Scenario.utcnow "AAPL"
              Scenario.raw_df [] _ 0%Z 0%Z payload Hpayload)
    as (_ & Hsymbol & _ & _ & _ & _ & Hpredicted).
  split; [exact Hsymbol | exact Hpredicted].
Defined.

(** A symbol for which the provider returns nothing. *)
Lemma backtest_of_unknown_symbol_is_400_witness :
  Endpoints.backtest_strategy Scenario.settings Scenario.utcnow
    Scenario.yf_download_nothing Scenario.INDICATORS Scenario.preprocess_data
    Scenario.data_split Scenario.train_model Scenario.DRL_prediction
    ∅ "zzzz" 0%Z
  = (inr {| Endpoints.status_code := 400;
            Endpoints.detail :=
              "No Yahoo Finance data returned for ZZZZ. Check the ticker symbol." |},
     ∅, (0 + Scenario.seconds 7)%Z).
Proof.
  apply (backtest_of_unknown_symbol_is_400 Scenario.settings Scenario.utcnow
           Scenario.yf_download_nothing Scenario.INDICATORS
           Scenario.preprocess_data Scenario.data_split Scenario.train_model
           Scenario.DRL_prediction ∅ "zzzz" 0%Z (0 + Scenario.seconds 7)%Z).
  - apply scenario_empty_cache_miss.
  - reflexivity.
Defined.

(** The features of the scenario's price frame. *)
Lemma engineer_features_drops_only_leading_rows_witness :
  ∃ (df : list feature_row) (n : nat),
    FinRLService._engineer_features Scenario.preprocess_data Scenario.raw_df
    = Ok df ∧
    Predict._engineer_features Scenario.preprocess_data Scenario.raw_df
    = Ok df ∧
    nullable <$> df
    = drop n (ffill (imap Scenario.indicator_row_of Scenario.raw_df)) ∧
    f_date <$> df
    = drop n (i_date <$> imap Scenario.indicator_row_of Scenario.raw_df).
Proof.
  exact (engineer_features_drops_only_leading_rows Scenario.preprocess_data
           Scenario.raw_df (imap Scenario.indicator_row_of Scenario.raw_df) 1
           eq_refl (scenario_indicator_count Scenario.raw_df)).
Defined.

(** The environment of the two-row AAPL frame. *)
Lemma env_kwargs_of_single_ticker_witness :
  stock_dim
    (FinRLService._build_env_kwargs Scenario.INDICATORS Scenario.one_year_frame)
  = 1 ∧
  state_space
    (FinRLService._build_env_kwargs Scenario.INDICATORS Scenario.one_year_frame)
  = 4.
Proof.
  destruct (env_kwargs_of_single_ticker Scenario.INDICATORS
              Scenario.one_year_frame "AAPL")
    as (Hdim & _ & Hstate & _).
  - discriminate.
  - repeat constructor.
  - split; [exact Hdim | exact Hstate].
Defined.

(** The split of the scenario's features. *)
Lemma split_dataframes_success_witness :
  ∃ train test,
    FinRLService._split_dataframes Scenario.settings Scenario.data_split
      Scenario.processed_df = Ok (train, test) ∧
    train ≠ [] ∧ test ≠ [].
Proof.
  destruct scenario_split as (train & test & Hsplit).
  exists train, test. split; [exact Hsplit|].
  destruct (split_dataframes_success Scenario.settings Scenario.data_split
              Scenario.processed_df train test Hsplit)
    as (lo & hi & _ & _ & _ & _ & _ & _ & Htrain & Htest).
  split; [exact Htrain | exact Htest].
Defined.

Lemma origins_value_is_ascii : is_ascii Samples.origins_value.
Proof. unfold is_ascii. simpl. repeat constructor; simpl; lia. Qed.

(** Two origins separated by a comma and a space. *)
Lemma parse_origins_returns_clean_origins_witness :
  Forall (λ origin,
            origin ≠ EmptyString ∧
            Config.strip origin = origin ∧
            (Config.comma ∉ String.list_ascii_of_string origin) ∧
            ∀ c, c ∈ String.list_ascii_of_string origin →
                 c ∈ String.list_ascii_of_string Samples.origins_value)
    (Config._parse_origins (Some Samples.origins_value)).
Proof.
  destruct (parse_origins_returns_clean_origins Samples.origins_value)
    as (_ & _ & Hclean).
  - discriminate.
  - exact origins_value_is_ascii.
  - exact Hclean.
Defined.

(** A value of blanks and commas. *)
Lemma blank_origins_allow_every_origin_witness :
  Config._parse_origins (Some Samples.blank_value) = [] ∧
  Config.allow_origins (Config._parse_origins (Some Samples.blank_value))
  = ["*"].
Proof.
  apply (blank_origins_allow_every_origin Samples.blank_value).
  - discriminate.
  - simpl. repeat constructor; (by left) || (by right).
Defined.

(** Two origins joined by commas. *)
Lemma parse_origins_of_joined_origins_witness :
  Config._parse_origins (Some "http://a.example,http://b.example")
  = ["http://a.example"; "http://b.example"].
Proof.
  apply (parse_origins_of_joined_origins Samples.origins).
  - discriminate.
  - unfold is_ascii. simpl. repeat constructor; simpl; lia.
  - repeat constructor; try discriminate; try reflexivity;
      (simpl; intros Hin; repeat (apply elem_of_cons in Hin as [Hin|Hin];
                                   [discriminate|]);
       by apply elem_of_nil in Hin).
Defined.

Lemma long_download (w : Z) :
  FinRLService._download_market_data Scenario.settings Scenario.utcnow
    LongScenario.yf_download "AAPL" w
  = (Ok LongScenario.raw_df, (w + Scenario.seconds 7)%Z).
Proof. reflexivity. Qed.

Lemma long_raw_df_length : length LongScenario.raw_df = 300.
Proof.
  unfold LongScenario.raw_df. rewrite sort_values_date_length.
  vm_compute. reflexivity.
Qed.

Lemma long_split :
  ∃ train_df test_df,
    FinRLService._split_dataframes Scenario.settings Scenario.data_split
      (dropna (ffill (imap Scenario.indicator_row_of LongScenario.raw_df)))
    = Ok (train_df, test_df).
Proof. eexists. eexists. vm_compute. reflexivity. Qed.

Lemma long_fetch (w : Z) :
  Predict._fetch_market_data Scenario.utcnow LongScenario.session_get
    Scenario.python "aapl" w
  = (Ok LongScenario.router_raw_df, (w + Scenario.seconds 2)%Z).
Proof.
  unfold Predict._fetch_market_data.
  rewrite (download_reads_payload _ _ _ _ _ w (w + Scenario.seconds 2)%Z 200
             (ChartDocument.of_results JNull LongScenario.chart_results)
             (lookback_not_empty w) eq_refl)
    by lia.
  rewrite frame_of_chart_document by done. reflexivity.
Qed.

Lemma long_router_raw_df_length : length LongScenario.router_raw_df = 300.
Proof.
  unfold LongScenario.router_raw_df. rewrite sort_values_date_length.
  vm_compute. reflexivity.
Qed.

(** The price histories of the two paths in the scenario of 300 bars: the
    training pipeline and the prediction router both return a payload, and
    its history shows 240 of the 300 bars of the run's own download. *)
Lemma price_history_is_most_recent_240_bars_witness :
  (∃ prediction backtest w',
     LongScenario.run_pipeline "AAPL" 0%Z = (Ok (prediction, backtest), w') ∧
     length LongScenario.raw_df = 300 ∧
     length (price_history prediction) = 240 ∧
     recent_history LongScenario.raw_df (price_history prediction)) ∧
  (∃ response w',
     LongScenario.run_prediction None "aapl" 0%Z
     = (Ok response, Some tt, w') ∧
     length LongScenario.router_raw_df = 300 ∧
     length (Predict.r_price_history response) = 240 ∧
     recent_history LongScenario.router_raw_df
       (Predict.r_price_history response)).
Proof.
  split.
  - destruct (price_history_is_most_recent_240_bars Scenario.settings
                Scenario.utcnow LongScenario.yf_download
                LongScenario.session_get Scenario.python
                RouterScenario.model_path_exists RouterScenario.PPO_load
                Scenario.INDICATORS Scenario.preprocess_data
                Scenario.data_split Scenario.train_model
                Scenario.DRL_prediction "AAPL" 0%Z (0 + Scenario.seconds 7)%Z
                LongScenario.raw_df (or_introl (long_download 0%Z)))
      as (Hlen & Hrecent & Htraining & _).
    destruct (Htraining (long_download 0%Z)) as (_ & Hreturned).
    destruct long_split as (train_df & test_df & Hsplit).
    destruct (scenario_backtest "AAPL" test_df
                (FinRLService._build_env_kwargs Scenario.INDICATORS train_df)
                (0 + Scenario.seconds 7 + Scenario.seconds 60
                 + Scenario.seconds 1)%Z) as (backtest & Hbacktest & _).
    destruct (Hreturned _ train_df test_df tt Scenario.account_memory [] None
                backtest _ _ _ eq_refl Hsplit eq_refl eq_refl eq_refl
                Hbacktest) as (prediction & Hrun & Hhistory).
    exists prediction, backtest. eexists. split; [exact Hrun|].
    split; [exact long_raw_df_length|]. rewrite Hhistory.
    split; [|exact Hrecent]. rewrite Hlen, long_raw_df_length. reflexivity.
  - destruct (price_history_is_most_recent_240_bars Scenario.settings
                Scenario.utcnow LongScenario.yf_download
                LongScenario.session_get Scenario.python
                RouterScenario.model_path_exists RouterScenario.PPO_load
                Scenario.INDICATORS Scenario.preprocess_data
                Scenario.data_split Scenario.train_model
                RouterScenario.DRL_prediction "aapl"
                (0 + Scenario.seconds 3)%Z
                (0 + Scenario.seconds 3 + Scenario.seconds 2)%Z
                LongScenario.router_raw_df (or_intror (long_fetch _)))
      as (Hlen & Hrecent & _ & Hrouter).
    destruct (Hrouter (long_fetch _) None (Some tt) tt 0%Z (router_load 0%Z))
      as (_ & Hreturned).
    destruct (Hreturned _ [] RouterScenario.actions_memory 50%R _
                eq_refl eq_refl eq_refl) as (response & Hrun & Hhistory).
    exists response. eexists. split; [exact Hrun|].
    split; [exact long_router_raw_df_length|]. rewrite Hhistory.
    split; [|exact Hrecent]. rewrite Hlen, long_router_raw_df_length.
    reflexivity.
Defined.
